(** * CreditSea loan management: lifecycle, access gates and dashboard

    A shallow embedding of the Express/Mongoose backend:
    - [middleware/auth.ts]   : [authenticateToken], [authorizeRole]
    - [routes/loans.ts]      : apply, list, get one, verify
    - [routes/admin.ts]      : approve, and the four user routes
    - [routes/dashboard.ts]  : [/stats] and [/recent-loans]
    - [models/Loan.ts], [models/User.ts] : the two collections

    Handlers are functions from a request and the database to a response
    and the database afterwards.  An exception raised inside a handler's
    [try] block is an [Outcome] that the handler's [catch] turns into its
    500 (or, in [authenticateToken], 403) response. *)

From stdpp Require Import gmap strings list fin_maps sorting pretty.
From Stdlib Require Import QArith Qround Ascii SpecFloat.

Set Warnings "-register-all".
Open Scope string_scope.

(** ** JavaScript values *)

Abbreviation ObjectId := string (only parsing).
Abbreviation Date := Z (only parsing).

(** What a request body can hold and what [res.json] sends. *)
Inductive JsValue :=
| JUndefined
| JNull
| JBool (b : bool)
| JNum (q : Q)
| JStr (s : string)
| JDate (t : Date)
| JArr (xs : list JsValue)
| JObj (fields : list (string * JsValue)).

(** [!v] is [negb (truthy v)]. *)
Definition truthy (v : JsValue) : bool :=
  match v with
  | JUndefined | JNull => false
  | JBool b => b
  | JNum q => negb (Qeq_bool q 0%Q)
  | JStr s => negb (String.eqb s EmptyString)
  | JDate _ | JArr _ | JObj _ => true
  end.

(** [v === s] for a string literal [s]. *)
Definition strict_eq (v : JsValue) (s : string) : bool :=
  match v with
  | JStr s' => String.eqb s' s
  | _ => false
  end.

(** [verbs.includes(v)] for an array of string literals. *)
Definition includes (verbs : list string) (v : JsValue) : bool :=
  existsb (strict_eq v) verbs.

(** Lookup of a property, [undefined] when absent. *)
Fixpoint lookup_field (k : string) (fields : list (string * JsValue)) : JsValue :=
  match fields with
  | [] => JUndefined
  | (k', v) :: rest => if String.eqb k' k then v else lookup_field k rest
  end.

Definition get (k : string) (v : JsValue) : JsValue :=
  match v with
  | JObj fields => lookup_field k fields
  | _ => JUndefined
  end.

(** Does the property name [k] occur anywhere inside [v]? *)
Fixpoint has_key (k : string) (v : JsValue) : bool :=
  match v with
  | JArr xs => existsb (has_key k) xs
  | JObj fields =>
      existsb (fun kv => match kv with
                         | (k', v') => String.eqb k' k || has_key k v'
                         end) fields
  | _ => false
  end.

Definition keys (v : JsValue) : list string :=
  match v with
  | JObj fields => map fst fields
  | _ => []
  end.

(** An optional property: left out of the object when unset. *)
Definition opt_field {A} (k : string) (f : A -> JsValue) (o : option A)
  : list (string * JsValue) :=
  match o with
  | Some a => [(k, f a)]
  | None => []
  end.

(** ** Responses *)

Record Response := { statusCode : nat; json : JsValue }.

(** [res.status(code).json({ success: false, message })] *)
Definition failure (code : nat) (message : string) : Response :=
  {| statusCode := code;
     json := JObj [("success", JBool false); ("message", JStr message)] |}.

(** [res.json({ success: true, message, data })] *)
Definition success (message : string) (data : JsValue) : Response :=
  {| statusCode := 200;
     json := JObj [("success", JBool true); ("message", JStr message);
                   ("data", data)] |}.

(** [res.json({ success: true, data })] *)
Definition success_data (data : JsValue) : Response :=
  {| statusCode := 200;
     json := JObj [("success", JBool true); ("data", data)] |}.

Definition dq : string := String (ascii_of_nat 34) EmptyString.

(** A computation inside [try]: it returns or throws. *)
Inductive Outcome (A : Type) :=
| Return (a : A)
| Throw (error : string).
Arguments Return {A} a.
Arguments Throw {A} error.

(** A middleware either calls [next()] with the request context it built
    or answers the request itself. *)
Inductive Gate (A : Type) :=
| Next (ctx : A)
| Respond (res : Response).
Arguments Next {A} ctx.
Arguments Respond {A} res.

(** ** Numbers read from the query string *)

(** What [parseInt] returns: an integer or [NaN]. *)
Inductive JsInt :=
| Integer (z : Z)
| NotANumber.

(** [a - 1] and [a * b]; [NaN] is contagious. *)
Definition js_pred (a : JsInt) : JsInt :=
  match a with
  | Integer z => Integer (z - 1)
  | NotANumber => NotANumber
  end.

Definition js_mul (a b : JsInt) : JsInt :=
  match a, b with
  | Integer x, Integer y => Integer (x * y)
  | _, _ => NotANumber
  end.

(** A number in a response: [JSON.stringify] writes [NaN] and the
    infinities as [null]. *)
Definition js_int (a : JsInt) : JsValue :=
  match a with
  | Integer z => JNum (inject_Z z)
  | NotANumber => JNull
  end.

(** What a cursor with [.skip(s).limit(l)] yields of the sorted matches:
    the documents after the first [skip], all of them or at most [limit];
    or the server refuses the command and the query throws. *)
Inductive Window :=
| Slice (skip : nat) (limit : option nat)
| Refused.

(** ** Third-party functions

    The routes call into jsonwebtoken, bson, Mongoose's schema casting,
    the MongoDB driver and server, validator.js and the built-in
    [parseInt].  Their code is not part of the repository; the embedding
    is parametric in them. *)
Class Platform := {
  (** [jwt.verify(token, secret)]: the decoded [userId], or [None] when
      it throws (bad signature, malformed or expired token). *)
  jwt_verify : string -> string -> option string;
  (** whether a string casts to an ObjectId; [findById] throws a
      CastError otherwise *)
  isValidObjectId : string -> bool;
  (** the ObjectId a string casts to, as [toString()] writes it; several
      spellings cast to one ObjectId (hex digits in either case) *)
  castObjectId : string -> ObjectId;
  (** the cast of a value written to a [String] path with [trim: true];
      [None] is a CastError *)
  castString : JsValue -> option string;
  (** whether the server accepts the pattern of a [$regex]; a query with
      a pattern it does not accept throws *)
  regexValid : string -> bool;
  (** [{ $regex: pattern, $options: 'i' }] applied to a field *)
  regexTest : string -> string -> bool;
  isEmail : string -> bool;
  normalizeEmail : string -> string;
  trim : string -> string;
  (** [parseInt(s)]: an integer, or [NaN] when the string starts with no
      digits *)
  parseInt : string -> JsInt;
  (** what driver and server make of [.skip(s).limit(l)] when one of the
      two is [NaN] or the limit is negative: this depends on their
      versions *)
  odd_window : JsInt -> JsInt -> Window;
}.

(** ** models/User.ts *)

Inductive Role := admin | verifier.

Definition role_name (r : Role) : string :=
  match r with
  | admin => "admin"
  | verifier => "verifier"
  end.

Module User.
Record IUser := {
  email : string;
  password : option string;  (* [None] after [.select('-password')] *)
  role : Role;
  name : string;
  createdAt : Date;
  updatedAt : Date;
  isActive : bool;
}.

(** The document as an object, every stored path included, and the
    version key Mongoose adds. *)
Definition toObject (id : ObjectId) (u : IUser) : JsValue :=
  JObj ([("_id", JStr id); ("email", JStr (email u))]
        ++ opt_field "password" JStr (password u)
        ++ [("role", JStr (role_name (role u))); ("name", JStr (name u));
            ("isActive", JBool (isActive u));
            ("createdAt", JDate (createdAt u));
            ("updatedAt", JDate (updatedAt u));
            ("__v", JNum 0)]).

(** [.select('-password')] *)
Definition without_password (u : IUser) : IUser :=
  {| email := email u; password := None; role := role u; name := name u;
     createdAt := createdAt u; updatedAt := updatedAt u;
     isActive := isActive u |}.
End User.

(** ** models/Loan.ts *)

Module Loan.
Record Documents := {
  idProof : option string;
  incomeProof : option string;
  addressProof : option string;
}.

Definition no_documents : Documents :=
  {| idProof := None; incomeProof := None; addressProof := None |}.

Record ILoan := {
  applicantName : string;
  email : string;
  phoneNumber : string;
  loanAmount : Q;
  loanPurpose : string;
  employmentStatus : string;
  monthlyIncome : Q;
  creditScore : option Q;
  status : string;
  verifiedBy : option ObjectId;
  approvedBy : option ObjectId;
  verificationDate : option Date;
  approvalDate : option Date;
  rejectionReason : option string;
  documents : Documents;
  createdAt : Date;
  updatedAt : Date;
}.

(** [type LoanStatus = 'pending' | 'verified' | 'approved' | 'rejected'],
    also the schema's [enum]. *)
Definition LoanStatus : list string :=
  ["pending"; "verified"; "approved"; "rejected"].

Definition employmentStatuses : list string :=
  ["employed"; "self-employed"; "unemployed"; "retired"].

Definition documents_toObject (d : Documents) : JsValue :=
  JObj (opt_field "idProof" JStr (idProof d)
        ++ opt_field "incomeProof" JStr (incomeProof d)
        ++ opt_field "addressProof" JStr (addressProof d)).

(** The nested [documents] path: an empty object is left out
    ([minimize]). *)
Definition documents_field (d : Documents) : list (string * JsValue) :=
  match idProof d, incomeProof d, addressProof d with
  | None, None, None => []
  | _, _, _ => [("documents", documents_toObject d)]
  end.

(** The document as an object; references are ObjectIds until populated;
    the version key comes last. *)
Definition toObject (id : ObjectId) (l : ILoan) : JsValue :=
  JObj ([("_id", JStr id);
         ("applicantName", JStr (applicantName l));
         ("email", JStr (email l));
         ("phoneNumber", JStr (phoneNumber l));
         ("loanAmount", JNum (loanAmount l));
         ("loanPurpose", JStr (loanPurpose l));
         ("employmentStatus", JStr (employmentStatus l));
         ("monthlyIncome", JNum (monthlyIncome l))]
        ++ opt_field "creditScore" JNum (creditScore l)
        ++ [("status", JStr (status l))]
        ++ opt_field "verifiedBy" JStr (verifiedBy l)
        ++ opt_field "approvedBy" JStr (approvedBy l)
        ++ opt_field "verificationDate" JDate (verificationDate l)
        ++ opt_field "approvalDate" JDate (approvalDate l)
        ++ opt_field "rejectionReason" JStr (rejectionReason l)
        ++ documents_field (documents l)
        ++ [("createdAt", JDate (createdAt l));
            ("updatedAt", JDate (updatedAt l));
            ("__v", JNum 0)]).
End Loan.

(** The [updateData] object handed to [findByIdAndUpdate]: the keys the
    handler has put in are [Some]. *)
Module Update.
Record UpdateData := {
  status : option string;
  verifiedBy : option ObjectId;
  verificationDate : option Date;
  approvedBy : option ObjectId;
  approvalDate : option Date;
  rejectionReason : option JsValue;
}.
End Update.

(** ** The database: two collections keyed by [_id] *)

Record Db := {
  users : gmap string User.IUser;
  loans : gmap string Loan.ILoan;
}.

(** [process.env] *)
Record Env := { JWT_SECRET : option string }.

(** [req.user]: the document [authenticateToken] attached, with its key. *)
Record ReqUser := { _id : ObjectId; profile : User.IUser }.

Definition bind {A B} (m : Outcome A) (k : A -> Outcome B) : Outcome B :=
  match m with
  | Return a => k a
  | Throw e => Throw e
  end.

Notation "'let*' x ':=' m 'in' k" := (bind m (fun x => k))
  (at level 10, x name, m at level 100, k at level 200).

(** [s.split(sep)] for a one-character separator. *)
Fixpoint split (sep : ascii) (s : string) : list string :=
  match s with
  | EmptyString => [EmptyString]
  | String c rest =>
      if Ascii.eqb c sep then EmptyString :: split sep rest
      else match split sep rest with
           | [] => [String c EmptyString]
           | w :: ws => String c w :: ws
           end
  end.

(** [authHeader && authHeader.split(' ')[1]], with the falsy results
    ([undefined] and the empty string) as [None]. *)
Definition bearer_token (authHeader : option string) : option string :=
  match authHeader with
  | None => None
  | Some h =>
      match split " "%char h !! 1%nat with
      | Some t => if String.eqb t EmptyString then None else Some t
      | None => None
      end
  end.

(** ** The percentage arithmetic of the dashboard

    JavaScript numbers are IEEE 754 doubles: [spec_float] with a
    precision of 53 bits, its operations rounding to nearest even. *)
Definition prec : Z := 53.
Definition emax : Z := 1024.

(** A count as a double; counts below 2^53 are exact. *)
Definition of_count (n : nat) : spec_float :=
  binary_normalize prec emax (Z.of_nat n) 0 false.

(** [a / b] for two counts *)
Definition div_counts (a b : nat) : spec_float :=
  SFdiv prec emax (of_count a) (of_count b).

(** [x * 100] *)
Definition times100 (x : spec_float) : spec_float :=
  SFmul prec emax x (of_count 100).

(** The value of the finite double with mantissa [m] and exponent [e]. *)
Definition exact (m : positive) (e : Z) : Q :=
  match e with
  | Z0 => inject_Z (Z.pos m)
  | Z.pos k => inject_Z (Z.pos m * 2 ^ Z.pos k)
  | Z.neg k => Z.pos m # 2 ^ k
  end.

(** The integer [n] with [n / 10] nearest to a non-negative [q], the
    larger one on a tie: the digits [toFixed(1)] prints. *)
Definition tenths (q : Q) : Z := Qfloor (q * 10 + (1 # 2))%Q.

(** [x.toFixed(1)], for a double below 10^21 in magnitude, as every
    percentage of two counts below 2^53 is. *)
Definition toFixed1 (x : spec_float) : string :=
  match x with
  | S754_nan => "NaN"
  | S754_infinity s => if s then "-Infinity" else "Infinity"
  | S754_zero _ => "0.0"
  | S754_finite s m e =>
      let n := Z.to_N (tenths (exact m e)) in
      (if s then "-" else EmptyString)
      ++ pretty (n / 10)%N ++ "." ++ pretty (n mod 10)%N
  end.

(** [(count / total * 100).toFixed(1)] *)
Definition percentage (count total : nat) : string :=
  toFixed1 (times100 (div_counts count total)).

(** ** Request payloads *)

(** The body of [POST /api/loans/apply], its fields at their schema types. *)
Module Body.
Record Application := {
  applicantName : string;
  email : string;
  phoneNumber : string;
  loanAmount : Q;
  loanPurpose : string;
  employmentStatus : string;
  monthlyIncome : Q;
  creditScore : option Q;
  documents : option Loan.Documents;
}.
End Body.

(** [const { action, rejectionReason } = req.body] of the two transition
    routes: any JSON value, [JUndefined] for a missing key. *)
Record TransitionBody := {
  action : JsValue;
  rejectionReason : JsValue;
}.

(** [req.query] of [GET /api/loans]: the strings of the query string,
    [None] for a parameter that is not there. *)
Module Query.
Record Params := {
  status : option string;
  page : option string;
  limit : option string;
  search : option string;
}.
End Query.

Section Embedding.
Context {P : Platform}.

(** ** Mongoose queries *)

(** [Model.findById(id)]: the id is cast first, and the document is
    looked up under the ObjectId it casts to. *)
Definition findById {A} (id : string) (coll : gmap string A)
  : Outcome (option A) :=
  if isValidObjectId id then Return (coll !! castObjectId id)
  else Throw "CastError".

(** The [$set] of an update: the keys present in [updateData] replace the
    stored values, and [timestamps: true] stamps [updatedAt]. *)
Definition set_fields (upd : Update.UpdateData) (reason : option string)
    (now : Date) (l : Loan.ILoan) : Loan.ILoan :=
  {| Loan.applicantName := Loan.applicantName l;
     Loan.email := Loan.email l;
     Loan.phoneNumber := Loan.phoneNumber l;
     Loan.loanAmount := Loan.loanAmount l;
     Loan.loanPurpose := Loan.loanPurpose l;
     Loan.employmentStatus := Loan.employmentStatus l;
     Loan.monthlyIncome := Loan.monthlyIncome l;
     Loan.creditScore := Loan.creditScore l;
     Loan.status := default (Loan.status l) (Update.status upd);
     Loan.verifiedBy :=
       match Update.verifiedBy upd with
       | Some u => Some u
       | None => Loan.verifiedBy l
       end;
     Loan.approvedBy :=
       match Update.approvedBy upd with
       | Some u => Some u
       | None => Loan.approvedBy l
       end;
     Loan.verificationDate :=
       match Update.verificationDate upd with
       | Some d => Some d
       | None => Loan.verificationDate l
       end;
     Loan.approvalDate :=
       match Update.approvalDate upd with
       | Some d => Some d
       | None => Loan.approvalDate l
       end;
     Loan.rejectionReason :=
       match reason with
       | Some r => Some r
       | None => Loan.rejectionReason l
       end;
     Loan.documents := Loan.documents l;
     Loan.createdAt := Loan.createdAt l;
     Loan.updatedAt := now |}.

(** The schema cast of [updateData]: only [rejectionReason] carries a
    value from the request body. *)
Definition cast_update (upd : Update.UpdateData) : Outcome (option string) :=
  match Update.rejectionReason upd with
  | None => Return None
  | Some v =>
      match castString v with
      | Some s => Return (Some s)
      | None => Throw "CastError"
      end
  end.

(** [Loan.findByIdAndUpdate(id, updateData, { new: true })]: the updated
    document ([null] when no document has that id) and the collection
    afterwards. *)
Definition findByIdAndUpdate (id : string) (upd : Update.UpdateData)
    (now : Date) (coll : gmap string Loan.ILoan)
  : Outcome (option Loan.ILoan * gmap string Loan.ILoan) :=
  if isValidObjectId id then
    let* reason := cast_update upd in
    match coll !! castObjectId id with
    | None => Return (None, coll)
    | Some l =>
        let l' := set_fields upd reason now l in
        Return (Some l', <[castObjectId id := l']> coll)
    end
  else Throw "CastError".

(** The projection of a populated document: its [_id] and the selected
    paths. *)
Definition select_paths (paths : list string) (doc : JsValue) : JsValue :=
  match doc with
  | JObj fields =>
      JObj (filter (fun kv => String.eqb (fst kv) "_id" = true
                              \/ fst kv ∈ paths) fields)
  | _ => doc
  end.

(** One populated reference: the referenced user's projection, [null]
    when no user has that id. *)
Definition populate_ref (paths : list string) (us : gmap string User.IUser)
    (ref : JsValue) : JsValue :=
  match ref with
  | JStr id =>
      match us !! id with
      | Some u => select_paths paths (User.toObject id u)
      | None => JNull
      end
  | _ => ref
  end.

(** [.populate(path, 'name email')] on a loan document *)
Definition populate (path : string) (paths : list string)
    (us : gmap string User.IUser) (doc : JsValue) : JsValue :=
  match doc with
  | JObj fields =>
      JObj (map (fun kv => if String.eqb (fst kv) path
                           then (fst kv, populate_ref paths us (snd kv))
                           else kv) fields)
  | _ => doc
  end.

(** A query result sent as JSON: [null] or the document. *)
Definition or_null (o : option JsValue) : JsValue := default JNull o.

(** The filter object the list route builds. *)
Record LoanQuery := {
  query_status : option string;
  query_or : option string;   (* the [$or] of three [$regex] clauses *)
}.

Definition matches (q : LoanQuery) (l : Loan.ILoan) : bool :=
  match query_status q with
  | Some s => String.eqb (Loan.status l) s
  | None => true
  end
  &&
  match query_or q with
  | Some pat => regexTest pat (Loan.applicantName l)
                || regexTest pat (Loan.email l)
                || regexTest pat (Loan.phoneNumber l)
  | None => true
  end.

Definition newest_first (a b : string * Loan.ILoan) : Prop :=
  (Loan.createdAt (snd b) <= Loan.createdAt (snd a))%Z.

#[local] Instance newest_first_dec a b : Decision (newest_first a b).
Proof. unfold newest_first. apply _. Defined.

(** [Loan.find(query).sort({ createdAt: -1 })] *)
Definition find_sorted (q : LoanQuery) (coll : gmap string Loan.ILoan)
  : list (string * Loan.ILoan) :=
  merge_sort newest_first
    (filter (fun kv => matches q (snd kv) = true) (map_to_list coll)).

(** [Loan.countDocuments(query)] *)
Definition countDocuments (q : LoanQuery) (coll : gmap string Loan.ILoan)
  : nat :=
  length (filter (fun kv => matches q (snd kv) = true) (map_to_list coll)).

(** The server parses the filter before it runs the query. *)
Definition query_valid (q : LoanQuery) : bool :=
  match query_or q with
  | Some pat => regexValid pat
  | None => true
  end.

(** What [.skip(skip).limit(limitNum)] asks for.  A negative skip is
    refused; a limit of zero is no limit. *)
Definition window (skip limitNum : JsInt) : Window :=
  match skip, limitNum with
  | Integer s, Integer l =>
      if (s <? 0)%Z then Refused
      else if (l <? 0)%Z then odd_window skip limitNum
      else Slice (Z.to_nat s) (if (l =? 0)%Z then None else Some (Z.to_nat l))
  | _, _ => odd_window skip limitNum
  end.

Definition slice {A} (w : Window) (docs : list A) : Outcome (list A) :=
  match w with
  | Refused => Throw "MongoServerError"
  | Slice skip None => Return (drop skip docs)
  | Slice skip (Some limit) => Return (take limit (drop skip docs))
  end.

(** [Loan.find(query).sort({ createdAt: -1 }).skip(skip).limit(limitNum)] *)
Definition find_window (q : LoanQuery) (skip limitNum : JsInt)
    (coll : gmap string Loan.ILoan) : Outcome (list (string * Loan.ILoan)) :=
  if query_valid q then slice (window skip limitNum) (find_sorted q coll)
  else Throw "MongoServerError".

Definition by_status (s : string) : LoanQuery :=
  {| query_status := Some s; query_or := None |}.

Definition everything : LoanQuery :=
  {| query_status := None; query_or := None |}.

(** ** middleware/auth.ts *)

Definition authenticateToken (env : Env) (authHeader : option string)
    (db : Db) : Gate ReqUser :=
  let attempt : Outcome (Gate ReqUser) :=
    match bearer_token authHeader with
    | None => Return (Respond (failure 401 "Access token required"))
    | Some token =>
        match JWT_SECRET env with
        | None => Throw "JWT_SECRET not configured"
        | Some jwtSecret =>
            if String.eqb jwtSecret EmptyString
            then Throw "JWT_SECRET not configured"
            else
              match jwt_verify token jwtSecret with
              | None => Throw "JsonWebTokenError"
              | Some userId =>
                  let* found := findById userId (users db) in
                  match User.without_password <$> found with
                  | None =>
                      Return (Respond (failure 401 "Invalid or inactive user"))
                  | Some user =>
                      if negb (User.isActive user)
                      then Return (Respond
                                     (failure 401 "Invalid or inactive user"))
                      else Return (Next {| _id := castObjectId userId;
                                           profile := user |})
                  end
              end
        end
    end in
  match attempt with
  | Return g => g
  | Throw _ => Respond (failure 403 "Invalid or expired token")
  end.

Definition authorizeRole (roles : list string) (user : option ReqUser)
  : Gate ReqUser :=
  match user with
  | None => Respond (failure 401 "Authentication required")
  | Some u =>
      if negb (includes roles (JStr (role_name (User.role (profile u)))))
      then Respond (failure 403 "Insufficient permissions")
      else Next u
  end.

Definition adminOnly := authorizeRole ["admin"].
Definition verifierOrAdmin := authorizeRole ["verifier"; "admin"].

(** A route behind [authenticateToken] and a role gate. *)
Definition guarded (env : Env) (gate : option ReqUser -> Gate ReqUser)
    (authHeader : option string) (db : Db)
    (handler : ReqUser -> Response * Db) : Response * Db :=
  match authenticateToken env authHeader db with
  | Respond res => (res, db)
  | Next user =>
      match gate (Some user) with
      | Respond res => (res, db)
      | Next user' => handler user'
      end
  end.

(** ** routes/loans.ts *)

Definition too_short (min : nat) (s : string) : bool :=
  (String.length s <? min)%nat.

Definition in_range (lo hi q : Q) : bool := Qle_bool lo q && Qle_bool q hi.

(** [validationResult(req)] under [loanValidation]: the messages of the
    chains that fail, in declaration order. *)
Definition loanValidation (b : Body.Application) : list string :=
  (if too_short 2 (trim (Body.applicantName b))
   then ["Applicant name must be at least 2 characters"] else [])
  ++ (if isEmail (Body.email b) then [] else ["Valid email is required"])
  ++ (if too_short 10 (trim (Body.phoneNumber b))
      then ["Valid phone number is required"] else [])
  ++ (if in_range 1000 10000000 (Body.loanAmount b) then []
      else ["Loan amount must be between 1,000 and 10,000,000"])
  ++ (if too_short 5 (trim (Body.loanPurpose b))
      then ["Loan purpose must be at least 5 characters"] else [])
  ++ (if existsb (String.eqb (Body.employmentStatus b)) Loan.employmentStatuses
      then [] else ["Invalid employment status"])
  ++ (if Qle_bool 0 (Body.monthlyIncome b) then []
      else ["Monthly income must be a positive number"]).

(** [new Loan({ ... })] from the sanitised body; [status] takes the
    schema default. *)
Definition new_Loan (now : Date) (b : Body.Application) : Loan.ILoan :=
  {| Loan.applicantName := trim (Body.applicantName b);
     Loan.email := normalizeEmail (Body.email b);
     Loan.phoneNumber := trim (Body.phoneNumber b);
     Loan.loanAmount := Body.loanAmount b;
     Loan.loanPurpose := trim (Body.loanPurpose b);
     Loan.employmentStatus := Body.employmentStatus b;
     Loan.monthlyIncome := Body.monthlyIncome b;
     Loan.creditScore := Body.creditScore b;
     Loan.status := "pending";
     Loan.verifiedBy := None;
     Loan.approvedBy := None;
     Loan.verificationDate := None;
     Loan.approvalDate := None;
     Loan.rejectionReason := None;
     Loan.documents := default Loan.no_documents (Body.documents b);
     Loan.createdAt := now;
     Loan.updatedAt := now |}.

(** The validators of [loanSchema], run by [save]. *)
Definition schema_valid (l : Loan.ILoan) : bool :=
  negb (String.eqb (Loan.applicantName l) EmptyString)
  && negb (String.eqb (Loan.email l) EmptyString)
  && negb (String.eqb (Loan.phoneNumber l) EmptyString)
  && in_range 1000 10000000 (Loan.loanAmount l)
  && negb (String.eqb (Loan.loanPurpose l) EmptyString)
  && existsb (String.eqb (Loan.employmentStatus l)) Loan.employmentStatuses
  && Qle_bool 0 (Loan.monthlyIncome l)
  && match Loan.creditScore l with
     | Some c => in_range 300 850 c
     | None => true
     end
  && existsb (String.eqb (Loan.status l)) Loan.LoanStatus.

(** [loan.save()] of a new document with key [id]. *)
Definition save (id : ObjectId) (l : Loan.ILoan)
    (coll : gmap string Loan.ILoan) : Outcome (gmap string Loan.ILoan) :=
  if negb (schema_valid l) then Throw "ValidationError"
  else match coll !! id with
       | Some _ => Throw "E11000 duplicate key"
       | None => Return (<[id := l]> coll)
       end.

(** The filter [{ email, status: { $in: ['pending', 'verified'] } }] *)
Definition open_application (email : string) (l : Loan.ILoan) : bool :=
  String.eqb (Loan.email l) email
  && existsb (String.eqb (Loan.status l)) ["pending"; "verified"].

(** [Loan.findOne(filter)] *)
Definition findOne (filter : Loan.ILoan -> bool)
    (coll : gmap string Loan.ILoan) : option (string * Loan.ILoan) :=
  List.find (fun kv => filter (snd kv)) (map_to_list coll).

(** [POST /api/loans/apply]; [newId] is the ObjectId the driver gives
    the new document.  Each entry of [errors.array()] is shown by its
    message. *)
Definition apply_route (now : Date) (newId : ObjectId)
    (b : Body.Application) (db : Db) : Response * Db :=
  let errors := loanValidation b in
  if negb (bool_decide (errors = [])) then
    ({| statusCode := 400;
        json := JObj [("success", JBool false);
                      ("message", JStr "Validation failed");
                      ("errors", JArr (map (fun m => JObj [("msg", JStr m)])
                                           errors))] |}, db)
  else
    let loan := new_Loan now b in
    match findOne (open_application (normalizeEmail (Body.email b)))
                  (loans db) with
    | Some _ =>
        (failure 400 "You already have a pending loan application", db)
    | None =>
        match save newId loan (loans db) with
        | Throw _ => (failure 500 "Server error during loan application", db)
        | Return coll =>
            ({| statusCode := 201;
                json := JObj [("success", JBool true);
                              ("message",
                               JStr "Loan application submitted successfully");
                              ("data", JObj [("loanId", JStr newId);
                                             ("status",
                                              JStr (Loan.status loan))])] |},
             {| users := users db; loans := coll |})
        end
    end.

Definition is_verifier (user : ReqUser) : bool :=
  String.eqb (role_name (User.role (profile user))) "verifier".

(** The [query] object of [GET /api/loans] as built from the request,
    before the role-based filtering. *)
Definition requested_query (q : Query.Params) : LoanQuery :=
  {| query_status :=
       match Query.status q with
       | Some s => if truthy (JStr s) && negb (String.eqb s "all")
                   then Some s else None
       | None => None
       end;
     query_or :=
       match Query.search q with
       | Some pat => if truthy (JStr pat) then Some pat else None
       | None => None
       end |}.

(** [if (req.user?.role === 'verifier') query.status = 'pending'] *)
Definition list_query (user : ReqUser) (q : Query.Params) : LoanQuery :=
  if is_verifier user
  then {| query_status := Some "pending";
          query_or := query_or (requested_query q) |}
  else requested_query q.

Definition populate_both (us : gmap string User.IUser) (doc : JsValue)
  : JsValue :=
  populate "approvedBy" ["name"; "email"] us
    (populate "verifiedBy" ["name"; "email"] us doc).

Definition count (n : nat) : JsValue := JNum (inject_Z (Z.of_nat n)).

(** [Math.ceil(total / limitNum)] *)
Definition ceil_div (total limitNum : nat) : nat :=
  (total + limitNum - 1) / limitNum.

(** [Math.ceil(total / limitNum)] as the response shows it: the quotient
    by zero is [Infinity] or [NaN], written [null]; the quotient by a
    negative limit is not positive, and its ceiling is the negated floor. *)
Definition pages_of (total : nat) (limitNum : JsInt) : JsValue :=
  match limitNum with
  | Integer l =>
      if (l =? 0)%Z then JNull
      else if (0 <? l)%Z then count (ceil_div total (Z.to_nat l))
      else JNum (inject_Z (- (Z.of_nat total / - l)))
  | NotANumber => JNull
  end.

(** [parseInt(page)] and [parseInt(limit)], with the defaults ['1'] and
    ['10'] of the destructuring. *)
Definition pageNum_of (page : option string) : JsInt :=
  parseInt (default "1" page).

Definition limitNum_of (limit : option string) : JsInt :=
  parseInt (default "10" limit).

(** The page of documents [GET /api/loans] finds. *)
Definition list_page (user : ReqUser) (q : Query.Params) (db : Db)
  : Outcome (list (string * Loan.ILoan)) :=
  let pageNum := pageNum_of (Query.page q) in
  let limitNum := limitNum_of (Query.limit q) in
  let skip := js_mul (js_pred pageNum) limitNum in
  find_window (list_query user q) skip limitNum (loans db).

(** [GET /api/loans] *)
Definition list_route (user : ReqUser) (q : Query.Params) (db : Db)
  : Response * Db :=
  let pageNum := pageNum_of (Query.page q) in
  let limitNum := limitNum_of (Query.limit q) in
  match list_page user q db with
  | Throw _ => (failure 500 "Server error while fetching loans", db)
  | Return found =>
      let total := countDocuments (list_query user q) (loans db) in
      (success_data
         (JObj [("loans",
                 JArr (map (fun kv => populate_both (users db)
                                        (Loan.toObject (fst kv) (snd kv)))
                           found));
                ("pagination",
                 JObj [("page", js_int pageNum); ("limit", js_int limitNum);
                       ("total", count total);
                       ("pages", pages_of total limitNum)])]), db)
  end.

(** [GET /api/loans/:id] *)
Definition get_route (user : ReqUser) (id : string) (db : Db)
  : Response * Db :=
  match findById id (loans db) with
  | Throw _ => (failure 500 "Server error while fetching loan", db)
  | Return None => (failure 404 "Loan not found", db)
  | Return (Some loan) =>
      if is_verifier user && negb (String.eqb (Loan.status loan) "pending")
      then (failure 403 "Access denied", db)
      else (success_data
              (JObj [("loan", populate_both (users db)
                                (Loan.toObject (castObjectId id) loan))]),
            db)
  end.

(** The [updateData] object of the verify route: [verifiedBy] and
    [verificationDate] first, then [status] and, on reject, the reason. *)
Definition verify_updateData (now : Date) (user : ReqUser)
    (body : TransitionBody) : Update.UpdateData :=
  if strict_eq (action body) "verify" then
    {| Update.verifiedBy := Some (_id user);
       Update.verificationDate := Some now;
       Update.status := Some "verified";
       Update.rejectionReason := None;
       Update.approvedBy := None;
       Update.approvalDate := None |}
  else
    {| Update.verifiedBy := Some (_id user);
       Update.verificationDate := Some now;
       Update.status := Some "rejected";
       Update.rejectionReason := Some (rejectionReason body);
       Update.approvedBy := None;
       Update.approvalDate := None |}.

(** [PATCH /api/loans/:id/verify] *)
Definition verify_route (now : Date) (user : ReqUser) (id : string)
    (body : TransitionBody) (db : Db) : Response * Db :=
  if negb (includes ["verify"; "reject"] (action body)) then
    (failure 400 ("Action must be either " ++ dq ++ "verify" ++ dq
                  ++ " or " ++ dq ++ "reject" ++ dq), db)
  else if strict_eq (action body) "reject"
          && negb (truthy (rejectionReason body)) then
    (failure 400 "Rejection reason is required", db)
  else
    match findById id (loans db) with
    | Throw _ => (failure 500 "Server error during loan verification", db)
    | Return None => (failure 404 "Loan not found", db)
    | Return (Some loan) =>
        if negb (String.eqb (Loan.status loan) "pending") then
          (failure 400 "Only pending loans can be verified or rejected", db)
        else
          let updateData := verify_updateData now user body in
          match findByIdAndUpdate id updateData now (loans db) with
          | Throw _ =>
              (failure 500 "Server error during loan verification", db)
          | Return (updatedLoan, coll) =>
              (success
                 ("Loan " ++ (if strict_eq (action body) "verify"
                              then "verified" else "rejected")
                  ++ " successfully")
                 (JObj [("loan",
                         or_null (populate "verifiedBy" ["name"; "email"]
                                    (users db)
                                  <$> (Loan.toObject (castObjectId id)
                                       <$> updatedLoan)))]),
               {| users := users db; loans := coll |})
          end
    end.

(** ** routes/admin.ts *)

(** The [updateData] object of the approve route. *)
Definition approve_updateData (now : Date) (user : ReqUser)
    (body : TransitionBody) : Update.UpdateData :=
  if strict_eq (action body) "approve" then
    {| Update.approvedBy := Some (_id user);
       Update.approvalDate := Some now;
       Update.status := Some "approved";
       Update.rejectionReason := None;
       Update.verifiedBy := None;
       Update.verificationDate := None |}
  else
    {| Update.approvedBy := Some (_id user);
       Update.approvalDate := Some now;
       Update.status := Some "rejected";
       Update.rejectionReason := Some (rejectionReason body);
       Update.verifiedBy := None;
       Update.verificationDate := None |}.

(** [PATCH /api/admin/loans/:id/approve] *)
Definition approve_route (now : Date) (user : ReqUser) (id : string)
    (body : TransitionBody) (db : Db) : Response * Db :=
  if negb (includes ["approve"; "reject"] (action body)) then
    (failure 400 ("Action must be either " ++ dq ++ "approve" ++ dq
                  ++ " or " ++ dq ++ "reject" ++ dq), db)
  else if strict_eq (action body) "reject"
          && negb (truthy (rejectionReason body)) then
    (failure 400 "Rejection reason is required", db)
  else
    match findById id (loans db) with
    | Throw _ => (failure 500 "Server error during loan approval", db)
    | Return None => (failure 404 "Loan not found", db)
    | Return (Some loan) =>
        if negb (String.eqb (Loan.status loan) "verified") then
          (failure 400 "Only verified loans can be approved or rejected", db)
        else
          let updateData := approve_updateData now user body in
          match findByIdAndUpdate id updateData now (loans db) with
          | Throw _ => (failure 500 "Server error during loan approval", db)
          | Return (updatedLoan, coll) =>
              (success
                 ("Loan " ++ (if strict_eq (action body) "approve"
                              then "approved" else "rejected")
                  ++ " successfully")
                 (JObj [("loan",
                         or_null (populate_both (users db)
                                  <$> (Loan.toObject (castObjectId id)
                                       <$> updatedLoan)))]),
               {| users := users db; loans := coll |})
          end
    end.

(** ** routes/dashboard.ts *)

(** [Loan.aggregate([{ $match }, { $group: { _id: null, total: { $sum:
    '$loanAmount' } } }])]: one group when a document matches, none
    otherwise. *)
Definition aggregate_total (q : LoanQuery) (coll : gmap string Loan.ILoan)
  : list Q :=
  match filter (fun kv => matches q (snd kv) = true) (map_to_list coll) with
  | [] => []
  | docs => [foldr (fun kv acc => (Loan.loanAmount (snd kv) + acc)%Q) 0%Q docs]
  end.

(** [groups[0]?.total || 0] *)
Definition total_or_zero (groups : list Q) : Q := default 0%Q (head groups).

(** One entry of [statusDistribution]. *)
Definition distribution_entry (status : string) (n total : nat) : JsValue :=
  JObj [("status", JStr status); ("count", count n);
        ("percentage", JStr (percentage n total))].

Definition statusDistribution (coll : gmap string Loan.ILoan) : list JsValue :=
  let totalLoans := countDocuments everything coll in
  let pendingLoans := countDocuments (by_status "pending") coll in
  let verifiedLoans := countDocuments (by_status "verified") coll in
  let approvedLoans := countDocuments (by_status "approved") coll in
  let rejectedLoans := countDocuments (by_status "rejected") coll in
  [distribution_entry "pending" pendingLoans totalLoans;
   distribution_entry "verified" verifiedLoans totalLoans;
   distribution_entry "approved" approvedLoans totalLoans;
   distribution_entry "rejected" rejectedLoans totalLoans].

Definition count_users (p : User.IUser -> bool) (us : gmap string User.IUser)
  : nat :=
  length (filter (fun kv => p (snd kv) = true) (map_to_list us)).

Definition has_role (r : Role) (u : User.IUser) : bool :=
  String.eqb (role_name (User.role u)) (role_name r).

(** [GET /api/dashboard/stats].  The two entries that need calendar
    arithmetic, [recentApplications] and [monthlyTrends], are left out of
    the response object. *)
Definition stats_route (user : ReqUser) (db : Db) : Response * Db :=
  let coll := loans db in
  let userStats :=
    if String.eqb (role_name (User.role (profile user))) "admin" then
      [("users",
        JObj [("total", count (count_users (fun _ => true) (users db)));
              ("active", count (count_users User.isActive (users db)));
              ("admins",
               count (count_users
                        (fun u => has_role admin u && User.isActive u)
                        (users db)));
              ("verifiers",
               count (count_users
                        (fun u => has_role verifier u && User.isActive u)
                        (users db)))])]
    else [] in
  (success_data
     (JObj ([("overview",
              JObj [("totalLoans", count (countDocuments everything coll));
                    ("pendingLoans",
                     count (countDocuments (by_status "pending") coll));
                    ("verifiedLoans",
                     count (countDocuments (by_status "verified") coll));
                    ("approvedLoans",
                     count (countDocuments (by_status "approved") coll));
                    ("rejectedLoans",
                     count (countDocuments (by_status "rejected") coll));
                    ("totalLoanAmount",
                     JNum (total_or_zero (aggregate_total everything coll)));
                    ("approvedLoanAmount",
                     JNum (total_or_zero
                             (aggregate_total (by_status "approved") coll)))])]
            ++ userStats
            ++ [("statusDistribution", JArr (statusDistribution coll))])),
   db).

(** ** The endpoints: each route behind its middleware *)

(** [router.patch('/:id/verify', authenticateToken, verifierOrAdmin, ...)] *)
Definition patch_loans_verify (env : Env) (now : Date)
    (authHeader : option string) (id : string) (body : TransitionBody)
    (db : Db) : Response * Db :=
  guarded env verifierOrAdmin authHeader db
    (fun user => verify_route now user id body db).

(** [router.use(authenticateToken, adminOnly)] and
    [router.patch('/loans/:id/approve', ...)] *)
Definition patch_admin_loans_approve (env : Env) (now : Date)
    (authHeader : option string) (id : string) (body : TransitionBody)
    (db : Db) : Response * Db :=
  guarded env adminOnly authHeader db
    (fun user => approve_route now user id body db).

(** [router.get('/', authenticateToken, verifierOrAdmin, ...)] *)
Definition get_loans (env : Env) (authHeader : option string)
    (q : Query.Params) (db : Db) : Response * Db :=
  guarded env verifierOrAdmin authHeader db (fun user => list_route user q db).

(** [router.get('/:id', authenticateToken, verifierOrAdmin, ...)] *)
Definition get_loan (env : Env) (authHeader : option string) (id : string)
    (db : Db) : Response * Db :=
  guarded env verifierOrAdmin authHeader db (fun user => get_route user id db).

(** [router.use(authenticateToken)] and [router.get('/stats', ...)] *)
Definition get_dashboard_stats (env : Env) (authHeader : option string)
    (db : Db) : Response * Db :=
  guarded env (fun user => match user with
                           | Some u => Next u
                           | None => Respond (failure 401 "Authentication required")
                           end)
    authHeader db (fun user => stats_route user db).

(** ** The system as a transition relation

    One step is one request to an endpoint that writes the loan
    collection, or any change of the user collection (the admin user
    routes never touch a loan). *)
Inductive step (db : Db) : Db -> Prop :=
| step_apply now newId b :
    step db (snd (apply_route now newId b db))
| step_verify env now authHeader id body :
    step db (snd (patch_loans_verify env now authHeader id body db))
| step_approve env now authHeader id body :
    step db (snd (patch_admin_loans_approve env now authHeader id body db))
| step_users us :
    step db {| users := us; loans := loans db |}.

(** Every loan carries one of the four statuses. *)
Definition statuses_ok (db : Db) : Prop :=
  map_Forall (fun _ l => Loan.status l ∈ Loan.LoanStatus) (loans db).

Definition terminal (s : string) : Prop := s = "approved" \/ s = "rejected".

(** ** Vocabulary of the statements *)

(** The documents a list response carries. *)
Definition listed (res : Response) : list JsValue :=
  match get "loans" (get "data" (json res)) with
  | JArr docs => docs
  | _ => []
  end.

(** The loan a transition response carries. *)
Definition returned_loan (res : Response) : JsValue :=
  get "loan" (get "data" (json res)).

(** [l'] keeps what the applicant supplied, and the creation stamp. *)
Definition same_application (l l' : Loan.ILoan) : Prop :=
  Loan.applicantName l' = Loan.applicantName l
  /\ Loan.email l' = Loan.email l
  /\ Loan.phoneNumber l' = Loan.phoneNumber l
  /\ Loan.loanAmount l' = Loan.loanAmount l
  /\ Loan.loanPurpose l' = Loan.loanPurpose l
  /\ Loan.employmentStatus l' = Loan.employmentStatus l
  /\ Loan.monthlyIncome l' = Loan.monthlyIncome l
  /\ Loan.creditScore l' = Loan.creditScore l
  /\ Loan.documents l' = Loan.documents l
  /\ Loan.createdAt l' = Loan.createdAt l.

(** The identity summary a populated reference expands to. *)
Definition identity_summary (id : ObjectId) (u : User.IUser) : JsValue :=
  JObj [("_id", JStr id); ("email", JStr (User.email u));
        ("name", JStr (User.name u))].


(** The body passes the two validation guards of a transition route whose
    legal verbs are [verbs]. *)
Definition well_formed (verbs : list string) (body : TransitionBody) : bool :=
  includes verbs (action body)
  && negb (strict_eq (action body) "reject"
           && negb (truthy (rejectionReason body))).

(** A reject action that omits its reason. *)
Definition reject_without_reason (body : TransitionBody) : Prop :=
  action body = JStr "reject" /\ truthy (rejectionReason body) = false.

(** The 400 answer to a body that fails validation, at the route whose
    first verb is [verb]. *)
Definition validation_error (verb : string) (body : TransitionBody)
  : Response :=
  if includes [verb; "reject"] (action body)
  then failure 400 "Rejection reason is required"
  else failure 400 ("Action must be either " ++ dq ++ verb ++ dq
                    ++ " or " ++ dq ++ "reject" ++ dq).

End Embedding.

(** ** A sample deployment

    A concrete platform and a database after [scripts/seed.ts] (its two
    users and one loan per status, and a deactivated verifier), for the
    closed examples below.  Tokens are looked up in a table; a string of
    24 characters casts to an ObjectId, the one written with its hex
    digits in lower case; [parseInt] reads a sign and decimal digits. *)
Module Scenario.

Definition contains (needle hay : string) : bool :=
  match String.index 0 needle hay with
  | Some _ => true
  | None => false
  end.

Definition admin_id : ObjectId := "650000000000000000000001".
Definition verifier_id : ObjectId := "650000000000000000000002".
Definition idle_id : ObjectId := "650000000000000000000003".
Definition ghost_id : ObjectId := "650000000000000000000009".
Definition second_id : ObjectId := "65a000000000000000000004".

Definition tokens : list (string * string) :=
  [("token.admin", admin_id); ("token.verifier", verifier_id);
   ("token.idle", idle_id); ("token.ghost", ghost_id);
   ("token.second", second_id)].

(** Hex digits in lower case. *)
Definition lower (c : ascii) : ascii :=
  let n := nat_of_ascii c in
  if (65 <=? n)%nat && (n <=? 70)%nat then ascii_of_nat (n + 32) else c.

Fixpoint lower_hex (s : string) : string :=
  match s with
  | EmptyString => EmptyString
  | String c rest => String (lower c) (lower_hex rest)
  end.

(** The decimal digits a string starts with, read as a number. *)
Fixpoint leading_digits (acc : option Z) (s : string) : option Z :=
  match s with
  | EmptyString => acc
  | String c rest =>
      let n := nat_of_ascii c in
      if (48 <=? n)%nat && (n <=? 57)%nat
      then leading_digits (Some (10 * default 0 acc + Z.of_nat (n - 48))%Z)
             rest
      else acc
  end.

Definition parse_int (s : string) : JsInt :=
  match s with
  | String "-" rest =>
      match leading_digits None rest with
      | Some z => Integer (- z)
      | None => NotANumber
      end
  | _ =>
      match leading_digits None s with
      | Some z => Integer z
      | None => NotANumber
      end
  end.

(** The sample reads a pattern as plain text, and refuses one that starts
    with a quantifier. *)
Definition plain_pattern (pat : string) : bool :=
  match pat with
  | String c _ => negb (existsb (Ascii.eqb c) ["*"; "+"; "?"]%char)
  | EmptyString => true
  end.

Definition platform : Platform := {|
  jwt_verify token secret :=
    if String.eqb secret "s3cret"
    then snd <$> List.find (fun kv => String.eqb (fst kv) token) tokens
    else None;
  isValidObjectId s := (String.length s =? 24)%nat;
  castObjectId s := lower_hex s;
  castString v := match v with JStr s => Some s | _ => None end;
  regexValid pat := plain_pattern pat;
  regexTest pat s := contains pat s;
  isEmail s := contains "@" s;
  normalizeEmail s := s;
  trim s := s;
  parseInt s := parse_int s;
  odd_window skip limitNum :=
    match skip, limitNum with
    | Integer s, Integer l => Slice (Z.to_nat s) (Some (Z.abs_nat l))
    | _, _ => Refused
    end;
|}.

Definition env : Env := {| JWT_SECRET := Some "s3cret" |}.

Definition admin_user : User.IUser :=
  {| User.email := "admin@creditsea.com"; User.password := Some "$2a$12$admin";
     User.role := admin; User.name := "System Administrator";
     User.createdAt := 1000; User.updatedAt := 1000; User.isActive := true |}.

Definition verifier_user : User.IUser :=
  {| User.email := "verifier@creditsea.com";
     User.password := Some "$2a$12$verifier";
     User.role := verifier; User.name := "Loan Verifier";
     User.createdAt := 1000; User.updatedAt := 1000; User.isActive := true |}.

Definition idle_user : User.IUser :=
  {| User.email := "idle@creditsea.com"; User.password := Some "$2a$12$idle";
     User.role := verifier; User.name := "Former Verifier";
     User.createdAt := 1000; User.updatedAt := 1500; User.isActive := false |}.

Definition sample_loan (name email phone : string) (amount : Q)
    (purpose employment : string) (income score : Q) (status : string)
    (verifiedBy approvedBy : option ObjectId)
    (verificationDate approvalDate : option Date) (reason : option string)
  : Loan.ILoan :=
  {| Loan.applicantName := name; Loan.email := email;
     Loan.phoneNumber := phone; Loan.loanAmount := amount;
     Loan.loanPurpose := purpose; Loan.employmentStatus := employment;
     Loan.monthlyIncome := income; Loan.creditScore := Some score;
     Loan.status := status; Loan.verifiedBy := verifiedBy;
     Loan.approvedBy := approvedBy; Loan.verificationDate := verificationDate;
     Loan.approvalDate := approvalDate; Loan.rejectionReason := reason;
     Loan.documents := Loan.no_documents;
     Loan.createdAt := 2000; Loan.updatedAt := 2000 |}.

Definition john_id : ObjectId := "651000000000000000000001".
Definition jane_id : ObjectId := "651000000000000000000002".
Definition bob_id : ObjectId := "651000000000000000000003".
Definition alice_id : ObjectId := "651000000000000000000004".
Definition fresh_id : ObjectId := "651000000000000000000005".

Definition john : Loan.ILoan :=
  sample_loan "John Doe" "john.doe@example.com" "+1234567890" 50000
    "Home renovation" "employed" 8000 720 "pending" None None None None None.

Definition jane : Loan.ILoan :=
  sample_loan "Jane Smith" "jane.smith@example.com" "+1234567891" 25000
    "Education" "employed" 6000 680 "verified" (Some verifier_id) None
    (Some 1900%Z) None None.

Definition bob : Loan.ILoan :=
  sample_loan "Bob Johnson" "bob.johnson@example.com" "+1234567892" 75000
    "Business expansion" "self-employed" 12000 750 "approved"
    (Some verifier_id) (Some admin_id) (Some 1700%Z) (Some 1800%Z) None.

Definition alice : Loan.ILoan :=
  sample_loan "Alice Brown" "alice.brown@example.com" "+1234567893" 15000
    "Medical expenses" "employed" 4500 620 "rejected" (Some verifier_id) None
    (Some 1500%Z) None (Some "Insufficient income for requested loan amount").

Definition seeded : Db :=
  {| users := <[admin_id := admin_user]>
                (<[verifier_id := verifier_user]>
                   (<[idle_id := idle_user]> ∅));
     loans := <[john_id := john]>
                (<[jane_id := jane]>
                   (<[bob_id := bob]> (<[alice_id := alice]> ∅))) |}.

Definition empty_db : Db := {| users := users seeded; loans := ∅ |}.

Definition bearer (token : string) : option string :=
  Some ("Bearer " ++ token).

Definition verify_body : TransitionBody :=
  {| action := JStr "verify"; rejectionReason := JUndefined |}.
Definition approve_body : TransitionBody :=
  {| action := JStr "approve"; rejectionReason := JUndefined |}.
Definition reject_body (reason : string) : TransitionBody :=
  {| action := JStr "reject"; rejectionReason := JStr reason |}.
Definition bare_reject : TransitionBody :=
  {| action := JStr "reject"; rejectionReason := JUndefined |}.
Definition shrug_body : TransitionBody :=
  {| action := JStr "shrug"; rejectionReason := JUndefined |}.

(** [req.user] once [authenticateToken] has resolved the sample tokens. *)
Definition admin_ctx : ReqUser :=
  {| _id := admin_id; profile := User.without_password admin_user |}.
Definition verifier_ctx : ReqUser :=
  {| _id := verifier_id; profile := User.without_password verifier_user |}.



Definition paged (page limit : string) : Query.Params :=
  {| Query.status := None; Query.page := Some page;
     Query.limit := Some limit; Query.search := None |}.

Definition application (email : string) (amount : Q) : Body.Application :=
  {| Body.applicantName := "Jane Roe"; Body.email := email;
     Body.phoneNumber := "+1234567899"; Body.loanAmount := amount;
     Body.loanPurpose := "Car repair"; Body.employmentStatus := "employed";
     Body.monthlyIncome := 3000; Body.creditScore := None;
     Body.documents := None |}.

End Scenario.

(** ** routes/admin.ts: the user routes *)

(** [bcrypt.hash(password, saltRounds)] of bcryptjs *)
Class Bcrypt := { bcrypt_hash : string -> nat -> string }.

(** The body of [POST /api/admin/users]. *)
Module NewUser.
Record Body := {
  email : string;
  password : string;
  name : string;
  role : string;
}.
End NewUser.

(** [req.query] of [GET /api/admin/users]. *)
Module UserQuery.
Record Params := {
  role : option string;
  search : option string;
  page : option string;
  limit : option string;
}.
End UserQuery.

(** [res.json({ success: true, message })] *)
Definition success_message (message : string) : Response :=
  {| statusCode := 200;
     json := JObj [("success", JBool true); ("message", JStr message)] |}.

(** The schema's [enum: ['admin', 'verifier']] read back as a [Role]. *)
Definition role_of (s : string) : option Role :=
  if String.eqb s "admin" then Some admin
  else if String.eqb s "verifier" then Some verifier
  else None.

Section UserRoutes.
Context {P : Platform} {B : Bcrypt}.

(** The filter object of [GET /api/admin/users]. *)
Record UserFilter := {
  filter_role : option string;
  filter_or : option string;   (* the [$or] of two [$regex] clauses *)
}.

Definition matches_user (f : UserFilter) (u : User.IUser) : bool :=
  match filter_role f with
  | Some r => String.eqb (role_name (User.role u)) r
  | None => true
  end
  &&
  match filter_or f with
  | Some pat => regexTest pat (User.name u) || regexTest pat (User.email u)
  | None => true
  end.

Definition newest_user_first (a b : string * User.IUser) : Prop :=
  (User.createdAt (snd b) <= User.createdAt (snd a))%Z.

#[local] Instance newest_user_first_dec a b : Decision (newest_user_first a b).
Proof. unfold newest_user_first. apply _. Defined.

(** [User.find(query).sort({ createdAt: -1 })] *)
Definition find_users_sorted (f : UserFilter) (coll : gmap string User.IUser)
  : list (string * User.IUser) :=
  merge_sort newest_user_first
    (filter (fun kv => matches_user f (snd kv) = true) (map_to_list coll)).

(** [User.countDocuments(query)] *)
Definition countUsers (f : UserFilter) (coll : gmap string User.IUser) : nat :=
  length (filter (fun kv => matches_user f (snd kv) = true) (map_to_list coll)).

(** The [query] object of [GET /api/admin/users]. *)
Definition users_query (q : UserQuery.Params) : UserFilter :=
  {| filter_role :=
       match UserQuery.role q with
       | Some r => if truthy (JStr r) && negb (String.eqb r "all")
                   then Some r else None
       | None => None
       end;
     filter_or :=
       match UserQuery.search q with
       | Some pat => if truthy (JStr pat) then Some pat else None
       | None => None
       end |}.

Definition filter_valid (f : UserFilter) : bool :=
  match filter_or f with
  | Some pat => regexValid pat
  | None => true
  end.

(** The page of documents [GET /api/admin/users] finds. *)
Definition users_page (q : UserQuery.Params) (db : Db)
  : Outcome (list (string * User.IUser)) :=
  let pageNum := pageNum_of (UserQuery.page q) in
  let limitNum := limitNum_of (UserQuery.limit q) in
  let skip := js_mul (js_pred pageNum) limitNum in
  if filter_valid (users_query q)
  then slice (window skip limitNum)
         (find_users_sorted (users_query q) (users db))
  else Throw "MongoServerError".

(** [GET /api/admin/users] *)
Definition list_users_route (q : UserQuery.Params) (db : Db)
  : Response * Db :=
  let pageNum := pageNum_of (UserQuery.page q) in
  let limitNum := limitNum_of (UserQuery.limit q) in
  match users_page q db with
  | Throw _ => (failure 500 "Server error while fetching users", db)
  | Return found =>
      let total := countUsers (users_query q) (users db) in
      (success_data
         (JObj [("users",
                 JArr (map (fun kv => User.toObject (fst kv)
                                        (User.without_password (snd kv)))
                           found));
                ("pagination",
                 JObj [("page", js_int pageNum); ("limit", js_int limitNum);
                       ("total", count total);
                       ("pages", pages_of total limitNum)])]), db)
  end.

(** [validationResult(req)] under [createUserValidation] *)
Definition createUserValidation (b : NewUser.Body) : list string :=
  (if isEmail (NewUser.email b) then [] else ["Valid email is required"])
  ++ (if too_short 6 (NewUser.password b)
      then ["Password must be at least 6 characters"] else [])
  ++ (if too_short 2 (trim (NewUser.name b))
      then ["Name must be at least 2 characters"] else [])
  ++ (if existsb (String.eqb (NewUser.role b)) ["admin"; "verifier"]
      then [] else ["Role must be admin or verifier"]).

(** [User.findOne({ email })] *)
Definition findUserByEmail (email : string) (coll : gmap string User.IUser)
  : option (string * User.IUser) :=
  List.find (fun kv => String.eqb (User.email (snd kv)) email)
    (map_to_list coll).

(** [user.save()] of a new document with key [id]: the schema's [enum]
    on [role], the unique index on [email] and the key itself. *)
Definition save_user (id : ObjectId) (email password name role : string)
    (now : Date) (coll : gmap string User.IUser)
  : Outcome (User.IUser * gmap string User.IUser) :=
  match role_of role with
  | None => Throw "ValidationError"
  | Some r =>
      match findUserByEmail email coll, coll !! id with
      | None, None =>
          let u := {| User.email := email; User.password := Some password;
                      User.role := r; User.name := name;
                      User.createdAt := now; User.updatedAt := now;
                      User.isActive := true |} in
          Return (u, <[id := u]> coll)
      | _, _ => Throw "E11000 duplicate key"
      end
  end.

(** [POST /api/admin/users]; [newId] is the ObjectId the driver gives
    the new document. *)
Definition create_user_route (now : Date) (newId : ObjectId)
    (b : NewUser.Body) (db : Db) : Response * Db :=
  let errors := createUserValidation b in
  if negb (bool_decide (errors = [])) then
    ({| statusCode := 400;
        json := JObj [("success", JBool false);
                      ("message", JStr "Validation failed");
                      ("errors", JArr (map (fun m => JObj [("msg", JStr m)])
                                           errors))] |}, db)
  else
    let email := normalizeEmail (NewUser.email b) in
    let name := trim (NewUser.name b) in
    match findUserByEmail email (users db) with
    | Some _ => (failure 400 "User already exists with this email", db)
    | None =>
        let saltRounds := 12%nat in
        let hashedPassword := bcrypt_hash (NewUser.password b) saltRounds in
        match save_user newId email hashedPassword name (NewUser.role b) now
                (users db) with
        | Throw _ => (failure 500 "Server error during user creation", db)
        | Return (user, coll) =>
            ({| statusCode := 201;
                json := JObj [("success", JBool true);
                              ("message", JStr "User created successfully");
                              ("data",
                               JObj [("user",
                                      JObj [("id", JStr newId);
                                            ("email", JStr (User.email user));
                                            ("name", JStr (User.name user));
                                            ("role",
                                             JStr (role_name (User.role user)));
                                            ("isActive",
                                             JBool (User.isActive user))])])] |},
             {| users := coll; loans := loans db |})
        end
    end.

(** The [$set] of [{ isActive }], with the [updatedAt] stamp of
    [timestamps: true]. *)
Definition set_active (b : bool) (now : Date) (u : User.IUser) : User.IUser :=
  {| User.email := User.email u; User.password := User.password u;
     User.role := User.role u; User.name := User.name u;
     User.createdAt := User.createdAt u; User.updatedAt := now;
     User.isActive := b |}.

(** [User.findByIdAndUpdate(id, { isActive }, { new: true })] *)
Definition setActiveById (id : string) (b : bool) (now : Date)
    (coll : gmap string User.IUser)
  : Outcome (option User.IUser * gmap string User.IUser) :=
  if isValidObjectId id then
    match coll !! castObjectId id with
    | None => Return (None, coll)
    | Some u => Return (Some (set_active b now u),
                        <[castObjectId id := set_active b now u]> coll)
    end
  else Throw "CastError".

(** [DELETE /api/admin/users/:id].  The guard compares the string of the
    request with [req.user._id.toString()]; the queries cast it. *)
Definition delete_user_route (now : Date) (user : ReqUser) (userId : string)
    (db : Db) : Response * Db :=
  if String.eqb userId (_id user) then
    (failure 400 "Cannot delete your own account", db)
  else
    match findById userId (users db) with
    | Throw _ => (failure 500 "Server error during user deletion", db)
    | Return None => (failure 404 "User not found", db)
    | Return (Some _) =>
        match setActiveById userId false now (users db) with
        | Throw _ => (failure 500 "Server error during user deletion", db)
        | Return (_, coll) =>
            (success_message "User deactivated successfully",
             {| users := coll; loans := loans db |})
        end
    end.

(** [PATCH /api/admin/users/:id/activate]; [isActive] is the body's
    property, any JSON value. *)
Definition activate_user_route (now : Date) (user : ReqUser)
    (userId : string) (isActive : JsValue) (db : Db) : Response * Db :=
  match isActive with
  | JBool b =>
      if String.eqb userId (_id user) && negb b then
        (failure 400 "Cannot deactivate your own account", db)
      else
        match setActiveById userId b now (users db) with
        | Throw _ => (failure 500 "Server error during user activation", db)
        | Return (None, _) => (failure 404 "User not found", db)
        | Return (Some u, coll) =>
            (success
               ("User " ++ (if b then "activated" else "deactivated")
                ++ " successfully")
               (JObj [("user",
                       User.toObject (castObjectId userId)
                         (User.without_password u))]),
             {| users := coll; loans := loans db |})
        end
  | _ => (failure 400 "isActive must be a boolean value", db)
  end.

(** The four user endpoints behind [router.use(authenticateToken,
    adminOnly)]. *)
Definition get_admin_users (env : Env) (authHeader : option string)
    (q : UserQuery.Params) (db : Db) : Response * Db :=
  guarded env adminOnly authHeader db (fun _ => list_users_route q db).

Definition post_admin_users (env : Env) (now : Date)
    (authHeader : option string) (newId : ObjectId) (b : NewUser.Body)
    (db : Db) : Response * Db :=
  guarded env adminOnly authHeader db
    (fun _ => create_user_route now newId b db).

Definition delete_admin_user (env : Env) (now : Date)
    (authHeader : option string) (userId : string) (db : Db)
  : Response * Db :=
  guarded env adminOnly authHeader db
    (fun user => delete_user_route now user userId db).

Definition patch_admin_user_activate (env : Env) (now : Date)
    (authHeader : option string) (userId : string) (isActive : JsValue)
    (db : Db) : Response * Db :=
  guarded env adminOnly authHeader db
    (fun user => activate_user_route now user userId isActive db).

(** One request to a user endpoint. *)
Inductive user_step (db : Db) : Db -> Prop :=
| user_step_list env authHeader q :
    user_step db (snd (get_admin_users env authHeader q db))
| user_step_create env now authHeader newId b :
    user_step db (snd (post_admin_users env now authHeader newId b db))
| user_step_delete env now authHeader userId :
    user_step db (snd (delete_admin_user env now authHeader userId db))
| user_step_activate env now authHeader userId isActive :
    user_step db
      (snd (patch_admin_user_activate env now authHeader userId isActive db)).

(** No two user documents share an email. *)
Definition emails_unique (coll : gmap string User.IUser) : Prop :=
  forall id1 id2 u1 u2,
    coll !! id1 = Some u1 -> coll !! id2 = Some u2 ->
    User.email u1 = User.email u2 -> id1 = id2.

(** ** routes/dashboard.ts: recent loans *)




End UserRoutes.

(** ** Further vocabulary *)

(** The moves of the lifecycle: stay, or leave pending for verified or
    rejected, or leave verified for approved or rejected. *)
Definition lifecycle_move (before after : string) : Prop :=
  after = before
  \/ (before = "pending" /\ (after = "verified" \/ after = "rejected"))
  \/ (before = "verified" /\ (after = "approved" \/ after = "rejected")).

(** The trail a loan's status implies: who verified and when, who
    approved and when, and why it was rejected. *)
Definition trail_ok (l : Loan.ILoan) : Prop :=
  (Loan.status l = "verified" ->
   is_Some (Loan.verifiedBy l) /\ is_Some (Loan.verificationDate l))
  /\ (Loan.status l = "approved" ->
      is_Some (Loan.verifiedBy l) /\ is_Some (Loan.verificationDate l)
      /\ is_Some (Loan.approvedBy l) /\ is_Some (Loan.approvalDate l))
  /\ (Loan.status l = "rejected" ->
      is_Some (Loan.verifiedBy l) /\ is_Some (Loan.verificationDate l)
      /\ is_Some (Loan.rejectionReason l)).

Definition trails_ok (db : Db) : Prop :=
  map_Forall (fun _ l => trail_ok l) (loans db).

(** A word: a string without a space. *)
Fixpoint spaceless (s : string) : bool :=
  match s with
  | EmptyString => true
  | String c rest => negb (Ascii.eqb c " "%char) && spaceless rest
  end.


(** A further sample: a new admin for the sample deployment. *)
Module Staff.
#[local] Instance sample_hash : Bcrypt :=
  {| bcrypt_hash password rounds :=
       "$2a$" ++ pretty rounds ++ "$" ++ password |}.

Definition new_id : ObjectId := Scenario.second_id.

(** The same ObjectId, its hex digits in upper case. *)
Definition shouted_id : string := "65A000000000000000000004".

Definition recruit : NewUser.Body :=
  {| NewUser.email := "second@creditsea.com"; NewUser.password := "hunter22";
     NewUser.name := "Second Admin"; NewUser.role := "admin" |}.

(** The recruit's account, created at time 3000, and the sample
    deployment with it. *)
Definition second_user : User.IUser :=
  {| User.email := "second@creditsea.com";
     User.password := Some (bcrypt_hash "hunter22" 12);
     User.role := admin; User.name := "Second Admin";
     User.createdAt := 3000; User.updatedAt := 3000;
     User.isActive := true |}.

Definition grown : Db :=
  {| users := <[new_id := second_user]> (users Scenario.seeded);
     loans := loans Scenario.seeded |}.

Definition second_ctx : ReqUser :=
  {| _id := new_id; profile := User.without_password second_user |}.

Definition next_id : ObjectId := "651000000000000000000006".

(** An applicant the sample deployment has not seen. *)
Definition newcomer : Body.Application :=
  Scenario.application "jane.roe@example.com" 5000.

(** The same application with a credit score above 850. *)
Definition overscored : Body.Application :=
  {| Body.applicantName := "Jane Roe"; Body.email := "jane.roe@example.com";
     Body.phoneNumber := "+1234567899"; Body.loanAmount := 5000;
     Body.loanPurpose := "Car repair"; Body.employmentStatus := "employed";
     Body.monthlyIncome := 3000; Body.creditScore := Some 900;
     Body.documents := None |}.
End Staff.

(** * Properties *)

Section Properties.
Context {P : Platform}.

(** ** Shared facts about the gates *)

Lemma failure_code code message : statusCode (failure code message) = code.
Proof. reflexivity. Qed.

(** What [authenticateToken] answers when it does not call [next()]. *)
Lemma authenticateToken_Respond env authHeader db res :
  authenticateToken env authHeader db = Respond res ->
  res = failure 401 "Access token required"
  \/ res = failure 401 "Invalid or inactive user"
  \/ res = failure 403 "Invalid or expired token".
Proof.
  unfold authenticateToken, findById.
  destruct (bearer_token authHeader) as [token|]; [| intros [= <-]; auto].
  destruct (JWT_SECRET env) as [secret|]; [| intros [= <-]; auto].
  destruct (String.eqb secret EmptyString); [intros [= <-]; auto |].
  destruct (jwt_verify token secret) as [userId|]; [| intros [= <-]; auto].
  destruct (isValidObjectId userId); cbn [bind]; [| intros [= <-]; auto].
  destruct (users db !! castObjectId userId) as [u|];
    cbn [fmap option_fmap option_map]; [| intros [= <-]; auto].
  destruct (User.isActive (User.without_password u)); cbn [negb];
    [discriminate | intros [= <-]; auto].
Qed.

(** What [authenticateToken] has checked when it calls [next()]. *)
Lemma authenticateToken_Next env authHeader db user :
  authenticateToken env authHeader db = Next user ->
  exists token secret userId u,
    bearer_token authHeader = Some token
    /\ JWT_SECRET env = Some secret
    /\ jwt_verify token secret = Some userId
    /\ isValidObjectId userId = true
    /\ _id user = castObjectId userId
    /\ users db !! _id user = Some u
    /\ User.isActive u = true
    /\ profile user = User.without_password u.
Proof.
  unfold authenticateToken, findById.
  destruct (bearer_token authHeader) as [token|]; [| discriminate].
  destruct (JWT_SECRET env) as [secret|]; [| discriminate].
  destruct (String.eqb secret EmptyString); [discriminate |].
  destruct (jwt_verify token secret) as [userId|] eqn:Hjwt; [| discriminate].
  destruct (isValidObjectId userId) eqn:Hid; cbn [bind]; [| discriminate].
  destruct (users db !! castObjectId userId) as [u|] eqn:Hu;
    cbn [fmap option_fmap option_map]; [| discriminate].
  destruct (User.isActive (User.without_password u)) eqn:Hact; cbn [negb];
    [| discriminate].
  intros [= <-]. exists token, secret, userId, u. cbn. auto 10.
Qed.

Lemma verifierOrAdmin_Next user : verifierOrAdmin (Some user) = Next user.
Proof.
  unfold verifierOrAdmin, authorizeRole.
  destruct (User.role (profile user)); reflexivity.
Qed.

Lemma adminOnly_admin user :
  User.role (profile user) = admin -> adminOnly (Some user) = Next user.
Proof. unfold adminOnly, authorizeRole. intros ->. reflexivity. Qed.

Lemma adminOnly_verifier user :
  User.role (profile user) = verifier ->
  adminOnly (Some user) = Respond (failure 403 "Insufficient permissions").
Proof. unfold adminOnly, authorizeRole. intros ->. reflexivity. Qed.

(** The verify endpoint is its route for every caller [authenticateToken]
    lets through. *)
Lemma patch_loans_verify_cases env now authHeader id body db :
  (exists res, authenticateToken env authHeader db = Respond res
               /\ patch_loans_verify env now authHeader id body db = (res, db))
  \/ (exists user, authenticateToken env authHeader db = Next user
                   /\ patch_loans_verify env now authHeader id body db
                      = verify_route now user id body db).
Proof.
  unfold patch_loans_verify, guarded.
  destruct (authenticateToken env authHeader db) as [user|res].
  - right. exists user. rewrite verifierOrAdmin_Next. auto.
  - left. exists res. auto.
Qed.

(** The approve endpoint is its route for admins only. *)
Lemma patch_admin_loans_approve_cases env now authHeader id body db :
  (exists res, authenticateToken env authHeader db = Respond res
               /\ patch_admin_loans_approve env now authHeader id body db
                  = (res, db))
  \/ (exists user, authenticateToken env authHeader db = Next user
                   /\ User.role (profile user) = verifier
                   /\ patch_admin_loans_approve env now authHeader id body db
                      = (failure 403 "Insufficient permissions", db))
  \/ (exists user, authenticateToken env authHeader db = Next user
                   /\ User.role (profile user) = admin
                   /\ patch_admin_loans_approve env now authHeader id body db
                      = approve_route now user id body db).
Proof.
  unfold patch_admin_loans_approve, guarded.
  destruct (authenticateToken env authHeader db) as [user|res].
  - destruct (User.role (profile user)) eqn:Hrole.
    + right; right. exists user. rewrite (adminOnly_admin _ Hrole). auto.
    + right; left. exists user. rewrite (adminOnly_verifier _ Hrole). auto.
  - left. exists res. auto.
Qed.

(** ** The two transition routes, branch by branch *)

Lemma verify_route_cases now user id body db :
  (snd (verify_route now user id body db) = db
   /\ statusCode (fst (verify_route now user id body db)) <> 200%nat)
  \/ exists l reason,
       well_formed ["verify"; "reject"] body = true
       /\ isValidObjectId id = true
       /\ loans db !! castObjectId id = Some l
       /\ Loan.status l = "pending"
       /\ cast_update (verify_updateData now user body) = Return reason
       /\ let l' := set_fields (verify_updateData now user body) reason now l in
          verify_route now user id body db =
            (success ("Loan " ++ (if strict_eq (action body) "verify"
                                  then "verified" else "rejected")
                      ++ " successfully")
               (JObj [("loan", populate "verifiedBy" ["name"; "email"]
                                 (users db) (Loan.toObject (castObjectId id) l'))]),
             {| users := users db; loans := <[castObjectId id := l']> (loans db) |}).
Proof.
  unfold verify_route, well_formed.
  destruct (includes ["verify"; "reject"] (action body)); cbn [negb andb];
    [| left; split; [reflexivity | cbn; lia]].
  destruct (strict_eq (action body) "reject"
            && negb (truthy (rejectionReason body))); cbn [negb];
    [left; split; [reflexivity | cbn; lia] |].
  unfold findById, findByIdAndUpdate.
  destruct (isValidObjectId id); [| left; split; [reflexivity | cbn; lia]].
  destruct (loans db !! castObjectId id) as [l|]; [| left; split; [reflexivity | cbn; lia]].
  destruct (String.eqb (Loan.status l) "pending") eqn:Hst; cbn [negb];
    [| left; split; [reflexivity | cbn; lia]].
  destruct (cast_update (verify_updateData now user body)) as [reason|e] eqn:Hc;
    cbn [bind]; [| left; split; [reflexivity | cbn; lia]].
  right. exists l, reason. apply String.eqb_eq in Hst. auto 10.
Qed.

Lemma approve_route_cases now user id body db :
  (snd (approve_route now user id body db) = db
   /\ statusCode (fst (approve_route now user id body db)) <> 200%nat)
  \/ exists l reason,
       well_formed ["approve"; "reject"] body = true
       /\ isValidObjectId id = true
       /\ loans db !! castObjectId id = Some l
       /\ Loan.status l = "verified"
       /\ cast_update (approve_updateData now user body) = Return reason
       /\ let l' := set_fields (approve_updateData now user body) reason now l in
          approve_route now user id body db =
            (success ("Loan " ++ (if strict_eq (action body) "approve"
                                  then "approved" else "rejected")
                      ++ " successfully")
               (JObj [("loan", populate_both (users db) (Loan.toObject (castObjectId id) l'))]),
             {| users := users db; loans := <[castObjectId id := l']> (loans db) |}).
Proof.
  unfold approve_route, well_formed.
  destruct (includes ["approve"; "reject"] (action body)); cbn [negb andb];
    [| left; split; [reflexivity | cbn; lia]].
  destruct (strict_eq (action body) "reject"
            && negb (truthy (rejectionReason body))); cbn [negb];
    [left; split; [reflexivity | cbn; lia] |].
  unfold findById, findByIdAndUpdate.
  destruct (isValidObjectId id); [| left; split; [reflexivity | cbn; lia]].
  destruct (loans db !! castObjectId id) as [l|]; [| left; split; [reflexivity | cbn; lia]].
  destruct (String.eqb (Loan.status l) "verified") eqn:Hst; cbn [negb];
    [| left; split; [reflexivity | cbn; lia]].
  destruct (cast_update (approve_updateData now user body)) as [reason|e] eqn:Hc;
    cbn [bind]; [| left; split; [reflexivity | cbn; lia]].
  right. exists l, reason. apply String.eqb_eq in Hst. auto 10.
Qed.

(** A response of the gates is never a success. *)
Lemma authenticateToken_Respond_code env authHeader db res :
  authenticateToken env authHeader db = Respond res ->
  statusCode res <> 200%nat.
Proof.
  intros Hres. apply authenticateToken_Respond in Hres.
  destruct Hres as [-> | [-> | ->]]; cbn; lia.
Qed.

(** The outcome of the verify endpoint: untouched store and a failure, or
    the route's success. *)
Lemma patch_loans_verify_outcome env now authHeader id body db :
  (snd (patch_loans_verify env now authHeader id body db) = db
   /\ statusCode (fst (patch_loans_verify env now authHeader id body db))
      <> 200%nat)
  \/ exists user l reason,
       authenticateToken env authHeader db = Next user
       /\ well_formed ["verify"; "reject"] body = true
       /\ isValidObjectId id = true
       /\ loans db !! castObjectId id = Some l
       /\ Loan.status l = "pending"
       /\ cast_update (verify_updateData now user body) = Return reason
       /\ let l' := set_fields (verify_updateData now user body) reason now l in
          patch_loans_verify env now authHeader id body db =
            (success ("Loan " ++ (if strict_eq (action body) "verify"
                                  then "verified" else "rejected")
                      ++ " successfully")
               (JObj [("loan", populate "verifiedBy" ["name"; "email"]
                                 (users db) (Loan.toObject (castObjectId id) l'))]),
             {| users := users db; loans := <[castObjectId id := l']> (loans db) |}).
Proof.
  destruct (patch_loans_verify_cases env now authHeader id body db)
    as [(res & Hres & ->) | (user & Huser & ->)].
  - left. split; [reflexivity |].
    exact (authenticateToken_Respond_code _ _ _ _ Hres).
  - destruct (verify_route_cases now user id body db)
      as [? | (l & reason & ? & ? & ? & ? & ? & ?)]; [left; assumption |].
    right. exists user, l, reason. auto 10.
Qed.

Lemma patch_admin_loans_approve_outcome env now authHeader id body db :
  (snd (patch_admin_loans_approve env now authHeader id body db) = db
   /\ statusCode (fst (patch_admin_loans_approve env now authHeader id body db))
      <> 200%nat)
  \/ exists user l reason,
       authenticateToken env authHeader db = Next user
       /\ User.role (profile user) = admin
       /\ well_formed ["approve"; "reject"] body = true
       /\ isValidObjectId id = true
       /\ loans db !! castObjectId id = Some l
       /\ Loan.status l = "verified"
       /\ cast_update (approve_updateData now user body) = Return reason
       /\ let l' := set_fields (approve_updateData now user body) reason now l in
          patch_admin_loans_approve env now authHeader id body db =
            (success ("Loan " ++ (if strict_eq (action body) "approve"
                                  then "approved" else "rejected")
                      ++ " successfully")
               (JObj [("loan", populate_both (users db) (Loan.toObject (castObjectId id) l'))]),
             {| users := users db; loans := <[castObjectId id := l']> (loans db) |}).
Proof.
  destruct (patch_admin_loans_approve_cases env now authHeader id body db)
    as [(res & Hres & ->) | [(user & _ & _ & ->) | (user & Huser & Hrole & ->)]].
  - left. split; [reflexivity |].
    exact (authenticateToken_Respond_code _ _ _ _ Hres).
  - left. split; [reflexivity | cbn; lia].
  - destruct (approve_route_cases now user id body db)
      as [? | (l & reason & ? & ? & ? & ? & ? & ?)]; [left; assumption |].
    right. exists user, l, reason. auto 10.
Qed.

(** ** Failed transitions leave the store alone *)

(** C10.  For every request to the verify or the admin approve endpoint
    that is answered with a failure (any status other than 200: invalid
    action, missing rejection reason, loan not found, wrong source status,
    and also a refusal by the gates or a caught exception), the database
    afterwards is the database before.  The single write happens only
    after every guard has passed: when the store has changed, the body was
    well formed and the loan existed in the required source status. *)
Theorem failed_transition_leaves_store env now authHeader id body db :
  (statusCode (fst (patch_loans_verify env now authHeader id body db))
     <> 200%nat ->
   snd (patch_loans_verify env now authHeader id body db) = db)
  /\ (statusCode (fst (patch_admin_loans_approve env now authHeader id body db))
        <> 200%nat ->
      snd (patch_admin_loans_approve env now authHeader id body db) = db)
  /\ (snd (patch_loans_verify env now authHeader id body db) <> db ->
      well_formed ["verify"; "reject"] body = true
      /\ exists l, loans db !! castObjectId id = Some l /\ Loan.status l = "pending")
  /\ (snd (patch_admin_loans_approve env now authHeader id body db) <> db ->
      well_formed ["approve"; "reject"] body = true
      /\ exists l, loans db !! castObjectId id = Some l /\ Loan.status l = "verified").
Proof.
  destruct (patch_loans_verify_outcome env now authHeader id body db)
    as [[Hdb Hcode] | (user & l & reason & _ & Hwf & _ & Hl & Hst & _ & Heq)];
  destruct (patch_admin_loans_approve_outcome env now authHeader id body db)
    as [[Hdb' Hcode'] | (user' & l' & reason' & _ & _ & Hwf' & _ & Hl' & Hst' & _ & Heq')];
  cbv zeta in *; repeat split;
    try (intros; assumption);
    try (intros; congruence);
    try (intros; eexists; split; eassumption);
    try (rewrite Heq; cbn; intros; congruence);
    try (rewrite Heq'; cbn; intros; congruence).
Qed.

(** ** Validation comes first *)

Lemma verify_route_bad_action now user id body db :
  includes ["verify"; "reject"] (action body) = false ->
  verify_route now user id body db =
    (failure 400 ("Action must be either " ++ dq ++ "verify" ++ dq
                  ++ " or " ++ dq ++ "reject" ++ dq), db).
Proof. unfold verify_route. intros ->. reflexivity. Qed.

Lemma approve_route_bad_action now user id body db :
  includes ["approve"; "reject"] (action body) = false ->
  approve_route now user id body db =
    (failure 400 ("Action must be either " ++ dq ++ "approve" ++ dq
                  ++ " or " ++ dq ++ "reject" ++ dq), db).
Proof. unfold approve_route. intros ->. reflexivity. Qed.

Lemma verify_route_no_reason now user id body db :
  reject_without_reason body ->
  verify_route now user id body db =
    (failure 400 "Rejection reason is required", db).
Proof.
  intros [Hact Hreason]. unfold verify_route. rewrite Hact, Hreason.
  reflexivity.
Qed.

Lemma approve_route_no_reason now user id body db :
  reject_without_reason body ->
  approve_route now user id body db =
    (failure 400 "Rejection reason is required", db).
Proof.
  intros [Hact Hreason]. unfold approve_route. rewrite Hact, Hreason.
  reflexivity.
Qed.

(** A body fails validation exactly when its verb is illegal or it is a
    reject without a reason. *)
Lemma ill_formed_cases verbs body :
  well_formed verbs body = false ->
  includes verbs (action body) = false \/ reject_without_reason body.
Proof.
  unfold well_formed, reject_without_reason, strict_eq.
  destruct (includes verbs (action body)); [| auto].
  destruct (action body) as [| | | |s| | |]; cbn; try discriminate.
  destruct (String.eqb s "reject") eqn:Hs; cbn; [| discriminate].
  apply String.eqb_eq in Hs as ->.
  destruct (truthy (rejectionReason body)); [discriminate | auto].
Qed.

Lemma verify_route_ill_formed now user id body db :
  well_formed ["verify"; "reject"] body = false ->
  verify_route now user id body db = (validation_error "verify" body, db).
Proof.
  intros Hwf. unfold validation_error.
  destruct (ill_formed_cases _ _ Hwf) as [Hbad | Hbad].
  - rewrite Hbad. apply verify_route_bad_action. exact Hbad.
  - rewrite (verify_route_no_reason _ _ _ _ _ Hbad).
    destruct Hbad as [-> _]. reflexivity.
Qed.

Lemma approve_route_ill_formed now user id body db :
  well_formed ["approve"; "reject"] body = false ->
  approve_route now user id body db = (validation_error "approve" body, db).
Proof.
  intros Hwf. unfold validation_error.
  destruct (ill_formed_cases _ _ Hwf) as [Hbad | Hbad].
  - rewrite Hbad. apply approve_route_bad_action. exact Hbad.
  - rewrite (approve_route_no_reason _ _ _ _ _ Hbad).
    destruct Hbad as [-> _]. reflexivity.
Qed.

(** C9, as amended.  At both transition routes the two body checks run
    before the store is read.  A request whose action keyword is not one
    of the two legal verbs, or whose reject action lacks a reason, is
    answered with the 400 validation error ("Action must be either ..."
    or "Rejection reason is required") whatever the loan id and whatever
    the store holds: a missing loan or a loan in the wrong source status
    makes no difference, and the store is left as it was.  This holds
    for the route under every caller, and so for the endpoint under
    every caller its gates let through.  A request the gates refuse (no
    or a bad token, an inactive user, a verifier at the admin approve
    endpoint) is answered by the gate with 401 or 403, whatever its
    body.  The 404 and the wrong-status 400 answers of the endpoints are
    reached only with a well-formed body. *)
Theorem validation_precedes_lookup now user id body db :
  (well_formed ["verify"; "reject"] body = false ->
   verify_route now user id body db = (validation_error "verify" body, db)
   /\ forall env authHeader,
        authenticateToken env authHeader db = Next user ->
        patch_loans_verify env now authHeader id body db
          = (validation_error "verify" body, db))
  /\ (well_formed ["approve"; "reject"] body = false ->
      approve_route now user id body db = (validation_error "approve" body, db)
      /\ forall env authHeader,
           authenticateToken env authHeader db = Next user ->
           User.role (profile user) = admin ->
           patch_admin_loans_approve env now authHeader id body db
             = (validation_error "approve" body, db))
  /\ (forall env authHeader,
        fst (patch_loans_verify env now authHeader id body db)
          = failure 404 "Loan not found"
        \/ fst (patch_loans_verify env now authHeader id body db)
           = failure 400 "Only pending loans can be verified or rejected" ->
        well_formed ["verify"; "reject"] body = true)
  /\ (forall env authHeader,
        fst (patch_admin_loans_approve env now authHeader id body db)
          = failure 404 "Loan not found"
        \/ fst (patch_admin_loans_approve env now authHeader id body db)
           = failure 400 "Only verified loans can be approved or rejected" ->
        well_formed ["approve"; "reject"] body = true)
  /\ (forall env authHeader res,
        authenticateToken env authHeader db = Respond res ->
        (statusCode res = 401%nat \/ statusCode res = 403%nat)
        /\ patch_loans_verify env now authHeader id body db = (res, db)
        /\ patch_admin_loans_approve env now authHeader id body db
           = (res, db))
  /\ (forall env authHeader,
        authenticateToken env authHeader db = Next user ->
        User.role (profile user) = verifier ->
        patch_admin_loans_approve env now authHeader id body db
        = (failure 403 "Insufficient permissions", db)).
Proof.
  split; [| split; [| split; [| split; [| split]]]].
  - intros Hwf. split; [apply verify_route_ill_formed; exact Hwf |].
    intros env authHeader Hauth. unfold patch_loans_verify, guarded.
    rewrite Hauth, verifierOrAdmin_Next.
    apply verify_route_ill_formed. exact Hwf.
  - intros Hwf. split; [apply approve_route_ill_formed; exact Hwf |].
    intros env authHeader Hauth Hrole.
    unfold patch_admin_loans_approve, guarded.
    rewrite Hauth, (adminOnly_admin _ Hrole).
    apply approve_route_ill_formed. exact Hwf.
  - intros env authHeader Hres.
    destruct (well_formed ["verify"; "reject"] body) eqn:Hwf; [reflexivity |].
    exfalso.
    destruct (patch_loans_verify_cases env now authHeader id body db)
      as [(res & Hgate & Heq) | (u & _ & Heq)]; rewrite Heq in Hres; cbn in Hres.
    + apply authenticateToken_Respond in Hgate.
      destruct Hgate as [-> | [-> | ->]], Hres as [Hres | Hres];
        discriminate Hres.
    + rewrite (verify_route_ill_formed _ _ _ _ _ Hwf) in Hres.
      unfold validation_error in Hres. cbn [fst] in Hres.
      destruct (includes _ _), Hres as [Hres | Hres]; discriminate Hres.
  - intros env authHeader Hres.
    destruct (well_formed ["approve"; "reject"] body) eqn:Hwf; [reflexivity |].
    exfalso.
    destruct (patch_admin_loans_approve_cases env now authHeader id body db)
      as [(res & Hgate & Heq) | [(u & _ & _ & Heq) | (u & _ & _ & Heq)]];
      rewrite Heq in Hres; cbn in Hres.
    + apply authenticateToken_Respond in Hgate.
      destruct Hgate as [-> | [-> | ->]], Hres as [Hres | Hres];
        discriminate Hres.
    + destruct Hres as [Hres | Hres]; discriminate Hres.
    + rewrite (approve_route_ill_formed _ _ _ _ _ Hwf) in Hres.
      unfold validation_error in Hres. cbn [fst] in Hres.
      destruct (includes _ _), Hres as [Hres | Hres]; discriminate Hres.
  - intros env authHeader res Hres. split.
    + apply authenticateToken_Respond in Hres.
      destruct Hres as [-> | [-> | ->]]; cbn; auto.
    + unfold patch_loans_verify, patch_admin_loans_approve, guarded.
      rewrite Hres. split; reflexivity.
  - intros env authHeader Hauth Hrole.
    unfold patch_admin_loans_approve, guarded.
    rewrite Hauth, (adminOnly_verifier _ Hrole). reflexivity.
Qed.

(** ** A reject needs a reason *)

(** C3, as amended.  For every caller the endpoint admits (a verifier or
    an admin at the verify endpoint, an admin at the admin approve
    endpoint) and every store, a reject action that omits its reason is
    answered with the 400 "Rejection reason is required" error and the
    database is not modified.  A verifier is refused at the admin approve
    endpoint with 403 by the role gate, before the body is looked at;
    the database is not modified either. *)
Theorem reject_requires_reason env now authHeader id body db user :
  authenticateToken env authHeader db = Next user ->
  reject_without_reason body ->
  patch_loans_verify env now authHeader id body db
    = (failure 400 "Rejection reason is required", db)
  /\ (User.role (profile user) = admin ->
      patch_admin_loans_approve env now authHeader id body db
        = (failure 400 "Rejection reason is required", db))
  /\ (User.role (profile user) = verifier ->
      patch_admin_loans_approve env now authHeader id body db
        = (failure 403 "Insufficient permissions", db)).
Proof.
  intros Hauth Hbody.
  unfold patch_loans_verify, patch_admin_loans_approve, guarded.
  rewrite Hauth, verifierOrAdmin_Next.
  split; [apply verify_route_no_reason; assumption |].
  split; intros Hrole.
  - rewrite (adminOnly_admin _ Hrole).
    apply approve_route_no_reason; assumption.
  - rewrite (adminOnly_verifier _ Hrole). reflexivity.
Qed.

(** ** Submission, branch by branch *)

Lemma findOne_None filter (coll : gmap string Loan.ILoan) :
  findOne filter coll = None <->
  forall id l, coll !! id = Some l -> filter l = false.
Proof.
  unfold findOne. split.
  - intros Hnone id l Hl.
    apply (find_none _ _ Hnone (id, l)).
    apply list_elem_of_In, elem_of_map_to_list. exact Hl.
  - intros Hall. destruct (List.find _ _) as [[id l]|] eqn:Hfind; [| reflexivity].
    apply find_some in Hfind as [Hin Hf]. cbn in Hf.
    apply list_elem_of_In, elem_of_map_to_list in Hin.
    rewrite (Hall _ _ Hin) in Hf. discriminate.
Qed.

Lemma findOne_Some filter (coll : gmap string Loan.ILoan) id l :
  coll !! id = Some l -> filter l = true -> is_Some (findOne filter coll).
Proof.
  intros Hl Hf. destruct (findOne filter coll) eqn:Hfind; [eauto |].
  rewrite findOne_None in Hfind. rewrite (Hfind _ _ Hl) in Hf. discriminate.
Qed.

Lemma apply_route_cases now newId b db :
  (snd (apply_route now newId b db) = db
   /\ statusCode (fst (apply_route now newId b db)) <> 201%nat)
  \/ (loanValidation b = []
      /\ findOne (open_application (normalizeEmail (Body.email b))) (loans db)
         = None
      /\ schema_valid (new_Loan now b) = true
      /\ loans db !! newId = None
      /\ apply_route now newId b db =
           ({| statusCode := 201;
               json := JObj [("success", JBool true);
                             ("message",
                              JStr "Loan application submitted successfully");
                             ("data", JObj [("loanId", JStr newId);
                                            ("status", JStr "pending")])] |},
            {| users := users db;
               loans := <[newId := new_Loan now b]> (loans db) |})).
Proof.
  unfold apply_route, save.
  case_bool_decide as Herr; cbn [negb];
    [| left; split; [reflexivity | cbn; lia]].
  destruct (findOne _ (loans db)) eqn:Hdup;
    [left; split; [reflexivity | cbn; lia] |].
  destruct (schema_valid (new_Loan now b)) eqn:Hschema; cbn [negb];
    [| left; split; [reflexivity | cbn; lia]].
  destruct (loans db !! newId) eqn:Hfresh;
    [left; split; [reflexivity | cbn; lia] |].
  right. auto 10.
Qed.

(** ** The status invariant and the terminal statuses *)

Lemma verify_update_status now user body reason l :
  Loan.status (set_fields (verify_updateData now user body) reason now l)
    = (if strict_eq (action body) "verify" then "verified" else "rejected").
Proof. unfold verify_updateData. destruct (strict_eq _ _); reflexivity. Qed.

Lemma approve_update_status now user body reason l :
  Loan.status (set_fields (approve_updateData now user body) reason now l)
    = (if strict_eq (action body) "approve" then "approved" else "rejected").
Proof. unfold approve_updateData. destruct (strict_eq _ _); reflexivity. Qed.

Lemma step_statuses_ok db db' :
  step db db' -> statuses_ok db -> statuses_ok db'.
Proof.
  unfold statuses_ok.
  intros [now newId b | env now authHeader id body
          | env now authHeader id body | us] Hok.
  - destruct (apply_route_cases now newId b db)
      as [[-> _] | (_ & _ & _ & _ & ->)]; [assumption |].
    cbn. apply map_Forall_insert_2; [| assumption].
    cbn. unfold Loan.LoanStatus. set_solver.
  - destruct (patch_loans_verify_outcome env now authHeader id body db)
      as [[-> _] | (user & l & reason & _ & _ & _ & _ & _ & _ & Heq)];
      [assumption |].
    cbv zeta in Heq. rewrite Heq. cbn [snd loans].
    apply map_Forall_insert_2; [| assumption].
    rewrite verify_update_status. unfold Loan.LoanStatus.
    destruct (strict_eq _ _); set_solver.
  - destruct (patch_admin_loans_approve_outcome env now authHeader id body db)
      as [[-> _] | (user & l & reason & _ & _ & _ & _ & _ & _ & _ & Heq)];
      [assumption |].
    cbv zeta in Heq. rewrite Heq. cbn [snd loans].
    apply map_Forall_insert_2; [| assumption].
    rewrite approve_update_status. unfold Loan.LoanStatus.
    destruct (strict_eq _ _); set_solver.
  - exact Hok.
Qed.

Lemma step_keeps_terminal db db' id l :
  step db db' ->
  loans db !! id = Some l -> terminal (Loan.status l) ->
  loans db' !! id = Some l.
Proof.
  intros [now newId b | env now authHeader id0 body
          | env now authHeader id0 body | us] Hl Hterm.
  - destruct (apply_route_cases now newId b db)
      as [[-> _] | (_ & _ & _ & Hfresh & ->)]; [assumption |].
    cbn. rewrite lookup_insert_ne; [assumption | congruence].
  - destruct (patch_loans_verify_outcome env now authHeader id0 body db)
      as [[-> _] | (user & l0 & reason & _ & _ & _ & Hl0 & Hst & _ & Heq)];
      [assumption |].
    cbv zeta in Heq. rewrite Heq. cbn [snd loans].
    rewrite lookup_insert_ne; [assumption |].
    intros <-. rewrite Hl in Hl0. injection Hl0 as ->.
    destruct Hterm as [Ht | Ht]; rewrite Hst in Ht; discriminate Ht.
  - destruct (patch_admin_loans_approve_outcome env now authHeader id0 body db)
      as [[-> _] | (user & l0 & reason & _ & _ & _ & _ & Hl0 & Hst & _ & Heq)];
      [assumption |].
    cbv zeta in Heq. rewrite Heq. cbn [snd loans].
    rewrite lookup_insert_ne; [assumption |].
    intros <-. rewrite Hl in Hl0. injection Hl0 as ->.
    destruct Hterm as [Ht | Ht]; rewrite Hst in Ht; discriminate Ht.
  - exact Hl.
Qed.

Lemma well_formed_guards verbs body :
  well_formed verbs body = true ->
  includes verbs (action body) = true
  /\ strict_eq (action body) "reject" && negb (truthy (rejectionReason body))
     = false.
Proof.
  unfold well_formed. intros Hwf. apply andb_true_iff in Hwf as [? Hneg].
  split; [assumption |]. apply negb_true_iff. exact Hneg.
Qed.

Lemma verify_route_wrong_status now user id body db l :
  well_formed ["verify"; "reject"] body = true ->
  isValidObjectId id = true ->
  loans db !! castObjectId id = Some l ->
  Loan.status l <> "pending" ->
  verify_route now user id body db
    = (failure 400 "Only pending loans can be verified or rejected", db).
Proof.
  intros Hwf Hid Hl Hst. apply well_formed_guards in Hwf as [Hverb Hreason].
  unfold verify_route, findById. rewrite Hverb, Hreason, Hid, Hl. cbn [negb].
  apply String.eqb_neq in Hst. rewrite Hst. reflexivity.
Qed.

Lemma approve_route_wrong_status now user id body db l :
  well_formed ["approve"; "reject"] body = true ->
  isValidObjectId id = true ->
  loans db !! castObjectId id = Some l ->
  Loan.status l <> "verified" ->
  approve_route now user id body db
    = (failure 400 "Only verified loans can be approved or rejected", db).
Proof.
  intros Hwf Hid Hl Hst. apply well_formed_guards in Hwf as [Hverb Hreason].
  unfold approve_route, findById. rewrite Hverb, Hreason, Hid, Hl. cbn [negb].
  apply String.eqb_neq in Hst. rewrite Hst. reflexivity.
Qed.

(** C1, as amended.  Along every run of the system from a store whose
    loans all carry one of the four statuses, every loan keeps carrying
    one of them.  A request to the verify endpoint succeeds only when the
    loan's current status is pending, and a request to the admin approve
    endpoint only when it is verified.  A transition attempt from another
    status that reaches the status guard (a caller the endpoint admits,
    a well-formed body, an id that casts) is answered with the 400
    wrong-status error and changes nothing.  Consequently a loan whose
    status is approved or rejected is never changed again. *)
Theorem lifecycle_guards db :
  statuses_ok db ->
  (forall db', rtc step db db' -> statuses_ok db')
  /\ (forall env now authHeader id body,
        statusCode (fst (patch_loans_verify env now authHeader id body db))
          = 200%nat ->
        exists l, loans db !! castObjectId id = Some l
                  /\ Loan.status l = "pending")
  /\ (forall env now authHeader id body,
        statusCode (fst (patch_admin_loans_approve env now authHeader id body db))
          = 200%nat ->
        exists l, loans db !! castObjectId id = Some l
                  /\ Loan.status l = "verified")
  /\ (forall env now authHeader id body user l,
        authenticateToken env authHeader db = Next user ->
        well_formed ["verify"; "reject"] body = true ->
        isValidObjectId id = true ->
        loans db !! castObjectId id = Some l ->
        Loan.status l <> "pending" ->
        patch_loans_verify env now authHeader id body db
          = (failure 400 "Only pending loans can be verified or rejected", db))
  /\ (forall env now authHeader id body user l,
        authenticateToken env authHeader db = Next user ->
        User.role (profile user) = admin ->
        well_formed ["approve"; "reject"] body = true ->
        isValidObjectId id = true ->
        loans db !! castObjectId id = Some l ->
        Loan.status l <> "verified" ->
        patch_admin_loans_approve env now authHeader id body db
          = (failure 400 "Only verified loans can be approved or rejected", db))
  /\ (forall id l db',
        loans db !! id = Some l -> terminal (Loan.status l) ->
        rtc step db db' -> loans db' !! id = Some l).
Proof.
  intros Hok. repeat split.
  - intros db' Hrun. induction Hrun as [| ? ? ? Hstep _ IH]; [assumption |].
    apply IH. exact (step_statuses_ok _ _ Hstep Hok).
  - intros env now authHeader id body Hcode.
    destruct (patch_loans_verify_outcome env now authHeader id body db)
      as [[_ Hfail] | (user & l & reason & _ & _ & _ & Hl & Hst & _)];
      [contradiction | eauto].
  - intros env now authHeader id body Hcode.
    destruct (patch_admin_loans_approve_outcome env now authHeader id body db)
      as [[_ Hfail] | (user & l & reason & _ & _ & _ & _ & Hl & Hst & _)];
      [contradiction | eauto].
  - intros env now authHeader id body user l Hauth Hwf Hid Hl Hst.
    unfold patch_loans_verify, guarded. rewrite Hauth, verifierOrAdmin_Next.
    exact (verify_route_wrong_status _ _ _ _ _ _ Hwf Hid Hl Hst).
  - intros env now authHeader id body user l Hauth Hrole Hwf Hid Hl Hst.
    unfold patch_admin_loans_approve, guarded.
    rewrite Hauth, (adminOnly_admin _ Hrole).
    exact (approve_route_wrong_status _ _ _ _ _ _ Hwf Hid Hl Hst).
  - intros id l db' Hl Hterm Hrun. clear Hok.
    induction Hrun as [| ? ? ? Hstep _ IH]; [assumption |].
    apply IH. exact (step_keeps_terminal _ _ _ _ Hstep Hl Hterm).
Qed.

(** ** Duplicate applications *)

Lemma open_application_true email l :
  open_application email l = true <->
  Loan.email l = email
  /\ (Loan.status l = "pending" \/ Loan.status l = "verified").
Proof.
  unfold open_application. cbn [existsb].
  rewrite andb_true_iff, !orb_true_iff, !String.eqb_eq. intuition discriminate.
Qed.

(** C2, as amended.  When a loan with the same email exists in status
    pending or verified, every submission is answered with HTTP 400 and no
    record is created; for a submission that passes the field validation
    the answer is the duplicate-application error.  When every earlier
    loan for that email is terminal, a valid submission (one that passes
    the field validation and the schema's validators) is answered with
    HTTP 201 and creates a new loan whose status is pending. *)
Theorem duplicate_application now newId b db :
  (forall id l,
     loans db !! id = Some l ->
     Loan.email l = normalizeEmail (Body.email b) ->
     Loan.status l = "pending" \/ Loan.status l = "verified" ->
     statusCode (fst (apply_route now newId b db)) = 400%nat
     /\ snd (apply_route now newId b db) = db
     /\ (loanValidation b = [] ->
         apply_route now newId b db
           = (failure 400 "You already have a pending loan application", db)))
  /\ ((forall id l,
         loans db !! id = Some l ->
         Loan.email l = normalizeEmail (Body.email b) ->
         terminal (Loan.status l)) ->
      loanValidation b = [] ->
      schema_valid (new_Loan now b) = true ->
      loans db !! newId = None ->
      apply_route now newId b db =
        ({| statusCode := 201;
            json := JObj [("success", JBool true);
                          ("message",
                           JStr "Loan application submitted successfully");
                          ("data", JObj [("loanId", JStr newId);
                                         ("status", JStr "pending")])] |},
         {| users := users db;
            loans := <[newId := new_Loan now b]> (loans db) |})
      /\ Loan.status (new_Loan now b) = "pending").
Proof.
  split.
  - intros id l Hl Hemail Hst.
    assert (Hdup : is_Some (findOne (open_application
                                       (normalizeEmail (Body.email b)))
                                    (loans db))).
    { apply (findOne_Some _ _ id l Hl). apply open_application_true. auto. }
    destruct Hdup as [kv Hdup].
    unfold apply_route. rewrite Hdup.
    case_bool_decide as Herr; cbn [negb fst snd statusCode failure].
    + repeat split; reflexivity.
    + repeat split; try reflexivity. intros; contradiction.
  - intros Hterm Hvalid Hschema Hfresh. split; [| reflexivity].
    unfold apply_route, save.
    rewrite bool_decide_eq_true_2 by exact Hvalid. cbn [negb].
    replace (findOne _ (loans db)) with (@None (string * Loan.ILoan)).
    + rewrite Hschema, Hfresh. reflexivity.
    + symmetry. apply findOne_None. intros id l Hl.
      destruct (open_application _ l) eqn:Hopen; [| reflexivity].
      apply open_application_true in Hopen as [Hemail Hst].
      destruct (Hterm _ _ Hl Hemail) as [Ht | Ht], Hst as [Hs | Hs];
        rewrite Hs in Ht; discriminate Ht.
Qed.

(** ** The gates' status codes *)

(** C4, as amended.  At every authenticated endpoint the answer is 401
    when the bearer token is missing from the header, and when the token
    resolves to a user that does not exist or is inactive; it is 403 when
    token verification fails (a malformed or expired token makes
    [jwt.verify] throw) and when the resolved identity's role is outside
    the endpoint's permitted set.  Otherwise the request reaches its
    handler with the resolved identity, password excluded. *)
Theorem gate_status_codes env roles authHeader db
    (handler : ReqUser -> Response * Db) :
  (bearer_token authHeader = None ->
   guarded env (authorizeRole roles) authHeader db handler
     = (failure 401 "Access token required", db))
  /\ (forall token secret,
        bearer_token authHeader = Some token ->
        JWT_SECRET env = Some secret -> secret <> EmptyString ->
        (jwt_verify token secret = None ->
         guarded env (authorizeRole roles) authHeader db handler
           = (failure 403 "Invalid or expired token", db))
        /\ (forall userId,
              jwt_verify token secret = Some userId ->
              isValidObjectId userId = true ->
              (users db !! castObjectId userId = None ->
               guarded env (authorizeRole roles) authHeader db handler
                 = (failure 401 "Invalid or inactive user", db))
              /\ (forall u,
                    users db !! castObjectId userId = Some u ->
                    (User.isActive u = false ->
                     guarded env (authorizeRole roles) authHeader db handler
                       = (failure 401 "Invalid or inactive user", db))
                    /\ (User.isActive u = true ->
                        includes roles (JStr (role_name (User.role u))) = false ->
                        guarded env (authorizeRole roles) authHeader db handler
                          = (failure 403 "Insufficient permissions", db))
                    /\ (User.isActive u = true ->
                        includes roles (JStr (role_name (User.role u))) = true ->
                        guarded env (authorizeRole roles) authHeader db handler
                          = handler {| _id := castObjectId userId;
                                       profile := User.without_password u |})))).
Proof.
  unfold guarded, authenticateToken, authorizeRole, findById.
  split; [intros ->; reflexivity |].
  intros token secret -> -> Hsecret.
  apply String.eqb_neq in Hsecret. rewrite Hsecret.
  split; [intros ->; reflexivity |].
  intros userId -> ->. cbn [bind].
  split; [intros ->; reflexivity |].
  intros u ->. cbn [fmap option_fmap option_map User.isActive
                    User.without_password User.role profile].
  repeat split.
  - intros ->. reflexivity.
  - intros -> Hrole. cbn. rewrite Hrole. reflexivity.
  - intros -> Hrole. cbn. rewrite Hrole. reflexivity.
Qed.

(** ** What a successful transition writes *)

Lemma set_fields_same_application upd reason now l :
  same_application l (set_fields upd reason now l).
Proof. repeat split. Qed.

(** C8, as amended.  A successful request to the verify endpoint replaces
    one loan document and nothing else in the database.  In that document
    it sets [status], [verifiedBy] (the caller) and [verificationDate]
    (the time of the request), on reject also [rejectionReason] (the cast
    of the supplied reason), and the schema's [timestamps] option stamps
    [updatedAt].  A successful request to the admin approve endpoint does
    the same with [approvedBy] and [approvalDate].  Every other field is
    left as it was: the applicant-supplied fields, [createdAt], the
    approval fields under verify, and under approve the recorded
    [verifiedBy] and [verificationDate]; [rejectionReason] too unless the
    action is a reject. *)
Theorem transition_frame env now authHeader id body db :
  (statusCode (fst (patch_loans_verify env now authHeader id body db))
     = 200%nat ->
   exists user l l',
     authenticateToken env authHeader db = Next user
     /\ loans db !! castObjectId id = Some l
     /\ snd (patch_loans_verify env now authHeader id body db)
        = {| users := users db; loans := <[castObjectId id := l']> (loans db) |}
     /\ Loan.verifiedBy l' = Some (_id user)
     /\ Loan.verificationDate l' = Some now
     /\ Loan.updatedAt l' = now
     /\ (strict_eq (action body) "verify" = true ->
         Loan.status l' = "verified"
         /\ Loan.rejectionReason l' = Loan.rejectionReason l)
     /\ (strict_eq (action body) "verify" = false ->
         Loan.status l' = "rejected"
         /\ is_Some (Loan.rejectionReason l')
         /\ Loan.rejectionReason l' = castString (rejectionReason body))
     /\ same_application l l'
     /\ Loan.approvedBy l' = Loan.approvedBy l
     /\ Loan.approvalDate l' = Loan.approvalDate l)
  /\ (statusCode (fst (patch_admin_loans_approve env now authHeader id body db))
        = 200%nat ->
      exists user l l',
        authenticateToken env authHeader db = Next user
        /\ loans db !! castObjectId id = Some l
        /\ snd (patch_admin_loans_approve env now authHeader id body db)
           = {| users := users db; loans := <[castObjectId id := l']> (loans db) |}
        /\ Loan.approvedBy l' = Some (_id user)
        /\ Loan.approvalDate l' = Some now
        /\ Loan.updatedAt l' = now
        /\ (strict_eq (action body) "approve" = true ->
            Loan.status l' = "approved"
            /\ Loan.rejectionReason l' = Loan.rejectionReason l)
        /\ (strict_eq (action body) "approve" = false ->
            Loan.status l' = "rejected"
            /\ is_Some (Loan.rejectionReason l')
            /\ Loan.rejectionReason l' = castString (rejectionReason body))
        /\ same_application l l'
        /\ Loan.verifiedBy l' = Loan.verifiedBy l
        /\ Loan.verificationDate l' = Loan.verificationDate l).
Proof.
  split; intros Hcode.
  - destruct (patch_loans_verify_outcome env now authHeader id body db)
      as [[_ Hfail] | (user & l & reason & Hauth & _ & _ & Hl & _ & Hcast & Heq)];
      [contradiction |].
    cbv zeta in Heq. rewrite Heq. cbn [snd].
    exists user, l, (set_fields (verify_updateData now user body) reason now l).
    split; [assumption |]. split; [assumption |]. split; [reflexivity |].
    unfold verify_updateData, cast_update in *.
    destruct (strict_eq (action body) "verify"); cbn in Hcast |- *.
    + injection Hcast as <-.
      repeat split; try reflexivity; intros; discriminate.
    + destruct (castString (rejectionReason body)) as [s|]; [| discriminate].
      injection Hcast as <-.
      repeat split; try reflexivity; try (intros; discriminate); eauto.
  - destruct (patch_admin_loans_approve_outcome env now authHeader id body db)
      as [[_ Hfail]
         | (user & l & reason & Hauth & _ & _ & _ & Hl & _ & Hcast & Heq)];
      [contradiction |].
    cbv zeta in Heq. rewrite Heq. cbn [snd].
    exists user, l, (set_fields (approve_updateData now user body) reason now l).
    split; [assumption |]. split; [assumption |]. split; [reflexivity |].
    unfold approve_updateData, cast_update in *.
    destruct (strict_eq (action body) "approve"); cbn in Hcast |- *.
    + injection Hcast as <-.
      repeat split; try reflexivity; intros; discriminate.
    + destruct (castString (rejectionReason body)) as [s|]; [| discriminate].
      injection Hcast as <-.
      repeat split; try reflexivity; try (intros; discriminate); eauto.
Qed.

(** ** What a successful transition returns *)

Lemma lookup_populate_same path paths us fields :
  lookup_field path
    (map (fun kv : string * JsValue =>
            if String.eqb (fst kv) path
            then (fst kv, populate_ref paths us (snd kv)) else kv) fields)
  = populate_ref paths us (lookup_field path fields).
Proof.
  induction fields as [| [k v] rest IH]; [reflexivity |].
  cbn [map fst snd lookup_field].
  destruct (String.eqb k path) eqn:Hk; cbn [lookup_field]; rewrite Hk;
    [reflexivity | exact IH].
Qed.

Lemma lookup_populate_other path k paths us fields :
  k <> path ->
  lookup_field k
    (map (fun kv : string * JsValue =>
            if String.eqb (fst kv) path
            then (fst kv, populate_ref paths us (snd kv)) else kv) fields)
  = lookup_field k fields.
Proof.
  intros Hne. induction fields as [| [k' v] rest IH]; [reflexivity |].
  cbn [map fst snd lookup_field].
  destruct (String.eqb k' path) eqn:Hk'; cbn [lookup_field];
    destruct (String.eqb k' k) eqn:Hk; try exact IH; try reflexivity.
  apply String.eqb_eq in Hk', Hk. congruence.
Qed.

Lemma get_populate_same path paths us doc :
  get path (populate path paths us doc)
  = populate_ref paths us (get path doc).
Proof.
  destruct doc; try reflexivity. apply lookup_populate_same.
Qed.

Lemma get_populate_other path k paths us doc :
  k <> path -> get k (populate path paths us doc) = get k doc.
Proof.
  intros Hne. destruct doc; try reflexivity.
  apply lookup_populate_other. exact Hne.
Qed.

Lemma get_verifiedBy id l :
  get "verifiedBy" (Loan.toObject id l)
  = default JUndefined (JStr <$> Loan.verifiedBy l).
Proof.
  unfold Loan.toObject, Loan.documents_field.
  destruct (Loan.creditScore l), (Loan.verifiedBy l), (Loan.approvedBy l),
    (Loan.verificationDate l), (Loan.approvalDate l), (Loan.rejectionReason l),
    (Loan.idProof (Loan.documents l)),
    (Loan.incomeProof (Loan.documents l)),
    (Loan.addressProof (Loan.documents l));
    reflexivity.
Qed.

Lemma get_approvedBy id l :
  get "approvedBy" (Loan.toObject id l)
  = default JUndefined (JStr <$> Loan.approvedBy l).
Proof.
  unfold Loan.toObject, Loan.documents_field.
  destruct (Loan.creditScore l), (Loan.verifiedBy l), (Loan.approvedBy l),
    (Loan.verificationDate l), (Loan.approvalDate l), (Loan.rejectionReason l),
    (Loan.idProof (Loan.documents l)),
    (Loan.incomeProof (Loan.documents l)),
    (Loan.addressProof (Loan.documents l));
    reflexivity.
Qed.


Lemma populate_ref_user us id u :
  us !! id = Some u ->
  populate_ref ["name"; "email"] us (JStr id) = identity_summary id u.
Proof.
  intros Hu. unfold populate_ref. rewrite Hu.
  unfold select_paths, User.toObject, identity_summary.
  destruct (User.password u); reflexivity.
Qed.

Lemma has_password_populate_ref us v :
  has_key "password" v = false ->
  has_key "password" (populate_ref ["name"; "email"] us v) = false.
Proof.
  intros Hv. destruct v; try exact Hv. unfold populate_ref.
  destruct (us !! s) as [u|] eqn:Hu; [| reflexivity].
  unfold select_paths, User.toObject. destruct (User.password u); reflexivity.
Qed.

Lemma has_key_cons k k' v rest :
  has_key k (JObj ((k', v) :: rest))
  = String.eqb k' k || has_key k v || has_key k (JObj rest).
Proof. reflexivity. Qed.

Lemma has_password_populate path us doc :
  has_key "password" doc = false ->
  has_key "password" (populate path ["name"; "email"] us doc) = false.
Proof.
  destruct doc; try (intros; assumption). unfold populate.
  induction fields as [| [k v] rest IH]; [reflexivity |].
  rewrite has_key_cons. intros Hdoc.
  apply orb_false_iff in Hdoc as [Hhead Hrest].
  apply orb_false_iff in Hhead as [Hk Hv].
  cbn [map fst snd].
  destruct (String.eqb k path); rewrite has_key_cons, Hk, (IH Hrest).
  - rewrite (has_password_populate_ref _ _ Hv). reflexivity.
  - rewrite Hv. reflexivity.
Qed.

Lemma has_password_loan id l :
  has_key "password" (Loan.toObject id l) = false.
Proof.
  destruct l as [? ? ? ? ? ? ? score ? vBy aBy vDate aDate reason [d1 d2 d3] ? ?].
  unfold Loan.toObject, Loan.documents_field, Loan.documents_toObject.
  cbn [Loan.creditScore Loan.verifiedBy Loan.approvedBy Loan.verificationDate
       Loan.approvalDate Loan.rejectionReason Loan.documents Loan.idProof
       Loan.incomeProof Loan.addressProof].
  destruct score, vBy, aBy, vDate, aDate, reason, d1, d2, d3; reflexivity.
Qed.

Lemma has_password_success message loan :
  has_key "password" (json (success message (JObj [("loan", loan)])))
  = has_key "password" loan.
Proof. cbn. rewrite !orb_false_r. reflexivity. Qed.

Lemma returned_loan_success message loan :
  returned_loan (success message (JObj [("loan", loan)])) = loan.
Proof. reflexivity. Qed.

(** C7, as amended.  The response of every successful transition carries
    the updated loan document, the one the database holds afterwards.  In
    it the reference to the acting user ([verifiedBy] at the verify
    endpoint, [approvedBy] at the admin approve endpoint) is expanded to
    that user's identity summary, which contains only the [_id], [name]
    and [email] fields; at the admin approve endpoint the earlier
    [verifiedBy] reference is expanded in the same way ([null] when that
    user no longer exists).  No property named [password] occurs anywhere
    in the response. *)
Theorem transition_response_actors env now authHeader id body db :
  (statusCode (fst (patch_loans_verify env now authHeader id body db))
     = 200%nat ->
   exists user u l',
     authenticateToken env authHeader db = Next user
     /\ users db !! _id user = Some u
     /\ loans (snd (patch_loans_verify env now authHeader id body db))
          !! castObjectId id = Some l'
     /\ returned_loan (fst (patch_loans_verify env now authHeader id body db))
        = populate "verifiedBy" ["name"; "email"] (users db)
            (Loan.toObject (castObjectId id) l')
     /\ get "verifiedBy"
          (returned_loan (fst (patch_loans_verify env now authHeader id body db)))
        = identity_summary (_id user) u
     /\ keys (identity_summary (_id user) u) = ["_id"; "email"; "name"]
     /\ has_key "password"
          (json (fst (patch_loans_verify env now authHeader id body db)))
        = false)
  /\ (statusCode (fst (patch_admin_loans_approve env now authHeader id body db))
        = 200%nat ->
      exists user u l',
        authenticateToken env authHeader db = Next user
        /\ users db !! _id user = Some u
        /\ loans (snd (patch_admin_loans_approve env now authHeader id body db))
             !! castObjectId id = Some l'
        /\ returned_loan
             (fst (patch_admin_loans_approve env now authHeader id body db))
           = populate_both (users db) (Loan.toObject (castObjectId id) l')
        /\ get "approvedBy"
             (returned_loan
                (fst (patch_admin_loans_approve env now authHeader id body db)))
           = identity_summary (_id user) u
        /\ get "verifiedBy"
             (returned_loan
                (fst (patch_admin_loans_approve env now authHeader id body db)))
           = match Loan.verifiedBy l' with
             | None => JUndefined
             | Some vid =>
                 match users db !! vid with
                 | Some v => identity_summary vid v
                 | None => JNull
                 end
             end
        /\ has_key "password"
             (json (fst (patch_admin_loans_approve env now authHeader id body db)))
           = false).
Proof.
  split; intros Hcode.
  - destruct (patch_loans_verify_outcome env now authHeader id body db)
      as [[_ Hfail] | (user & l & reason & Hauth & _ & _ & _ & _ & _ & Heq)];
      [contradiction |].
    cbv zeta in Heq. rewrite Heq. cbn [fst snd loans].
    destruct (authenticateToken_Next _ _ _ _ Hauth)
      as (_ & _ & _ & u & _ & _ & _ & _ & _ & Hu & _ & _).
    exists user, u, (set_fields (verify_updateData now user body) reason now l).
    rewrite returned_loan_success, has_password_success.
    repeat split.
    + assumption.
    + assumption.
    + apply lookup_insert_eq.
    + rewrite get_populate_same, get_verifiedBy.
      replace (Loan.verifiedBy _) with (Some (_id user))
        by (unfold verify_updateData; destruct (strict_eq _ _); reflexivity).
      apply populate_ref_user. exact Hu.
    + apply has_password_populate, has_password_loan.
  - destruct (patch_admin_loans_approve_outcome env now authHeader id body db)
      as [[_ Hfail]
         | (user & l & reason & Hauth & _ & _ & _ & _ & _ & _ & Heq)];
      [contradiction |].
    cbv zeta in Heq. rewrite Heq. cbn [fst snd loans].
    destruct (authenticateToken_Next _ _ _ _ Hauth)
      as (_ & _ & _ & u & _ & _ & _ & _ & _ & Hu & _ & _).
    exists user, u, (set_fields (approve_updateData now user body) reason now l).
    rewrite returned_loan_success, has_password_success.
    unfold populate_both.
    repeat split.
    + assumption.
    + assumption.
    + apply lookup_insert_eq.
    + rewrite get_populate_same, get_populate_other by discriminate.
      rewrite get_approvedBy.
      replace (Loan.approvedBy _) with (Some (_id user))
        by (unfold approve_updateData; destruct (strict_eq _ _); reflexivity).
      apply populate_ref_user. exact Hu.
    + rewrite get_populate_other by discriminate.
      rewrite get_populate_same, get_verifiedBy.
      destruct (Loan.verifiedBy _) as [vid|]; [| reflexivity].
      cbn [fmap option_fmap option_map default].
      destruct (users db !! vid) as [v|] eqn:Hv.
      * apply populate_ref_user. exact Hv.
      * unfold populate_ref. cbn [default from_option Datatypes.id].
        rewrite Hv. reflexivity.
    + apply has_password_populate, has_password_populate, has_password_loan.
Qed.

(** ** Reads by role *)

Lemma elem_of_find_sorted q (coll : gmap string Loan.ILoan) id l :
  (id, l) ∈ find_sorted q coll <-> coll !! id = Some l /\ matches q l = true.
Proof.
  unfold find_sorted. rewrite merge_sort_Permutation, list_elem_of_filter.
  rewrite elem_of_map_to_list. cbn. tauto.
Qed.

Lemma slice_Return {A} w (docs found : list A) :
  slice w docs = Return found ->
  exists skip limit,
    w = Slice skip limit
    /\ found = match limit with
               | Some n => take n (drop skip docs)
               | None => drop skip docs
               end.
Proof.
  destruct w as [skip [n|] |]; cbn; try discriminate;
    intros [= <-]; eauto.
Qed.

Lemma slice_subseteq {A} w (docs found : list A) :
  slice w docs = Return found -> found ⊆ docs.
Proof.
  intros Hslice.
  destruct (slice_Return _ _ _ Hslice) as (skip & [n|] & _ & ->).
  - etransitivity; [apply subseteq_take | apply subseteq_drop].
  - apply subseteq_drop.
Qed.

Lemma find_window_Return q skip limitNum (coll : gmap string Loan.ILoan) found :
  find_window q skip limitNum coll = Return found ->
  query_valid q = true
  /\ slice (window skip limitNum) (find_sorted q coll) = Return found.
Proof.
  unfold find_window. destruct (query_valid q); [auto | discriminate].
Qed.

Lemma list_page_found user q db found id l :
  list_page user q db = Return found ->
  (id, l) ∈ found ->
  loans db !! id = Some l /\ matches (list_query user q) l = true.
Proof.
  unfold list_page. intros Hpage Hin.
  apply find_window_Return in Hpage as [_ Hslice].
  apply (slice_subseteq _ _ _ Hslice) in Hin.
  apply elem_of_find_sorted. exact Hin.
Qed.






End Properties.

(** ** The dashboard's percentages *)

Section Dashboard.
Context {P : Platform}.

Lemma countDocuments_empty q : countDocuments q ∅ = 0%nat.
Proof. unfold countDocuments. rewrite map_to_list_empty. reflexivity. Qed.

(** C6.  With no loan in the store the request does not fail, it is
    answered with 200; but every per-status percentage it reports is the
    string [NaN], the result of [(0 / 0 * 100).toFixed(1)], and not 0. *)
Theorem empty_store_percentages user us :
  statusCode (fst (stats_route user {| users := us; loans := ∅ |})) = 200%nat
  /\ statusDistribution ∅ =
       [JObj [("status", JStr "pending"); ("count", count 0);
              ("percentage", JStr "NaN")];
        JObj [("status", JStr "verified"); ("count", count 0);
              ("percentage", JStr "NaN")];
        JObj [("status", JStr "approved"); ("count", count 0);
              ("percentage", JStr "NaN")];
        JObj [("status", JStr "rejected"); ("count", count 0);
              ("percentage", JStr "NaN")]].
Proof.
  split; [reflexivity |].
  unfold statusDistribution. rewrite !countDocuments_empty. reflexivity.
Qed.

(** The sibling entries of the same response do report zero on an empty
    store: [totalLoanAmount[0]?.total || 0]. *)
Lemma empty_store_amounts q : total_or_zero (aggregate_total q ∅) = 0%Q.
Proof. unfold aggregate_total. rewrite map_to_list_empty. reflexivity. Qed.

(** The quotient is rounded as a double before it is printed: 23 of 80
    is 28.75 percent, the double computed lies just below it, and the
    digit printed is 7. *)
Lemma percentage_rounds_the_double : percentage 23 80 = "28.7".
Proof. vm_compute. reflexivity. Qed.


End Dashboard.

(** * The statements on the sample deployment *)

Section Seeded.
#[local] Existing Instance Scenario.platform.

Lemma seeded_statuses_ok : statuses_ok Scenario.seeded.
Proof. apply (bool_decide_unpack _). vm_compute. exact I. Defined.

(** ** C1 *)

(** Bob's loan is approved.  An admin's reject without a reason at the
    verify endpoint is a transition attempt from a status other than
    pending, and it is answered with the validation error, not with the
    wrong-status error.  John's loan is pending; a verifier's approve at
    the admin approve endpoint is an attempt from a status other than
    verified, and it is answered with 403 by the role gate. *)
Lemma reject_without_reason_on_approved_loan :
  Loan.status <$> loans Scenario.seeded !! Scenario.bob_id = Some "approved"
  /\ fst (patch_loans_verify Scenario.env 3000 (Scenario.bearer "token.admin")
            Scenario.bob_id Scenario.bare_reject Scenario.seeded)
     = failure 400 "Rejection reason is required"
  /\ fst (patch_loans_verify Scenario.env 3000 (Scenario.bearer "token.admin")
            Scenario.bob_id Scenario.bare_reject Scenario.seeded)
     <> failure 400 "Only pending loans can be verified or rejected"
  /\ Loan.status <$> loans Scenario.seeded !! Scenario.john_id = Some "pending"
  /\ fst (patch_admin_loans_approve Scenario.env 3000
            (Scenario.bearer "token.verifier") Scenario.john_id
            Scenario.approve_body Scenario.seeded)
     = failure 403 "Insufficient permissions".
Proof.
  split; [vm_compute; reflexivity |].
  split; [vm_compute; reflexivity |].
  split; [vm_compute; discriminate |].
  split; vm_compute; reflexivity.
Qed.

Lemma lifecycle_guards_witness :
  statuses_ok Scenario.seeded
  /\ patch_loans_verify Scenario.env 3000 (Scenario.bearer "token.admin")
       Scenario.bob_id (Scenario.reject_body "too late") Scenario.seeded
     = (failure 400 "Only pending loans can be verified or rejected",
        Scenario.seeded)
  /\ loans (snd (patch_admin_loans_approve Scenario.env 3000
                   (Scenario.bearer "token.admin") Scenario.jane_id
                   Scenario.approve_body Scenario.seeded)) !! Scenario.bob_id
     = Some Scenario.bob.
Proof.
  split; [exact seeded_statuses_ok |].
  destruct (lifecycle_guards Scenario.seeded seeded_statuses_ok)
    as (_ & _ & _ & Hwrong & _ & Hterminal).
  split.
  - apply (Hwrong Scenario.env 3000%Z (Scenario.bearer "token.admin")
             Scenario.bob_id (Scenario.reject_body "too late")
             Scenario.admin_ctx Scenario.bob).
    + vm_compute. reflexivity.
    + reflexivity.
    + reflexivity.
    + vm_compute. reflexivity.
    + vm_compute. discriminate.
  - apply Hterminal.
    + vm_compute. reflexivity.
    + left. reflexivity.
    + apply rtc_once. apply step_approve.
Defined.

(** ** C2 *)

(** John's application is pending.  A second submission under his email
    with an amount below the minimum is answered with the validation
    error, not with the duplicate-application error. *)
Lemma invalid_duplicate_submission :
  Loan.status <$> loans Scenario.seeded !! Scenario.john_id = Some "pending"
  /\ Loan.email <$> loans Scenario.seeded !! Scenario.john_id
     = Some "john.doe@example.com"
  /\ get "message"
       (json (fst (apply_route 5000 Scenario.fresh_id
                     (Scenario.application "john.doe@example.com" 5)
                     Scenario.seeded)))
     = JStr "Validation failed"
  /\ fst (apply_route 5000 Scenario.fresh_id
            (Scenario.application "john.doe@example.com" 5) Scenario.seeded)
     <> failure 400 "You already have a pending loan application".
Proof.
  repeat split; try (vm_compute; reflexivity). vm_compute. discriminate.
Qed.

Lemma duplicate_application_witness :
  apply_route 5000 Scenario.fresh_id
    (Scenario.application "john.doe@example.com" 5000) Scenario.seeded
  = (failure 400 "You already have a pending loan application",
     Scenario.seeded)
  /\ statusCode (fst (apply_route 5000 Scenario.fresh_id
                        (Scenario.application "bob.johnson@example.com" 5000)
                        Scenario.seeded)) = 201%nat.
Proof.
  split.
  - destruct (duplicate_application 5000%Z Scenario.fresh_id
                (Scenario.application "john.doe@example.com" 5000)
                Scenario.seeded) as [Hdup _].
    destruct (Hdup Scenario.john_id Scenario.john) as (_ & _ & Hanswer).
    + vm_compute. reflexivity.
    + reflexivity.
    + left. reflexivity.
    + apply Hanswer. vm_compute. reflexivity.
  - destruct (duplicate_application 5000%Z Scenario.fresh_id
                (Scenario.application "bob.johnson@example.com" 5000)
                Scenario.seeded) as [_ Hnew].
    destruct Hnew as [Hanswer _].
    + unfold terminal.
      apply (bool_decide_unpack
               (map_Forall
                  (fun _ l =>
                     Loan.email l = "bob.johnson@example.com" ->
                     Loan.status l = "approved" \/ Loan.status l = "rejected")
                  (loans Scenario.seeded))).
      vm_compute. exact I.
    + vm_compute. reflexivity.
    + vm_compute. reflexivity.
    + vm_compute. reflexivity.
    + rewrite Hanswer. reflexivity.
Defined.

(** ** C3 *)

(** A verifier's reject without a reason at the admin approve endpoint is
    answered with 403 by the role gate, not with the 400 validation
    error. *)
Lemma verifier_reject_at_admin_endpoint :
  reject_without_reason Scenario.bare_reject
  /\ authenticateToken Scenario.env (Scenario.bearer "token.verifier")
       Scenario.seeded = Next Scenario.verifier_ctx
  /\ User.role (profile Scenario.verifier_ctx) = verifier
  /\ patch_admin_loans_approve Scenario.env 3000
       (Scenario.bearer "token.verifier") Scenario.jane_id
       Scenario.bare_reject Scenario.seeded
     = (failure 403 "Insufficient permissions", Scenario.seeded).
Proof.
  repeat split; vm_compute; reflexivity.
Qed.

Lemma reject_requires_reason_witness :
  patch_loans_verify Scenario.env 3000 (Scenario.bearer "token.admin")
    Scenario.john_id Scenario.bare_reject Scenario.seeded
  = (failure 400 "Rejection reason is required", Scenario.seeded)
  /\ patch_admin_loans_approve Scenario.env 3000
       (Scenario.bearer "token.admin") Scenario.jane_id Scenario.bare_reject
       Scenario.seeded
     = (failure 400 "Rejection reason is required", Scenario.seeded).
Proof.
  destruct (reject_requires_reason Scenario.env 3000%Z
              (Scenario.bearer "token.admin") Scenario.john_id
              Scenario.bare_reject Scenario.seeded Scenario.admin_ctx)
    as (Hverify & _ & _).
  { vm_compute. reflexivity. }
  { split; reflexivity. }
  destruct (reject_requires_reason Scenario.env 3000%Z
              (Scenario.bearer "token.admin") Scenario.jane_id
              Scenario.bare_reject Scenario.seeded Scenario.admin_ctx)
    as (_ & Happrove & _).
  { vm_compute. reflexivity. }
  { split; reflexivity. }
  split; [exact Hverify | apply Happrove; reflexivity].
Defined.

(** ** C4 *)

(** A bearer token that [jwt.verify] rejects, as it does a malformed or
    an expired one, is answered with 403, not with 401. *)
Lemma rejected_token_is_forbidden :
  bearer_token (Scenario.bearer "token.expired") = Some "token.expired"
  /\ jwt_verify "token.expired" "s3cret" = None
  /\ get_loan Scenario.env (Scenario.bearer "token.expired") Scenario.bob_id
       Scenario.seeded
     = (failure 403 "Invalid or expired token", Scenario.seeded)
  /\ statusCode (fst (get_loan Scenario.env (Scenario.bearer "token.expired")
                        Scenario.bob_id Scenario.seeded)) <> 401%nat.
Proof.
  repeat split; try (vm_compute; reflexivity). vm_compute. discriminate.
Qed.

Lemma gate_status_codes_witness :
  get_loan Scenario.env None Scenario.bob_id Scenario.seeded
  = (failure 401 "Access token required", Scenario.seeded)
  /\ get_loan Scenario.env (Scenario.bearer "token.idle") Scenario.bob_id
       Scenario.seeded
     = (failure 401 "Invalid or inactive user", Scenario.seeded)
  /\ patch_admin_loans_approve Scenario.env 3000
       (Scenario.bearer "token.verifier") Scenario.jane_id
       Scenario.approve_body Scenario.seeded
     = (failure 403 "Insufficient permissions", Scenario.seeded).
Proof.
  split; [| split].
  - apply (gate_status_codes Scenario.env ["verifier"; "admin"] None
             Scenario.seeded). reflexivity.
  - destruct (gate_status_codes Scenario.env ["verifier"; "admin"]
                (Scenario.bearer "token.idle") Scenario.seeded
                (fun user => get_route user Scenario.bob_id Scenario.seeded))
      as [_ Hgate].
    destruct (Hgate "token.idle" "s3cret") as [_ Hfound];
      [reflexivity | reflexivity | discriminate |].
    destruct (Hfound Scenario.idle_id) as [_ Huser];
      [reflexivity | reflexivity |].
    destruct (Huser Scenario.idle_user) as (Hidle & _ & _);
      [vm_compute; reflexivity |].
    apply Hidle. reflexivity.
  - destruct (gate_status_codes Scenario.env ["admin"]
                (Scenario.bearer "token.verifier") Scenario.seeded
                (fun user => approve_route 3000 user Scenario.jane_id
                               Scenario.approve_body Scenario.seeded))
      as [_ Hgate].
    destruct (Hgate "token.verifier" "s3cret") as [_ Hfound];
      [reflexivity | reflexivity | discriminate |].
    destruct (Hfound Scenario.verifier_id) as [_ Huser];
      [reflexivity | reflexivity |].
    destruct (Huser Scenario.verifier_user) as (_ & Hrole & _);
      [vm_compute; reflexivity |].
    apply Hrole; reflexivity.
Defined.

(** ** C5 *)



(** ** C6 *)

(** The dashboard of a deployment without loans, as an admin sees it. *)
Lemma empty_dashboard_reports_NaN :
  statusCode (fst (get_dashboard_stats Scenario.env
                     (Scenario.bearer "token.admin") Scenario.empty_db))
  = 200%nat
  /\ get "statusDistribution"
       (get "data"
          (json (fst (get_dashboard_stats Scenario.env
                        (Scenario.bearer "token.admin") Scenario.empty_db))))
     = JArr (map (fun s => JObj [("status", JStr s); ("count", count 0);
                                 ("percentage", JStr "NaN")])
                 Loan.LoanStatus)
  /\ get "totalLoanAmount"
       (get "overview"
          (get "data"
             (json (fst (get_dashboard_stats Scenario.env
                           (Scenario.bearer "token.admin")
                           Scenario.empty_db)))))
     = JNum 0.
Proof. repeat split; vm_compute; reflexivity. Qed.

(** ** C7 *)

(** The summary in the response to a successful verify has a third
    property next to [name] and [email]: the user's [_id]. *)
Lemma populated_summary_carries_id :
  statusCode (fst (patch_loans_verify Scenario.env 3000
                     (Scenario.bearer "token.verifier") Scenario.john_id
                     Scenario.verify_body Scenario.seeded)) = 200%nat
  /\ keys (get "verifiedBy"
             (returned_loan
                (fst (patch_loans_verify Scenario.env 3000
                        (Scenario.bearer "token.verifier") Scenario.john_id
                        Scenario.verify_body Scenario.seeded))))
     = ["_id"; "email"; "name"].
Proof. split; vm_compute; reflexivity. Qed.

Lemma transition_response_actors_witness :
  get "verifiedBy"
    (returned_loan
       (fst (patch_loans_verify Scenario.env 3000
               (Scenario.bearer "token.verifier") Scenario.john_id
               Scenario.verify_body Scenario.seeded)))
  = identity_summary Scenario.verifier_id Scenario.verifier_user
  /\ has_key "password"
       (json (fst (patch_admin_loans_approve Scenario.env 3000
                     (Scenario.bearer "token.admin") Scenario.jane_id
                     (Scenario.reject_body "Income not documented")
                     Scenario.seeded)))
     = false.
Proof.
  destruct (transition_response_actors Scenario.env 3000%Z
              (Scenario.bearer "token.verifier") Scenario.john_id
              Scenario.verify_body Scenario.seeded) as [Hverify _].
  destruct Hverify as (user & u & l' & Hauth & Hu & _ & _ & Hsummary & _ & _);
    [vm_compute; reflexivity |].
  destruct (transition_response_actors Scenario.env 3000%Z
              (Scenario.bearer "token.admin") Scenario.jane_id
              (Scenario.reject_body "Income not documented")
              Scenario.seeded) as [_ Happrove].
  destruct Happrove as (_ & _ & _ & _ & _ & _ & _ & _ & _ & Hclean);
    [vm_compute; reflexivity |].
  split; [| exact Hclean].
  rewrite Hsummary.
  assert (Huser : user = Scenario.verifier_ctx).
  { vm_compute in Hauth. injection Hauth as <-. reflexivity. }
  rewrite Huser in Hu |- *.
  vm_compute in Hu. injection Hu as <-. reflexivity.
Defined.

(** ** C8 *)

(** A successful verify of John's loan at time 3000 moves [updatedAt]
    from 2000 to 3000: a field outside status, verifiedBy,
    verificationDate and rejectionReason has changed. *)
Lemma verify_stamps_updatedAt :
  statusCode (fst (patch_loans_verify Scenario.env 3000
                     (Scenario.bearer "token.verifier") Scenario.john_id
                     Scenario.verify_body Scenario.seeded)) = 200%nat
  /\ Loan.updatedAt <$> loans Scenario.seeded !! Scenario.john_id
     = Some 2000%Z
  /\ Loan.updatedAt
       <$> loans (snd (patch_loans_verify Scenario.env 3000
                         (Scenario.bearer "token.verifier") Scenario.john_id
                         Scenario.verify_body Scenario.seeded))
             !! Scenario.john_id
     = Some 3000%Z.
Proof. repeat split; vm_compute; reflexivity. Qed.

Lemma transition_frame_witness :
  exists l',
    loans (snd (patch_admin_loans_approve Scenario.env 3000
                  (Scenario.bearer "token.admin") Scenario.jane_id
                  Scenario.approve_body Scenario.seeded)) !! Scenario.jane_id
    = Some l'
    /\ Loan.status l' = "approved"
    /\ Loan.approvedBy l' = Some Scenario.admin_id
    /\ Loan.approvalDate l' = Some 3000%Z
    /\ Loan.updatedAt l' = 3000%Z
    /\ same_application Scenario.jane l'
    /\ Loan.verifiedBy l' = Loan.verifiedBy Scenario.jane
    /\ Loan.verificationDate l' = Loan.verificationDate Scenario.jane.
Proof.
  destruct (transition_frame Scenario.env 3000%Z
              (Scenario.bearer "token.admin") Scenario.jane_id
              Scenario.approve_body Scenario.seeded) as [_ Happrove].
  destruct Happrove
    as (user & l & l' & Hauth & Hl & Hdb & Hby & Hdate & Hstamp & Happroved
        & _ & Hsame & HvBy & HvDate);
    [vm_compute; reflexivity |].
  assert (Huser : user = Scenario.admin_ctx).
  { vm_compute in Hauth. injection Hauth as <-. reflexivity. }
  assert (Hjane : l = Scenario.jane).
  { vm_compute in Hl. injection Hl as <-. reflexivity. }
  subst user l. exists l'. rewrite Hdb. cbn [loans].
  split; [apply lookup_insert_eq |].
  destruct Happroved as [Hstatus _]; [reflexivity |].
  auto 10.
Defined.

(** ** C9 *)

(** A request without a token whose action is no legal verb is answered
    with 401 by [authenticateToken], not with the 400 validation error;
    so is a verifier's at the admin approve endpoint, with 403. *)
Lemma unauthenticated_ill_formed_request :
  well_formed ["verify"; "reject"] Scenario.shrug_body = false
  /\ patch_loans_verify Scenario.env 3000 None Scenario.john_id
       Scenario.shrug_body Scenario.seeded
     = (failure 401 "Access token required", Scenario.seeded)
  /\ fst (patch_loans_verify Scenario.env 3000 None Scenario.john_id
            Scenario.shrug_body Scenario.seeded)
     <> validation_error "verify" Scenario.shrug_body
  /\ well_formed ["approve"; "reject"] Scenario.shrug_body = false
  /\ patch_admin_loans_approve Scenario.env 3000
       (Scenario.bearer "token.verifier") Scenario.jane_id
       Scenario.shrug_body Scenario.seeded
     = (failure 403 "Insufficient permissions", Scenario.seeded).
Proof.
  split; [reflexivity |]. split; [vm_compute; reflexivity |].
  split; [vm_compute; discriminate |].
  split; [reflexivity | vm_compute; reflexivity].
Qed.

Lemma validation_precedes_lookup_witness :
  patch_loans_verify Scenario.env 3000 (Scenario.bearer "token.verifier")
    Scenario.ghost_id Scenario.shrug_body Scenario.seeded
  = (failure 400 ("Action must be either " ++ dq ++ "verify" ++ dq
                  ++ " or " ++ dq ++ "reject" ++ dq), Scenario.seeded)
  /\ patch_admin_loans_approve Scenario.env 3000
       (Scenario.bearer "token.admin") Scenario.bob_id Scenario.bare_reject
       Scenario.seeded
     = (failure 400 "Rejection reason is required", Scenario.seeded).
Proof.
  destruct (validation_precedes_lookup 3000%Z Scenario.verifier_ctx
              Scenario.ghost_id Scenario.shrug_body Scenario.seeded)
    as (Hverify & _).
  destruct Hverify as [_ Hverify]; [reflexivity |].
  destruct (validation_precedes_lookup 3000%Z Scenario.admin_ctx
              Scenario.bob_id Scenario.bare_reject Scenario.seeded)
    as (_ & Happrove & _).
  destruct Happrove as [_ Happrove]; [reflexivity |].
  split.
  - apply Hverify. vm_compute. reflexivity.
  - apply Happrove; [vm_compute |]; reflexivity.
Defined.

(** ** C10 *)

Lemma failed_transition_leaves_store_witness :
  snd (patch_loans_verify Scenario.env 3000 (Scenario.bearer "token.verifier")
         Scenario.ghost_id Scenario.verify_body Scenario.seeded)
  = Scenario.seeded
  /\ snd (patch_admin_loans_approve Scenario.env 3000
            (Scenario.bearer "token.admin") Scenario.john_id
            Scenario.approve_body Scenario.seeded)
     = Scenario.seeded.
Proof.
  destruct (failed_transition_leaves_store Scenario.env 3000%Z
              (Scenario.bearer "token.verifier") Scenario.ghost_id
              Scenario.verify_body Scenario.seeded) as (Hverify & _).
  destruct (failed_transition_leaves_store Scenario.env 3000%Z
              (Scenario.bearer "token.admin") Scenario.john_id
              Scenario.approve_body Scenario.seeded) as (_ & Happrove & _).
  split; [apply Hverify | apply Happrove]; vm_compute; discriminate.
Defined.

End Seeded.

(** * Further properties of the routes *)

Section Further.
Context {P : Platform}.

(** ** The bearer token *)

Lemma split_spaceless s : spaceless s = true -> split " "%char s = [s].
Proof.
  induction s as [| c s IH]; [reflexivity |].
  cbn [spaceless split]. intros Hs. apply andb_true_iff in Hs as [Hc Hs].
  apply negb_true_iff in Hc. rewrite Hc, (IH Hs). reflexivity.
Qed.

Lemma split_word w rest :
  spaceless w = true ->
  split " "%char (w ++ String " "%char rest) = w :: split " "%char rest.
Proof.
  induction w as [| c w IH]; [reflexivity |].
  cbn [spaceless]. intros Hs. apply andb_true_iff in Hs as [Hc Hs].
  apply negb_true_iff in Hc.
  change (String c w ++ String " "%char rest)
    with (String c (w ++ String " "%char rest)).
  cbn [split]. rewrite Hc, (IH Hs). reflexivity.
Qed.

(** X1.  The token is the second word of the header, whatever the first
    word is: with one space between two words the second is taken, also
    when more words follow; a header of one word carries no token, and
    neither does one whose words are two spaces apart. *)
Theorem bearer_token_second_word scheme token junk :
  spaceless scheme = true -> spaceless token = true -> token <> EmptyString ->
  bearer_token (Some (scheme ++ " " ++ token)) = Some token
  /\ bearer_token (Some (scheme ++ " " ++ token ++ " " ++ junk)) = Some token
  /\ bearer_token (Some scheme) = None
  /\ bearer_token (Some (scheme ++ "  " ++ token)) = None.
Proof.
  intros Hscheme Htoken Hne. apply String.eqb_neq in Hne.
  unfold bearer_token. repeat split.
  - change (scheme ++ " " ++ token) with (scheme ++ String " "%char token).
    rewrite (split_word _ _ Hscheme), (split_spaceless _ Htoken). cbn.
    rewrite Hne. reflexivity.
  - change (scheme ++ " " ++ token ++ " " ++ junk)
      with (scheme ++ String " "%char (token ++ String " "%char junk)).
    rewrite (split_word _ _ Hscheme), (split_word _ _ Htoken). cbn.
    rewrite Hne. reflexivity.
  - rewrite (split_spaceless _ Hscheme). reflexivity.
  - change (scheme ++ "  " ++ token)
      with (scheme ++ String " "%char (String " "%char token)).
    rewrite (split_word _ _ Hscheme). reflexivity.
Qed.

(** ** The lifecycle as a whole *)

(** X2.  The identity [authenticateToken] attaches to the request is a stored,
    active user, and it carries no password. *)
Theorem authenticated_identity env authHeader db user :
  authenticateToken env authHeader db = Next user ->
  exists u,
    users db !! _id user = Some u
    /\ User.isActive u = true
    /\ User.password (profile user) = None
    /\ User.email (profile user) = User.email u
    /\ User.name (profile user) = User.name u
    /\ User.role (profile user) = User.role u.
Proof.
  intros Hauth.
  destruct (authenticateToken_Next _ _ _ _ Hauth)
    as (_ & _ & _ & u & _ & _ & _ & _ & _ & Hu & Hactive & ->).
  exists u. auto 10.
Qed.

Lemma same_application_refl l : same_application l l.
Proof. repeat split. Qed.

Lemma lifecycle_move_verify body :
  lifecycle_move "pending"
    (if strict_eq (action body) "verify" then "verified" else "rejected").
Proof. right; left. destruct (strict_eq _ _); auto. Qed.

Lemma lifecycle_move_approve body :
  lifecycle_move "verified"
    (if strict_eq (action body) "approve" then "approved" else "rejected").
Proof. right; right. destruct (strict_eq _ _); auto. Qed.

(** X3.  One request never removes a loan, never rewrites what the applicant
    supplied, and moves a loan's status only along the lifecycle. *)
Theorem step_moves_along_lifecycle db db' id l :
  step db db' ->
  loans db !! id = Some l ->
  exists l',
    loans db' !! id = Some l'
    /\ lifecycle_move (Loan.status l) (Loan.status l')
    /\ same_application l l'.
Proof.
  intros [now newId b | env now authHeader id0 body
          | env now authHeader id0 body | us] Hl.
  - destruct (apply_route_cases now newId b db)
      as [[-> _] | (_ & _ & _ & Hfresh & ->)].
    + exists l. split; [assumption |]. split; [left; reflexivity |].
      apply same_application_refl.
    + exists l. cbn. rewrite lookup_insert_ne by congruence.
      split; [assumption |]. split; [left; reflexivity |].
      apply same_application_refl.
  - destruct (patch_loans_verify_outcome env now authHeader id0 body db)
      as [[-> _] | (user & l0 & reason & _ & _ & _ & Hl0 & Hst & _ & Heq)].
    + exists l. split; [assumption |]. split; [left; reflexivity |].
      apply same_application_refl.
    + cbv zeta in Heq. rewrite Heq. cbn [snd loans].
      destruct (decide (castObjectId id0 = id)) as [<- | Hne].
      * rewrite Hl in Hl0. injection Hl0 as <-.
        eexists. rewrite lookup_insert_eq. split; [reflexivity |].
        rewrite verify_update_status, Hst.
        split; [apply lifecycle_move_verify |].
        apply set_fields_same_application.
      * exists l. rewrite lookup_insert_ne by assumption.
        split; [assumption |]. split; [left; reflexivity |].
        apply same_application_refl.
  - destruct (patch_admin_loans_approve_outcome env now authHeader id0 body db)
      as [[-> _]
         | (user & l0 & reason & _ & _ & _ & _ & Hl0 & Hst & _ & Heq)].
    + exists l. split; [assumption |]. split; [left; reflexivity |].
      apply same_application_refl.
    + cbv zeta in Heq. rewrite Heq. cbn [snd loans].
      destruct (decide (castObjectId id0 = id)) as [<- | Hne].
      * rewrite Hl in Hl0. injection Hl0 as <-.
        eexists. rewrite lookup_insert_eq. split; [reflexivity |].
        rewrite approve_update_status, Hst.
        split; [apply lifecycle_move_approve |].
        apply set_fields_same_application.
      * exists l. rewrite lookup_insert_ne by assumption.
        split; [assumption |]. split; [left; reflexivity |].
        apply same_application_refl.
  - exists l. split; [assumption |]. split; [left; reflexivity |].
    apply same_application_refl.
Qed.

Lemma verify_trail now user body reason l :
  cast_update (verify_updateData now user body) = Return reason ->
  trail_ok (set_fields (verify_updateData now user body) reason now l).
Proof.
  unfold verify_updateData, cast_update, trail_ok.
  destruct (strict_eq (action body) "verify"); cbn.
  - intros _. repeat split; eauto; discriminate.
  - destruct (castString (rejectionReason body)); [| discriminate].
    intros [= <-]. repeat split; eauto; discriminate.
Qed.

Lemma approve_trail now user body reason l :
  Loan.status l = "verified" -> trail_ok l ->
  cast_update (approve_updateData now user body) = Return reason ->
  trail_ok (set_fields (approve_updateData now user body) reason now l).
Proof.
  intros Hst (Hverified & _ & _). destruct (Hverified Hst) as [HvBy HvDate].
  unfold approve_updateData, cast_update, trail_ok.
  destruct (strict_eq (action body) "approve"); cbn.
  - intros _. repeat split; eauto; discriminate.
  - destruct (castString (rejectionReason body)); [| discriminate].
    intros [= <-]. repeat split; eauto; discriminate.
Qed.

Lemma step_trails_ok db db' : step db db' -> trails_ok db -> trails_ok db'.
Proof.
  unfold trails_ok.
  intros [now newId b | env now authHeader id body
          | env now authHeader id body | us] Hok.
  - destruct (apply_route_cases now newId b db)
      as [[-> _] | (_ & _ & _ & _ & ->)]; [assumption |].
    cbn. apply map_Forall_insert_2; [| assumption].
    unfold trail_ok. cbn. repeat split; discriminate.
  - destruct (patch_loans_verify_outcome env now authHeader id body db)
      as [[-> _] | (user & l & reason & _ & _ & _ & _ & _ & Hcast & Heq)];
      [assumption |].
    cbv zeta in Heq. rewrite Heq. cbn [snd loans].
    apply map_Forall_insert_2; [| assumption].
    apply verify_trail. exact Hcast.
  - destruct (patch_admin_loans_approve_outcome env now authHeader id body db)
      as [[-> _]
         | (user & l & reason & _ & _ & _ & _ & Hl & Hst & Hcast & Heq)];
      [assumption |].
    cbv zeta in Heq. rewrite Heq. cbn [snd loans].
    apply map_Forall_insert_2; [| assumption].
    apply approve_trail; [exact Hst | exact (Hok _ _ Hl) | exact Hcast].
  - exact Hok.
Qed.

(** X4.  Along every run from a store whose loans carry the trail their status
    implies, every loan keeps doing so: a verified loan names its verifier
    and the date, an approved loan its verifier and its approver with both
    dates, a rejected loan its verifier and a reason. *)
Theorem trails_kept db db' :
  trails_ok db -> rtc step db db' -> trails_ok db'.
Proof.
  intros Hok Hrun. induction Hrun as [| ? ? ? Hstep _ IH]; [assumption |].
  apply IH. exact (step_trails_ok _ _ Hstep Hok).
Qed.

(** X5.  After a successful submission a second valid submission under the
    same email is refused as a duplicate, and stores nothing. *)
Theorem second_submission_refused now newId b now' newId' b' db :
  statusCode (fst (apply_route now newId b db)) = 201%nat ->
  loanValidation b' = [] ->
  normalizeEmail (Body.email b') = normalizeEmail (Body.email b) ->
  apply_route now' newId' b' (snd (apply_route now newId b db))
  = (failure 400 "You already have a pending loan application",
     snd (apply_route now newId b db)).
Proof.
  intros Hcode Hvalid Hemail.
  destruct (apply_route_cases now newId b db)
    as [[_ Hfail] | (_ & _ & _ & _ & Heq)]; [contradiction |].
  rewrite Heq. cbn [snd].
  assert (Hdup : is_Some (findOne (open_application
                                     (normalizeEmail (Body.email b')))
                            (<[newId := new_Loan now b]> (loans db)))).
  { apply (findOne_Some _ _ newId (new_Loan now b)).
    - apply lookup_insert_eq.
    - apply open_application_true. rewrite Hemail. cbn. auto. }
  destruct Hdup as [kv Hdup].
  unfold apply_route. rewrite bool_decide_eq_true_2 by exact Hvalid.
  cbn [negb loans]. rewrite Hdup. reflexivity.
Qed.

(** X6.  The credit score is not among the validated fields: a submission that
    passes the field validation with a score outside 300..850 is refused
    by the schema on save; the answer is 500 and nothing is stored. *)
Theorem credit_score_out_of_range now newId b db score :
  loanValidation b = [] ->
  (forall id l, loans db !! id = Some l ->
                open_application (normalizeEmail (Body.email b)) l = false) ->
  Body.creditScore b = Some score ->
  in_range 300 850 score = false ->
  apply_route now newId b db
  = (failure 500 "Server error during loan application", db).
Proof.
  intros Hvalid Hnone Hscore Hrange.
  apply findOne_None in Hnone.
  unfold apply_route, save. rewrite bool_decide_eq_true_2 by exact Hvalid.
  cbn [negb]. rewrite Hnone.
  assert (Hschema : schema_valid (new_Loan now b) = false).
  { unfold schema_valid, new_Loan. cbn [Loan.creditScore].
    rewrite Hscore, Hrange, andb_false_r. reflexivity. }
  rewrite Hschema. reflexivity.
Qed.

Lemma authenticateToken_users env authHeader db db' :
  users db' = users db ->
  authenticateToken env authHeader db' = authenticateToken env authHeader db.
Proof. intros Husers. unfold authenticateToken. rewrite Husers. reflexivity. Qed.

Lemma verify_route_success now user id body db l reason :
  well_formed ["verify"; "reject"] body = true ->
  isValidObjectId id = true ->
  loans db !! castObjectId id = Some l ->
  Loan.status l = "pending" ->
  cast_update (verify_updateData now user body) = Return reason ->
  statusCode (fst (verify_route now user id body db)) = 200%nat
  /\ snd (verify_route now user id body db)
     = {| users := users db;
          loans := <[castObjectId id :=
                       set_fields (verify_updateData now user body)
                         reason now l]> (loans db) |}.
Proof.
  intros Hwf Hid Hl Hst Hcast.
  apply well_formed_guards in Hwf as [Hverb Hreason].
  unfold verify_route, findById, findByIdAndUpdate.
  rewrite Hverb, Hreason, Hid, Hl, Hst, Hcast.
  split; reflexivity.
Qed.

Lemma approve_route_success now user id body db l reason :
  well_formed ["approve"; "reject"] body = true ->
  isValidObjectId id = true ->
  loans db !! castObjectId id = Some l ->
  Loan.status l = "verified" ->
  cast_update (approve_updateData now user body) = Return reason ->
  statusCode (fst (approve_route now user id body db)) = 200%nat
  /\ snd (approve_route now user id body db)
     = {| users := users db;
          loans := <[castObjectId id :=
                       set_fields (approve_updateData now user body)
                         reason now l]> (loans db) |}.
Proof.
  intros Hwf Hid Hl Hst Hcast.
  apply well_formed_guards in Hwf as [Hverb Hreason].
  unfold approve_route, findById, findByIdAndUpdate.
  rewrite Hverb, Hreason, Hid, Hl, Hst, Hcast.
  split; reflexivity.
Qed.

(** X7.  A submitted loan runs its course: once the submission is answered
    with 201, a verify by any authenticated caller and then an approve by
    an admin both succeed, under every spelling [id] of the new loan's
    ObjectId; the loan ends approved, naming both actors and both dates
    and still carrying the submitted fields; after that every well-formed
    request to either transition endpoint is refused with the
    wrong-status error. *)
Theorem submitted_loan_runs_its_course
    env now0 now1 now2 now3 newId id b db hv ha v a rv ra body :
  statusCode (fst (apply_route now0 newId b db)) = 201%nat ->
  isValidObjectId id = true ->
  castObjectId id = newId ->
  authenticateToken env hv db = Next v ->
  authenticateToken env ha db = Next a ->
  User.role (profile a) = admin ->
  let db1 := snd (apply_route now0 newId b db) in
  let verified :=
    patch_loans_verify env now1 hv id
      {| action := JStr "verify"; rejectionReason := rv |} db1 in
  let approved :=
    patch_admin_loans_approve env now2 ha id
      {| action := JStr "approve"; rejectionReason := ra |} (snd verified) in
  statusCode (fst verified) = 200%nat
  /\ statusCode (fst approved) = 200%nat
  /\ (exists l,
        loans (snd approved) !! newId = Some l
        /\ Loan.status l = "approved"
        /\ Loan.verifiedBy l = Some (_id v)
        /\ Loan.verificationDate l = Some now1
        /\ Loan.approvedBy l = Some (_id a)
        /\ Loan.approvalDate l = Some now2
        /\ same_application (new_Loan now0 b) l)
  /\ (well_formed ["verify"; "reject"] body = true ->
      patch_loans_verify env now3 hv id body (snd approved)
      = (failure 400 "Only pending loans can be verified or rejected",
         snd approved))
  /\ (well_formed ["approve"; "reject"] body = true ->
      patch_admin_loans_approve env now3 ha id body (snd approved)
      = (failure 400 "Only verified loans can be approved or rejected",
         snd approved)).
Proof.
  intros Hcode Hid Hkey Hv Ha Hrole db1 verified approved.
  destruct (apply_route_cases now0 newId b db)
    as [[_ Hfail] | (_ & _ & _ & _ & Heq)]; [contradiction |].
  assert (Hdb1 : db1 = {| users := users db;
                          loans := <[newId := new_Loan now0 b]> (loans db) |}).
  { unfold db1. rewrite Heq. reflexivity. }
  set (vbody := {| action := JStr "verify"; rejectionReason := rv |}) in *.
  set (abody := {| action := JStr "approve"; rejectionReason := ra |}) in *.
  set (l1 := set_fields (verify_updateData now1 v vbody) None now1
               (new_Loan now0 b)).
  assert (Hverified : verified = verify_route now1 v id vbody db1).
  { unfold verified, patch_loans_verify, guarded.
    rewrite (authenticateToken_users env hv db db1)
      by (rewrite Hdb1; reflexivity).
    rewrite Hv, verifierOrAdmin_Next. reflexivity. }
  destruct (verify_route_success now1 v id vbody db1 (new_Loan now0 b) None)
    as [Hcode1 Hdb2]; try reflexivity; try assumption.
  { rewrite Hkey, Hdb1. apply lookup_insert_eq. }
  rewrite <- Hverified in Hcode1, Hdb2. rewrite Hkey in Hdb2.
  assert (Husers2 : users (snd verified) = users db)
    by (rewrite Hdb2, Hdb1; reflexivity).
  assert (Hl1 : loans (snd verified) !! newId = Some l1)
    by (rewrite Hdb2; apply lookup_insert_eq).
  set (l2 := set_fields (approve_updateData now2 a abody) None now2 l1).
  assert (Happroved : approved
                      = approve_route now2 a id abody (snd verified)).
  { unfold approved, patch_admin_loans_approve, guarded.
    rewrite (authenticateToken_users env ha db (snd verified) Husers2).
    rewrite Ha, (adminOnly_admin _ Hrole). reflexivity. }
  destruct (approve_route_success now2 a id abody (snd verified) l1 None)
    as [Hcode2 Hdb3]; try reflexivity; try assumption.
  { rewrite Hkey. exact Hl1. }
  rewrite <- Happroved in Hcode2, Hdb3. rewrite Hkey in Hdb3.
  assert (Husers3 : users (snd approved) = users db)
    by (rewrite Hdb3; exact Husers2).
  assert (Hl2 : loans (snd approved) !! newId = Some l2)
    by (rewrite Hdb3; apply lookup_insert_eq).
  split; [exact Hcode1 |]. split; [exact Hcode2 |]. split; [| split].
  - exists l2. split; [exact Hl2 |]. repeat split.
  - intros Hwf. unfold patch_loans_verify, guarded.
    rewrite (authenticateToken_users env hv db (snd approved) Husers3).
    rewrite Hv, verifierOrAdmin_Next. rewrite <- Hkey in Hl2.
    apply (verify_route_wrong_status _ _ _ _ _ l2 Hwf Hid Hl2). discriminate.
  - intros Hwf. unfold patch_admin_loans_approve, guarded.
    rewrite (authenticateToken_users env ha db (snd approved) Husers3).
    rewrite Ha, (adminOnly_admin _ Hrole). rewrite <- Hkey in Hl2.
    apply (approve_route_wrong_status _ _ _ _ _ l2 Hwf Hid Hl2). discriminate.
Qed.

(** ** Lists and what they show *)

Lemma newest_first_trans : Transitive newest_first.
Proof. unfold newest_first. intros x y z Hxy Hyz. lia. Qed.

Lemma newest_first_total : Total newest_first.
Proof. unfold newest_first. intros x y. lia. Qed.

Lemma find_sorted_length q (coll : gmap string Loan.ILoan) :
  length (find_sorted q coll) = countDocuments q coll.
Proof.
  unfold find_sorted, countDocuments.
  apply Permutation_length, merge_sort_Permutation.
Qed.

Lemma find_sorted_sorted q (coll : gmap string Loan.ILoan) :
  StronglySorted newest_first (find_sorted q coll).
Proof.
  unfold find_sorted.
  apply StronglySorted_merge_sort;
    [exact newest_first_trans | exact newest_first_total].
Qed.

Lemma slice_sorted {A} (R : relation A) w (docs found : list A) :
  StronglySorted R docs -> slice w docs = Return found ->
  StronglySorted R found.
Proof.
  intros Hdocs Hslice.
  destruct (slice_Return _ _ _ Hslice) as (skip & limit & _ & ->).
  rewrite <- (take_drop skip docs) in Hdocs.
  apply StronglySorted_app_1_r in Hdocs.
  destruct limit as [n|]; [| exact Hdocs].
  rewrite <- (take_drop n (drop skip docs)) in Hdocs.
  exact (StronglySorted_app_1_l _ _ _ Hdocs).
Qed.

(** A limit above zero is a limit, zero is none. *)
Lemma window_limit z n s limit :
  (0 <= n)%Z ->
  window (Integer z) (Integer n) = Slice s limit ->
  limit = if (n =? 0)%Z then None else Some (Z.to_nat n).
Proof.
  intros Hn. unfold window.
  destruct (z <? 0)%Z; [discriminate |].
  replace (n <? 0)%Z with false by (symmetry; apply Z.ltb_ge; exact Hn).
  intros [= _ <-]. reflexivity.
Qed.

Lemma slice_length {A} skip n (docs found : list A) :
  slice (Slice skip (Some n)) docs = Return found ->
  (length found <= n)%nat.
Proof. cbn. intros [= <-]. rewrite length_take. lia. Qed.

Lemma slice_bounded {A} z n (docs found : list A) :
  (0 < n)%Z ->
  slice (window (Integer z) (Integer n)) docs = Return found ->
  (length found <= Z.to_nat n)%nat.
Proof.
  intros Hn Hslice.
  destruct (slice_Return _ _ _ Hslice) as (s & limit & Hw & _).
  assert (Hn0 : (0 <= n)%Z) by lia.
  rewrite (window_limit _ _ _ _ Hn0 Hw) in Hw.
  replace (n =? 0)%Z with false in Hw by (symmetry; apply Z.eqb_neq; lia).
  rewrite Hw in Hslice. exact (slice_length _ _ _ _ Hslice).
Qed.

(** Under a limit of zero the page does not matter: the skip is zero. *)
Lemma window_unlimited p :
  window (js_mul (js_pred (Integer p)) (Integer 0)) (Integer 0)
  = Slice 0 None.
Proof. unfold js_pred, js_mul, window. rewrite Z.mul_0_r. reflexivity. Qed.

(** A page of at least 1 under a limit of at least 1. *)
Lemma window_regular (p n : nat) :
  (1 <= p)%nat -> (1 <= n)%nat ->
  window (js_mul (js_pred (Integer (Z.of_nat p))) (Integer (Z.of_nat n)))
    (Integer (Z.of_nat n))
  = Slice ((p - 1) * n) (Some n).
Proof.
  intros Hp Hn. unfold js_pred, js_mul, window.
  replace ((Z.of_nat p - 1) * Z.of_nat n)%Z
    with (Z.of_nat ((p - 1) * n))
    by (rewrite Nat2Z.inj_mul, Nat2Z.inj_sub by lia; reflexivity).
  replace (Z.of_nat ((p - 1) * n) <? 0)%Z with false
    by (symmetry; apply Z.ltb_ge, Nat2Z.is_nonneg).
  replace (Z.of_nat n <? 0)%Z with false by (symmetry; apply Z.ltb_ge; lia).
  replace (Z.of_nat n =? 0)%Z with false by (symmetry; apply Z.eqb_neq; lia).
  rewrite !Nat2Z.id. reflexivity.
Qed.

(** X8.  When the query succeeds, the list response holds the documents
    found, newest first, each a stored loan that matches the effective
    query; its [total] is the number of all matching loans, whatever the
    page; under a limit above zero, and a page that is a number, it
    holds at most [limit] documents.  A limit of zero is no limit: every matching loan is listed, whatever
    the page, and [pages] is [null].  When the query throws, the answer
    is 500; it throws when the search text is no regular expression. *)
Theorem list_page_window user q db :
  (forall found,
     list_page user q db = Return found ->
     statusCode (fst (list_route user q db)) = 200%nat
     /\ listed (fst (list_route user q db))
        = map (fun kv => populate_both (users db)
                           (Loan.toObject (fst kv) (snd kv))) found
     /\ StronglySorted newest_first found
     /\ (forall id l, (id, l) ∈ found ->
           loans db !! id = Some l /\ matches (list_query user q) l = true)
     /\ get "total"
          (get "pagination" (get "data" (json (fst (list_route user q db)))))
        = count (length (find_sorted (list_query user q) (loans db)))
     /\ (forall p n,
           pageNum_of (Query.page q) = Integer p ->
           limitNum_of (Query.limit q) = Integer n -> (0 < n)%Z ->
           (length found <= Z.to_nat n)%nat))
  /\ (forall p,
        query_valid (list_query user q) = true ->
        pageNum_of (Query.page q) = Integer p ->
        limitNum_of (Query.limit q) = Integer 0 ->
        list_page user q db
        = Return (find_sorted (list_query user q) (loans db))
        /\ get "pages"
             (get "pagination"
                (get "data" (json (fst (list_route user q db)))))
           = JNull)
  /\ (forall e,
        list_page user q db = Throw e ->
        list_route user q db
        = (failure 500 "Server error while fetching loans", db))
  /\ (query_valid (list_query user q) = false ->
      exists e, list_page user q db = Throw e).
Proof.
  split; [| split; [| split]].
  - intros found Hpage. unfold list_route. rewrite Hpage.
    split; [reflexivity |]. split; [reflexivity |].
    pose proof Hpage as Hslice. unfold list_page in Hslice.
    apply find_window_Return in Hslice as [_ Hslice].
    split; [exact (slice_sorted _ _ _ _ (find_sorted_sorted _ _) Hslice) |].
    split; [intros id l; apply (list_page_found _ _ _ _ _ _ Hpage) |].
    split; [cbn; rewrite find_sorted_length; reflexivity |].
    intros p n Hp Hlimit Hn. rewrite Hp, Hlimit in Hslice.
    exact (slice_bounded _ _ _ _ Hn Hslice).
  - intros p Hvalid Hp Hl.
    assert (Hpage : list_page user q db
                    = Return (find_sorted (list_query user q) (loans db))).
    { unfold list_page, find_window.
      rewrite Hvalid, Hp, Hl, window_unlimited. cbn. rewrite drop_0.
      reflexivity. }
    split; [exact Hpage |].
    unfold list_route. rewrite Hpage, Hl. reflexivity.
  - intros e Hpage. unfold list_route. rewrite Hpage. reflexivity.
  - intros Hbad. unfold list_page, find_window. rewrite Hbad. eauto.
Qed.

Lemma ceil_div_bounds total limitNum :
  (0 < limitNum)%nat ->
  (total <= ceil_div total limitNum * limitNum < total + limitNum)%nat.
Proof.
  intros Hpos. unfold ceil_div.
  pose proof (Nat.div_mod_eq (total + limitNum - 1) limitNum) as Hdiv.
  pose proof (Nat.mod_upper_bound (total + limitNum - 1) limitNum) as Hmod.
  nia.
Qed.

(** X9.  For a search the server accepts, a page [p] of at least 1 and a
    limit [n] of at least 1, the query succeeds and [pages] is the least
    number of pages of [n] documents that hold all [total] matching
    loans: the requested page is empty exactly when its number is beyond
    [pages], and every page before the last one is full. *)
Theorem pages_cover_the_list user q db (p n : nat) :
  query_valid (list_query user q) = true ->
  pageNum_of (Query.page q) = Integer (Z.of_nat p) -> (1 <= p)%nat ->
  limitNum_of (Query.limit q) = Integer (Z.of_nat n) -> (1 <= n)%nat ->
  let total := countDocuments (list_query user q) (loans db) in
  let pages := ceil_div total n in
  exists found,
    list_page user q db = Return found
    /\ get "pages"
         (get "pagination" (get "data" (json (fst (list_route user q db)))))
       = count pages
    /\ (total <= pages * n < total + n)%nat
    /\ (found = [] <-> (pages < p)%nat)
    /\ ((p < pages)%nat -> length found = n).
Proof.
  intros Hvalid Hpage Hp Hlimit Hn total pages.
  pose proof (ceil_div_bounds total n ltac:(lia)) as Hpages.
  fold pages in Hpages.
  set (found := take n (drop ((p - 1) * n)
                          (find_sorted (list_query user q) (loans db)))).
  assert (Hfound : list_page user q db = Return found).
  { unfold list_page, find_window.
    rewrite Hvalid, Hpage, Hlimit, (window_regular _ _ Hp Hn). reflexivity. }
  assert (Hlen : length found = (n `min` (total - (p - 1) * n))%nat).
  { unfold found. rewrite length_take, length_drop, find_sorted_length.
    reflexivity. }
  exists found. split; [exact Hfound |]. split; [| split; [| split]].
  - unfold list_route. rewrite Hfound, Hlimit. cbn [fst json success_data get
      lookup_field String.eqb Ascii.eqb Bool.eqb pages_of].
    replace (Z.of_nat n =? 0)%Z with false by (symmetry; apply Z.eqb_neq; lia).
    replace (0 <? Z.of_nat n)%Z with true by (symmetry; apply Z.ltb_lt; lia).
    rewrite Nat2Z.id. reflexivity.
  - exact Hpages.
  - split.
    + intros Hnil. rewrite Hnil in Hlen. cbn in Hlen. nia.
    + intros Hbeyond. apply length_zero_iff_nil. rewrite Hlen. nia.
  - intros Hbefore. rewrite Hlen. nia.
Qed.

Lemma has_password_failure code message :
  has_key "password" (json (failure code message)) = false.
Proof. reflexivity. Qed.

Lemma has_password_array (docs : list JsValue) :
  Forall (fun doc => has_key "password" doc = false) docs ->
  has_key "password" (JArr docs) = false.
Proof.
  induction 1 as [| doc docs Hdoc _ IH]; [reflexivity |].
  cbn [has_key existsb] in *. rewrite Hdoc, IH. reflexivity.
Qed.

Lemma has_password_populate_both us doc :
  has_key "password" doc = false ->
  has_key "password" (populate_both us doc) = false.
Proof.
  intros Hdoc. unfold populate_both.
  apply has_password_populate, has_password_populate, Hdoc.
Qed.

Lemma has_password_js_int a : has_key "password" (js_int a) = false.
Proof. destruct a; reflexivity. Qed.

Lemma has_password_pages total limitNum :
  has_key "password" (pages_of total limitNum) = false.
Proof.
  unfold pages_of. destruct limitNum as [l|]; [| reflexivity].
  destruct (l =? 0)%Z; [reflexivity |]. destruct (0 <? l)%Z; reflexivity.
Qed.

(** X10.  No response of the two loan reads carries a property named
    [password], whatever the store holds and whoever asks. *)
Theorem reads_never_show_password env authHeader q id db :
  has_key "password" (json (fst (get_loans env authHeader q db))) = false
  /\ has_key "password" (json (fst (get_loan env authHeader id db))) = false.
Proof.
  unfold get_loans, get_loan, guarded.
  destruct (authenticateToken env authHeader db) as [user|res] eqn:Hauth.
  - rewrite verifierOrAdmin_Next. split.
    + unfold list_route.
      destruct (list_page user q db) as [found|]; [| reflexivity].
      unfold success_data. cbn [fst json].
      rewrite !has_key_cons, has_password_array, !has_password_js_int,
        has_password_pages; [reflexivity |].
      apply Forall_fmap, Forall_forall. intros [id' l] _. unfold compose.
      apply has_password_populate_both, has_password_loan.
    + unfold get_route, findById.
      destruct (isValidObjectId id); [| reflexivity].
      destruct (loans db !! castObjectId id) as [l|]; [| reflexivity].
      destruct (is_verifier user && _); [reflexivity |].
      unfold success_data. cbn [fst json].
      rewrite !has_key_cons.
      rewrite has_password_populate_both by apply has_password_loan.
      reflexivity.
  - apply authenticateToken_Respond in Hauth.
    destruct Hauth as [-> | [-> | ->]]; split; reflexivity.
Qed.

Lemma has_password_user id u :
  has_key "password" (User.toObject id (User.without_password u)) = false.
Proof. reflexivity. Qed.









(** ** The dashboard and the lifecycle *)











Lemma active_by_role (docs : list (string * User.IUser)) :
  (length (filter (fun kv => User.isActive (snd kv) = true) docs)
   = length (filter (fun kv => has_role admin (snd kv)
                               && User.isActive (snd kv) = true) docs)
     + length (filter (fun kv => has_role verifier (snd kv)
                                 && User.isActive (snd kv) = true) docs))%nat.
Proof.
  induction docs as [| [id u] docs IH]; [reflexivity |].
  rewrite !filter_cons. cbn [snd].
  assert (Hrole : has_role admin u = negb (has_role verifier u))
    by (unfold has_role; destruct (User.role u); reflexivity).
  rewrite Hrole.
  destruct (has_role verifier u), (User.isActive u); cbn [negb andb];
    repeat case_decide; try congruence; cbn [length]; lia.
Qed.

(** X15.  The user statistics are part of the dashboard for an admin only; in
    them the active users are the active admins and the active verifiers
    together, and never more than the total. *)
Theorem user_statistics_by_role user db :
  (User.role (profile user) = verifier ->
   get "users" (get "data" (json (fst (stats_route user db)))) = JUndefined)
  /\ (User.role (profile user) = admin ->
      get "users" (get "data" (json (fst (stats_route user db))))
      = JObj [("total", count (count_users (fun _ => true) (users db)));
              ("active", count (count_users User.isActive (users db)));
              ("admins",
               count (count_users
                        (fun u => has_role admin u && User.isActive u)
                        (users db)));
              ("verifiers",
               count (count_users
                        (fun u => has_role verifier u && User.isActive u)
                        (users db)))])
  /\ (count_users User.isActive (users db)
      = count_users (fun u => has_role admin u && User.isActive u) (users db)
        + count_users (fun u => has_role verifier u && User.isActive u)
            (users db))%nat
  /\ (count_users User.isActive (users db)
      <= count_users (fun _ => true) (users db))%nat.
Proof.
  split; [| split; [| split]].
  - intros Hrole. unfold stats_route. rewrite Hrole. reflexivity.
  - intros Hrole. unfold stats_route. rewrite Hrole. reflexivity.
  - unfold count_users. apply active_by_role.
  - unfold count_users.
    transitivity (length (map_to_list (users db))); [apply length_filter |].
    apply Nat.eq_le_incl. symmetry.
    induction (map_to_list (users db)) as [| kv docs IH]; [reflexivity |].
    rewrite filter_cons_True by reflexivity. cbn [length]. lia.
Qed.

End Further.

(** ** The user accounts *)

Section Accounts.
Context {P : Platform} {B : Bcrypt}.

(** A route behind [adminOnly] runs for admins only; every other request
    is answered by the gates with 401 or 403. *)
Lemma guarded_adminOnly_cases env authHeader db handler :
  (exists res, guarded env adminOnly authHeader db handler = (res, db)
               /\ (statusCode res = 401%nat \/ statusCode res = 403%nat))
  \/ (exists user, authenticateToken env authHeader db = Next user
                   /\ User.role (profile user) = admin
                   /\ guarded env adminOnly authHeader db handler
                      = handler user).
Proof.
  unfold guarded.
  destruct (authenticateToken env authHeader db) as [user|res] eqn:Hauth.
  - destruct (User.role (profile user)) eqn:Hrole.
    + right. exists user. rewrite (adminOnly_admin _ Hrole). auto.
    + left. rewrite (adminOnly_verifier _ Hrole). eexists. split; [reflexivity |].
      right. reflexivity.
  - left. exists res. split; [reflexivity |].
    apply authenticateToken_Respond in Hauth.
    destruct Hauth as [-> | [-> | ->]]; cbn; auto.
Qed.

Lemma findUserByEmail_None email (coll : gmap string User.IUser) :
  findUserByEmail email coll = None <->
  forall id u, coll !! id = Some u -> User.email u <> email.
Proof.
  unfold findUserByEmail. split.
  - intros Hnone id u Hu.
    apply String.eqb_neq.
    apply (find_none _ _ Hnone (id, u)).
    apply list_elem_of_In, elem_of_map_to_list. exact Hu.
  - intros Hall. destruct (List.find _ _) as [[id u]|] eqn:Hfind; [| reflexivity].
    apply find_some in Hfind as [Hin Hf]. cbn in Hf.
    apply list_elem_of_In, elem_of_map_to_list in Hin.
    apply String.eqb_eq in Hf. destruct (Hall _ _ Hin Hf).
Qed.

Lemma role_of_name s r : role_of s = Some r -> role_name r = s.
Proof.
  unfold role_of.
  destruct (String.eqb s "admin") eqn:Ha;
    [apply String.eqb_eq in Ha; intros [= <-]; auto |].
  destruct (String.eqb s "verifier") eqn:Hv;
    [apply String.eqb_eq in Hv; intros [= <-]; auto | discriminate].
Qed.

Lemma create_user_route_cases now newId b db :
  (snd (create_user_route now newId b db) = db
   /\ statusCode (fst (create_user_route now newId b db)) <> 201%nat)
  \/ exists r,
       createUserValidation b = []
       /\ findUserByEmail (normalizeEmail (NewUser.email b)) (users db) = None
       /\ role_of (NewUser.role b) = Some r
       /\ users db !! newId = None
       /\ let u := {| User.email := normalizeEmail (NewUser.email b);
                      User.password :=
                        Some (bcrypt_hash (NewUser.password b) 12);
                      User.role := r; User.name := trim (NewUser.name b);
                      User.createdAt := now; User.updatedAt := now;
                      User.isActive := true |} in
          create_user_route now newId b db =
            ({| statusCode := 201;
                json := JObj [("success", JBool true);
                              ("message", JStr "User created successfully");
                              ("data",
                               JObj [("user",
                                      JObj [("id", JStr newId);
                                            ("email", JStr (User.email u));
                                            ("name", JStr (User.name u));
                                            ("role", JStr (role_name r));
                                            ("isActive", JBool true)])])] |},
             {| users := <[newId := u]> (users db); loans := loans db |}).
Proof.
  unfold create_user_route, save_user.
  case_bool_decide as Herr; cbn [negb];
    [| left; split; [reflexivity | cbn; lia]].
  destruct (findUserByEmail _ (users db)) eqn:Hdup;
    [left; split; [reflexivity | cbn; lia] |].
  destruct (role_of (NewUser.role b)) as [r|] eqn:Hrole;
    [| left; split; [reflexivity | cbn; lia]].
  destruct (users db !! newId) eqn:Hfresh;
    [left; split; [reflexivity | cbn; lia] |].
  right. exists r. auto 10.
Qed.

Lemma delete_user_route_cases now user userId db :
  (snd (delete_user_route now user userId db) = db
   /\ statusCode (fst (delete_user_route now user userId db)) <> 200%nat)
  \/ exists u,
       userId <> _id user
       /\ isValidObjectId userId = true
       /\ users db !! castObjectId userId = Some u
       /\ delete_user_route now user userId db =
            (success_message "User deactivated successfully",
             {| users := <[castObjectId userId := set_active false now u]>
                           (users db);
                loans := loans db |}).
Proof.
  unfold delete_user_route, findById, setActiveById.
  destruct (String.eqb userId (_id user)) eqn:Hself;
    [left; split; [reflexivity | cbn; lia] |].
  destruct (isValidObjectId userId); [| left; split; [reflexivity | cbn; lia]].
  destruct (users db !! castObjectId userId) as [u|];
    [| left; split; [reflexivity | cbn; lia]].
  right. exists u. apply String.eqb_neq in Hself. auto.
Qed.

Lemma activate_user_route_cases now user userId isActive db :
  (snd (activate_user_route now user userId isActive db) = db
   /\ statusCode (fst (activate_user_route now user userId isActive db))
      <> 200%nat)
  \/ exists b u,
       isActive = JBool b
       /\ (userId = _id user -> b = true)
       /\ isValidObjectId userId = true
       /\ users db !! castObjectId userId = Some u
       /\ activate_user_route now user userId isActive db =
            (success ("User " ++ (if b then "activated" else "deactivated")
                      ++ " successfully")
               (JObj [("user", User.toObject (castObjectId userId)
                                 (User.without_password
                                    (set_active b now u)))]),
             {| users := <[castObjectId userId := set_active b now u]>
                           (users db);
                loans := loans db |}).
Proof.
  unfold activate_user_route, setActiveById.
  destruct isActive as [| |b| | | | |];
    try (left; split; [reflexivity | cbn; lia]).
  destruct (String.eqb userId (_id user) && negb b) eqn:Hself;
    [left; split; [reflexivity | cbn; lia] |].
  destruct (isValidObjectId userId); [| left; split; [reflexivity | cbn; lia]].
  destruct (users db !! castObjectId userId) as [u|];
    [| left; split; [reflexivity | cbn; lia]].
  right. exists b, u. repeat split; try reflexivity.
  intros ->. rewrite String.eqb_refl in Hself. destruct b; [reflexivity | discriminate].
Qed.

Lemma list_users_route_db q db : snd (list_users_route q db) = db.
Proof.
  unfold list_users_route. destruct (users_page q db); reflexivity.
Qed.

(** What a request to a user endpoint can do to the database. *)
Lemma user_step_cases db db' :
  user_step db db' ->
  db' = db
  \/ (exists newId u,
        users db !! newId = None
        /\ (forall id u0, users db !! id = Some u0 ->
                          User.email u0 <> User.email u)
        /\ db' = {| users := <[newId := u]> (users db); loans := loans db |})
  \/ (exists userId u b now,
        users db !! userId = Some u
        /\ db' = {| users := <[userId := set_active b now u]> (users db);
                    loans := loans db |}).
Proof.
  intros [env authHeader q | env now authHeader newId b
          | env now authHeader userId | env now authHeader userId isActive].
  - left. unfold get_admin_users.
    destruct (guarded_adminOnly_cases env authHeader db
                (fun _ => list_users_route q db))
      as [(res & -> & _) | (user & _ & _ & ->)];
      [reflexivity | apply list_users_route_db].
  - unfold post_admin_users.
    destruct (guarded_adminOnly_cases env authHeader db
                (fun _ => create_user_route now newId b db))
      as [(res & -> & _) | (user & _ & _ & ->)]; [left; reflexivity |].
    destruct (create_user_route_cases now newId b db)
      as [[-> _] | (r & _ & Hnone & _ & Hfresh & Heq)]; [left; reflexivity |].
    right; left. cbv zeta in Heq. rewrite Heq. cbn [snd].
    eexists _, _. split; [exact Hfresh |]. split; [| reflexivity].
    apply findUserByEmail_None. exact Hnone.
  - unfold delete_admin_user.
    destruct (guarded_adminOnly_cases env authHeader db
                (fun user => delete_user_route now user userId db))
      as [(res & -> & _) | (user & _ & _ & ->)]; [left; reflexivity |].
    destruct (delete_user_route_cases now user userId db)
      as [[-> _] | (u & _ & _ & Hu & ->)]; [left; reflexivity |].
    right; right. exists (castObjectId userId), u, false, now. auto.
  - unfold patch_admin_user_activate.
    destruct (guarded_adminOnly_cases env authHeader db
                (fun user => activate_user_route now user userId isActive db))
      as [(res & -> & _) | (user & _ & _ & ->)]; [left; reflexivity |].
    destruct (activate_user_route_cases now user userId isActive db)
      as [[-> _] | (b & u & _ & _ & _ & Hu & ->)]; [left; reflexivity |].
    right; right. exists (castObjectId userId), u, b, now. auto.
Qed.

(** X16.  No user endpoint touches a loan or removes a user, and of a stored
    user it changes nothing but [isActive] and [updatedAt]; each request
    is a step of the system. *)
Theorem user_routes_keep_records db db' :
  user_step db db' ->
  loans db' = loans db
  /\ (forall id u,
        users db !! id = Some u ->
        exists u',
          users db' !! id = Some u'
          /\ User.email u' = User.email u
          /\ User.password u' = User.password u
          /\ User.role u' = User.role u
          /\ User.name u' = User.name u
          /\ User.createdAt u' = User.createdAt u)
  /\ step db db'.
Proof.
  intros Hstep.
  destruct (user_step_cases _ _ Hstep)
    as [-> | [(newId & u0 & Hfresh & _ & ->)
             | (userId & u0 & b & now & Hu0 & ->)]].
  - split; [reflexivity |]. split; [eauto 10 |].
    destruct db as [us ls]. exact (step_users {| users := us; loans := ls |} us).
  - split; [reflexivity |]. split; [| apply step_users].
    intros id u Hu. exists u. cbn.
    rewrite lookup_insert_ne by congruence. auto 10.
  - split; [reflexivity |]. split; [| apply step_users].
    intros id u Hu. cbn. destruct (decide (userId = id)) as [-> | Hne].
    + rewrite Hu in Hu0. injection Hu0 as <-.
      eexists. rewrite lookup_insert_eq. split; [reflexivity |]. auto.
    + exists u. rewrite lookup_insert_ne by assumption. auto 10.
Qed.

Lemma user_step_emails_unique db db' :
  user_step db db' -> emails_unique (users db) -> emails_unique (users db').
Proof.
  intros Hstep Huniq.
  destruct (user_step_cases _ _ Hstep)
    as [-> | [(newId & u0 & Hfresh & Hnew & ->)
             | (userId & u0 & b & now & Hu0 & ->)]]; [assumption | |].
  - intros id1 id2 u1 u2. cbn.
    destruct (decide (newId = id1)) as [<- | H1],
             (decide (newId = id2)) as [<- | H2]; [reflexivity | | |].
    + rewrite lookup_insert_eq, lookup_insert_ne by assumption.
      intros [= <-] Hu2 Hemail. destruct (Hnew _ _ Hu2). auto.
    + rewrite lookup_insert_eq, lookup_insert_ne by assumption.
      intros Hu1 [= <-] Hemail. destruct (Hnew _ _ Hu1). auto.
    + rewrite !lookup_insert_ne by assumption. apply Huniq.
  - intros id1 id2 u1 u2. cbn.
    destruct (decide (userId = id1)) as [<- | H1],
             (decide (userId = id2)) as [<- | H2]; [reflexivity | | |].
    + rewrite lookup_insert_eq, lookup_insert_ne by assumption.
      intros [= <-] Hu2 Hemail. exact (Huniq _ _ _ _ Hu0 Hu2 Hemail).
    + rewrite lookup_insert_eq, lookup_insert_ne by assumption.
      intros Hu1 [= <-] Hemail. exact (Huniq _ _ _ _ Hu1 Hu0 Hemail).
    + rewrite !lookup_insert_ne by assumption. apply Huniq.
Qed.

(** X17.  Along every run of requests to the user endpoints no two users come
    to share an email. *)
Theorem emails_stay_unique db db' :
  emails_unique (users db) -> rtc user_step db db' ->
  emails_unique (users db').
Proof.
  intros Huniq Hrun. induction Hrun as [| ? ? ? Hstep _ IH]; [assumption |].
  apply IH. exact (user_step_emails_unique _ _ Hstep Huniq).
Qed.

(** X18.  A user is created by an admin only, under an email no stored user
    has; the stored password is the bcrypt hash with 12 rounds, the new
    account is active, and the 201 response shows no password. *)
Theorem created_user_record env now authHeader newId b db :
  statusCode (fst (post_admin_users env now authHeader newId b db))
    = 201%nat ->
  exists caller u,
    authenticateToken env authHeader db = Next caller
    /\ User.role (profile caller) = admin
    /\ users db !! newId = None
    /\ (forall id u0, users db !! id = Some u0 ->
                      User.email u0 <> User.email u)
    /\ snd (post_admin_users env now authHeader newId b db)
       = {| users := <[newId := u]> (users db); loans := loans db |}
    /\ User.email u = normalizeEmail (NewUser.email b)
    /\ User.password u = Some (bcrypt_hash (NewUser.password b) 12)
    /\ role_name (User.role u) = NewUser.role b
    /\ User.isActive u = true
    /\ has_key "password"
         (json (fst (post_admin_users env now authHeader newId b db)))
       = false.
Proof.
  intros Hcode. unfold post_admin_users in *.
  destruct (guarded_adminOnly_cases env authHeader db
              (fun _ => create_user_route now newId b db))
    as [(res & Heq & Hres) | (caller & Hauth & Hrole & Heq)];
    rewrite Heq in Hcode |- *.
  - cbn in Hcode. destruct Hres as [Hres | Hres]; rewrite Hres in Hcode;
      discriminate.
  - destruct (create_user_route_cases now newId b db)
      as [[_ Hfail] | (r & _ & Hnone & Hr & Hfresh & Hroute)];
      [contradiction |].
    cbv zeta in Hroute. rewrite Hroute. cbn [fst snd json].
    exists caller,
      {| User.email := normalizeEmail (NewUser.email b);
         User.password := Some (bcrypt_hash (NewUser.password b) 12);
         User.role := r; User.name := trim (NewUser.name b);
         User.createdAt := now; User.updatedAt := now;
         User.isActive := true |}.
    split; [exact Hauth |]. split; [exact Hrole |].
    split; [exact Hfresh |].
    split; [apply findUserByEmail_None; exact Hnone |].
    split; [reflexivity |]. cbn.
    repeat split. apply role_of_name. exact Hr.
Qed.

(** X20.  A successful [DELETE] is a soft delete by an admin: the
    document of the user the id casts to stays, with [isActive] false and
    a new [updatedAt], and nothing else in the database changes.  The
    guard against deleting one's own account compares the string of the
    request with the caller's id as [toString()] writes it: a request for
    exactly that string is refused with 400, and a request for another
    spelling of the caller's own id passes the guard and deactivates the
    caller's own account. *)
Theorem delete_deactivates env now authHeader userId db :
  (statusCode (fst (delete_admin_user env now authHeader userId db))
     = 200%nat ->
   exists caller u,
     authenticateToken env authHeader db = Next caller
     /\ User.role (profile caller) = admin
     /\ userId <> _id caller
     /\ users db !! castObjectId userId = Some u
     /\ snd (delete_admin_user env now authHeader userId db)
        = {| users := <[castObjectId userId := set_active false now u]>
                        (users db);
             loans := loans db |}
     /\ User.isActive (set_active false now u) = false
     /\ User.email (set_active false now u) = User.email u
     /\ User.password (set_active false now u) = User.password u
     /\ User.role (set_active false now u) = User.role u
     /\ User.name (set_active false now u) = User.name u)
  /\ (forall caller,
        authenticateToken env authHeader db = Next caller ->
        User.role (profile caller) = admin ->
        (userId = _id caller ->
         delete_admin_user env now authHeader userId db
         = (failure 400 "Cannot delete your own account", db))
        /\ (userId <> _id caller ->
            isValidObjectId userId = true ->
            castObjectId userId = _id caller ->
            exists u,
              users db !! _id caller = Some u
              /\ delete_admin_user env now authHeader userId db
                 = (success_message "User deactivated successfully",
                    {| users := <[_id caller := set_active false now u]>
                                  (users db);
                       loans := loans db |}))).
Proof.
  unfold delete_admin_user. split.
  - intros Hcode.
    destruct (guarded_adminOnly_cases env authHeader db
                (fun user => delete_user_route now user userId db))
      as [(res & Heq & Hres) | (caller & Hauth & Hrole & Heq)];
      rewrite Heq in Hcode |- *.
    + cbn in Hcode. destruct Hres as [Hres | Hres]; rewrite Hres in Hcode;
        discriminate.
    + destruct (delete_user_route_cases now caller userId db)
        as [[_ Hfail] | (u & Hne & _ & Hu & Hroute)]; [contradiction |].
      rewrite Hroute. exists caller, u. auto 12.
  - intros caller Hauth Hrole. unfold guarded.
    rewrite Hauth, (adminOnly_admin _ Hrole). split.
    + intros ->. unfold delete_user_route. rewrite String.eqb_refl.
      reflexivity.
    + intros Hne Hid Hkey.
      destruct (authenticateToken_Next _ _ _ _ Hauth)
        as (_ & _ & _ & u & _ & _ & _ & _ & _ & Hu & _ & _).
      exists u. split; [exact Hu |].
      apply String.eqb_neq in Hne.
      unfold delete_user_route, findById, setActiveById.
      rewrite Hne, Hid, Hkey, Hu. reflexivity.
Qed.

(** X21.  [PATCH .../activate] wants a boolean; a successful request sets
    [isActive] to it on the one user the id casts to and shows that user
    without password.  The guard against deactivating one's own account
    compares the string of the request with the caller's id as
    [toString()] writes it: a deactivation under exactly that string is
    refused with 400, before the store is read, and a deactivation under
    another spelling of the caller's own id passes the guard and
    deactivates the caller's own account. *)
Theorem activate_switches env now authHeader userId isActive db :
  (statusCode (fst (patch_admin_user_activate env now authHeader userId
                      isActive db)) = 200%nat ->
   exists caller b u,
     authenticateToken env authHeader db = Next caller
     /\ User.role (profile caller) = admin
     /\ isActive = JBool b
     /\ (userId = _id caller -> b = true)
     /\ users db !! castObjectId userId = Some u
     /\ snd (patch_admin_user_activate env now authHeader userId isActive db)
        = {| users := <[castObjectId userId := set_active b now u]>
                        (users db);
             loans := loans db |}
     /\ User.isActive (set_active b now u) = b
     /\ has_key "password"
          (json (fst (patch_admin_user_activate env now authHeader userId
                        isActive db))) = false)
  /\ (forall caller,
        authenticateToken env authHeader db = Next caller ->
        User.role (profile caller) = admin ->
        ((forall b, isActive <> JBool b) ->
         patch_admin_user_activate env now authHeader userId isActive db
         = (failure 400 "isActive must be a boolean value", db))
        /\ (isActive = JBool false -> userId = _id caller ->
            patch_admin_user_activate env now authHeader userId isActive db
            = (failure 400 "Cannot deactivate your own account", db))
        /\ (isActive = JBool false -> userId <> _id caller ->
            isValidObjectId userId = true ->
            castObjectId userId = _id caller ->
            exists u,
              users db !! _id caller = Some u
              /\ statusCode
                   (fst (patch_admin_user_activate env now authHeader userId
                           isActive db)) = 200%nat
              /\ snd (patch_admin_user_activate env now authHeader userId
                        isActive db)
                 = {| users := <[_id caller := set_active false now u]>
                                 (users db);
                      loans := loans db |})).
Proof.
  unfold patch_admin_user_activate. split.
  - intros Hcode.
    destruct (guarded_adminOnly_cases env authHeader db
                (fun user => activate_user_route now user userId isActive db))
      as [(res & Heq & Hres) | (caller & Hauth & Hrole & Heq)];
      rewrite Heq in Hcode |- *.
    + cbn in Hcode. destruct Hres as [Hres | Hres]; rewrite Hres in Hcode;
        discriminate.
    + destruct (activate_user_route_cases now caller userId isActive db)
        as [[_ Hfail] | (b & u & Hb & Hself & _ & Hu & Hroute)];
        [contradiction |].
      rewrite Hroute. exists caller, b, u.
      split; [exact Hauth |]. split; [exact Hrole |]. split; [exact Hb |].
      split; [exact Hself |]. split; [exact Hu |]. split; [reflexivity |].
      split; [reflexivity |].
      unfold success. cbn [fst json].
      rewrite !has_key_cons, has_password_user. reflexivity.
  - intros caller Hauth Hrole. unfold guarded.
    rewrite Hauth, (adminOnly_admin _ Hrole). split; [| split].
    + intros Hnot. unfold activate_user_route.
      destruct isActive; try reflexivity. destruct (Hnot b). reflexivity.
    + intros -> ->. unfold activate_user_route.
      rewrite String.eqb_refl. reflexivity.
    + intros -> Hne Hid Hkey.
      destruct (authenticateToken_Next _ _ _ _ Hauth)
        as (_ & _ & _ & u & _ & _ & _ & _ & _ & Hu & _ & _).
      exists u. split; [exact Hu |].
      apply String.eqb_neq in Hne.
      unfold activate_user_route, setActiveById.
      rewrite Hne, Hid, Hkey, Hu. split; reflexivity.
Qed.



End Accounts.

(** * Further properties on the sample deployment *)

Section Sample.
#[local] Existing Instance Scenario.platform.
#[local] Existing Instance Staff.sample_hash.

Lemma seeded_trails_ok : trails_ok Scenario.seeded.
Proof.
  unfold trails_ok, trail_ok. apply (bool_decide_unpack _). vm_compute. exact I.
Defined.

Lemma seeded_emails_unique : emails_unique (users Scenario.seeded).
Proof.
  intros id1 id2 u1 u2 H1 H2 Hemail.
  unfold Scenario.seeded in H1, H2. cbn [users] in H1, H2.
  rewrite !lookup_insert_Some, lookup_empty in H1, H2.
  destruct H1 as [[<- <-] | [_ [[<- <-] | [_ [[<- <-] | [_ H1]]]]]];
    try discriminate H1;
    destruct H2 as [[<- <-] | [_ [[<- <-] | [_ [[<- <-] | [_ H2]]]]]];
    try discriminate H2; try reflexivity; vm_compute in Hemail;
    discriminate Hemail.
Defined.


Lemma bearer_token_second_word_witness :
  bearer_token (Scenario.bearer "token.admin") = Some "token.admin"
  /\ bearer_token (Some "Bearer") = None.
Proof.
  destruct (bearer_token_second_word "Bearer" "token.admin" "more")
    as (Hone & _ & Hnone & _);
    [reflexivity | reflexivity | discriminate |].
  split; [exact Hone | exact Hnone].
Defined.

Lemma authenticated_identity_witness :
  exists u,
    users Scenario.seeded !! Scenario.admin_id = Some u
    /\ User.isActive u = true
    /\ User.password (profile Scenario.admin_ctx) = None
    /\ User.email (profile Scenario.admin_ctx) = User.email u
    /\ User.name (profile Scenario.admin_ctx) = User.name u
    /\ User.role (profile Scenario.admin_ctx) = User.role u.
Proof.
  apply (authenticated_identity Scenario.env (Scenario.bearer "token.admin")
           Scenario.seeded Scenario.admin_ctx).
  vm_compute. reflexivity.
Defined.

Lemma step_moves_along_lifecycle_witness :
  exists l',
    loans (snd (patch_loans_verify Scenario.env 3000
                  (Scenario.bearer "token.verifier") Scenario.john_id
                  Scenario.verify_body Scenario.seeded))
      !! Scenario.john_id = Some l'
    /\ lifecycle_move (Loan.status Scenario.john) (Loan.status l')
    /\ same_application Scenario.john l'.
Proof.
  apply (step_moves_along_lifecycle Scenario.seeded).
  - apply step_verify.
  - vm_compute. reflexivity.
Defined.

Lemma trails_kept_witness :
  trails_ok
    (snd (patch_admin_loans_approve Scenario.env 3100
            (Scenario.bearer "token.admin") Scenario.john_id
            Scenario.approve_body
            (snd (patch_loans_verify Scenario.env 3000
                    (Scenario.bearer "token.verifier") Scenario.john_id
                    Scenario.verify_body Scenario.seeded)))).
Proof.
  apply (trails_kept Scenario.seeded); [exact seeded_trails_ok |].
  eapply rtc_l; [apply step_verify |]. apply rtc_once, step_approve.
Defined.

Lemma second_submission_refused_witness :
  apply_route 3100 Staff.next_id Staff.newcomer
    (snd (apply_route 3000 Scenario.fresh_id Staff.newcomer Scenario.seeded))
  = (failure 400 "You already have a pending loan application",
     snd (apply_route 3000 Scenario.fresh_id Staff.newcomer Scenario.seeded)).
Proof.
  apply second_submission_refused; vm_compute; reflexivity.
Defined.

Lemma credit_score_out_of_range_witness :
  apply_route 3000 Scenario.fresh_id Staff.overscored Scenario.seeded
  = (failure 500 "Server error during loan application", Scenario.seeded).
Proof.
  apply (credit_score_out_of_range 3000%Z Scenario.fresh_id Staff.overscored
           Scenario.seeded 900).
  - vm_compute. reflexivity.
  - apply (bool_decide_unpack
             (map_Forall
                (fun _ l =>
                   open_application
                     (normalizeEmail (Body.email Staff.overscored)) l = false)
                (loans Scenario.seeded))).
    vm_compute. exact I.
  - reflexivity.
  - vm_compute. reflexivity.
Defined.

Lemma submitted_loan_runs_its_course_witness :
  statusCode
    (fst (patch_admin_loans_approve Scenario.env 3200
            (Scenario.bearer "token.admin") Scenario.fresh_id
            Scenario.approve_body
            (snd (patch_loans_verify Scenario.env 3100
                    (Scenario.bearer "token.verifier") Scenario.fresh_id
                    Scenario.verify_body
                    (snd (apply_route 3000 Scenario.fresh_id Staff.newcomer
                            Scenario.seeded)))))) = 200%nat.
Proof.
  destruct (submitted_loan_runs_its_course Scenario.env 3000%Z 3100%Z 3200%Z
              3300%Z Scenario.fresh_id Scenario.fresh_id Staff.newcomer
              Scenario.seeded
              (Scenario.bearer "token.verifier")
              (Scenario.bearer "token.admin")
              Scenario.verifier_ctx Scenario.admin_ctx JUndefined JUndefined
              Scenario.verify_body) as (_ & Happroved & _);
    [vm_compute; reflexivity .. |].
  exact Happroved.
Defined.

(** The four sample loans under a limit of zero, and in pages of three. *)
Lemma list_page_window_witness :
  length (listed (fst (list_route Scenario.admin_ctx (Scenario.paged "7" "0")
                         Scenario.seeded))) = 4%nat.
Proof.
  destruct (list_page_window Scenario.admin_ctx (Scenario.paged "7" "0")
              Scenario.seeded) as (Hfound & Hzero & _).
  destruct (Hzero 7%Z) as [Hpage _]; [reflexivity .. |].
  destruct (Hfound _ Hpage) as (_ & -> & _).
  vm_compute. reflexivity.
Defined.

Lemma pages_cover_the_list_witness :
  exists found,
    list_page Scenario.admin_ctx (Scenario.paged "2" "3") Scenario.seeded
    = Return found
    /\ get "pages"
         (get "pagination"
            (get "data"
               (json (fst (list_route Scenario.admin_ctx
                             (Scenario.paged "2" "3") Scenario.seeded)))))
       = count 2
    /\ length found = 1%nat.
Proof.
  destruct (pages_cover_the_list Scenario.admin_ctx (Scenario.paged "2" "3")
              Scenario.seeded 2 3)
    as (found & Hfound & Hpages & _ & _ & _);
    [reflexivity | reflexivity | lia | reflexivity | lia |].
  exists found. split; [exact Hfound |]. split; [exact Hpages |].
  vm_compute in Hfound. injection Hfound as <-. reflexivity.
Defined.



Lemma user_routes_keep_records_witness :
  loans (snd (delete_admin_user Scenario.env 3000
                (Scenario.bearer "token.admin") Scenario.verifier_id
                Scenario.seeded))
  = loans Scenario.seeded
  /\ step Scenario.seeded
       (snd (delete_admin_user Scenario.env 3000
               (Scenario.bearer "token.admin") Scenario.verifier_id
               Scenario.seeded)).
Proof.
  destruct (user_routes_keep_records Scenario.seeded
              (snd (delete_admin_user Scenario.env 3000
                      (Scenario.bearer "token.admin") Scenario.verifier_id
                      Scenario.seeded))) as (Hloans & _ & Hstep);
    [apply user_step_delete |].
  split; [exact Hloans | exact Hstep].
Defined.

Lemma emails_stay_unique_witness :
  emails_unique
    (users (snd (delete_admin_user Scenario.env 3100
                   (Scenario.bearer "token.admin") Scenario.verifier_id
                   (snd (post_admin_users Scenario.env 3000
                           (Scenario.bearer "token.admin") Staff.new_id
                           Staff.recruit Scenario.seeded))))).
Proof.
  apply (emails_stay_unique Scenario.seeded); [exact seeded_emails_unique |].
  eapply rtc_l; [apply user_step_create |]. apply rtc_once, user_step_delete.
Defined.

Lemma created_user_record_witness :
  exists caller u,
    authenticateToken Scenario.env (Scenario.bearer "token.admin")
      Scenario.seeded = Next caller
    /\ User.role (profile caller) = admin
    /\ users Scenario.seeded !! Staff.new_id = None
    /\ (forall id u0, users Scenario.seeded !! id = Some u0 ->
                      User.email u0 <> User.email u)
    /\ snd (post_admin_users Scenario.env 3000 (Scenario.bearer "token.admin")
              Staff.new_id Staff.recruit Scenario.seeded)
       = {| users := <[Staff.new_id := u]> (users Scenario.seeded);
            loans := loans Scenario.seeded |}
    /\ User.email u = normalizeEmail (NewUser.email Staff.recruit)
    /\ User.password u
       = Some (bcrypt_hash (NewUser.password Staff.recruit) 12)
    /\ role_name (User.role u) = NewUser.role Staff.recruit
    /\ User.isActive u = true
    /\ has_key "password"
         (json (fst (post_admin_users Scenario.env 3000
                       (Scenario.bearer "token.admin") Staff.new_id
                       Staff.recruit Scenario.seeded)))
       = false.
Proof. apply created_user_record. vm_compute. reflexivity. Defined.

(** The second admin deletes, and deactivates, the account under their
    own id written in upper case. *)
Lemma delete_deactivates_witness :
  Staff.shouted_id <> _id Staff.second_ctx
  /\ statusCode (fst (delete_admin_user Scenario.env 3100
                        (Scenario.bearer "token.second") Staff.shouted_id
                        Staff.grown)) = 200%nat
  /\ User.isActive
       <$> users (snd (delete_admin_user Scenario.env 3100
                         (Scenario.bearer "token.second") Staff.shouted_id
                         Staff.grown)) !! _id Staff.second_ctx
     = Some false.
Proof.
  split; [discriminate |].
  destruct (delete_deactivates Scenario.env 3100%Z
              (Scenario.bearer "token.second") Staff.shouted_id Staff.grown)
    as [_ Hguard].
  destruct (Hguard Staff.second_ctx) as [_ Hpass];
    [vm_compute; reflexivity | reflexivity |].
  destruct Hpass as (u & _ & ->); [discriminate | reflexivity | reflexivity |].
  split; [reflexivity |]. cbn [snd users].
  rewrite lookup_insert_eq. reflexivity.
Defined.

Lemma activate_switches_witness :
  statusCode (fst (patch_admin_user_activate Scenario.env 3100
                     (Scenario.bearer "token.second") Staff.shouted_id
                     (JBool false) Staff.grown)) = 200%nat
  /\ patch_admin_user_activate Scenario.env 3100
       (Scenario.bearer "token.second") Staff.new_id (JBool false)
       Staff.grown
     = (failure 400 "Cannot deactivate your own account", Staff.grown).
Proof.
  destruct (activate_switches Scenario.env 3100%Z
              (Scenario.bearer "token.second") Staff.shouted_id (JBool false)
              Staff.grown) as [_ Hguard].
  destruct (Hguard Staff.second_ctx) as (_ & _ & Hpass);
    [vm_compute; reflexivity | reflexivity |].
  destruct Hpass as (u & _ & Hcode & _);
    [reflexivity | discriminate | reflexivity | reflexivity |].
  split; [exact Hcode |].
  destruct (activate_switches Scenario.env 3100%Z
              (Scenario.bearer "token.second") Staff.new_id (JBool false)
              Staff.grown) as [_ Hown].
  destruct (Hown Staff.second_ctx) as (_ & Hrefused & _);
    [vm_compute; reflexivity | reflexivity |].
  apply Hrefused; reflexivity.
Defined.


End Sample.
